(** * Even/Odd league player agent: shallow embedding and verified properties

    The development follows the layout of the Python package [my_project]:

    - [Py]           : the fragment of Python the agent relies on (JSON-like
                       values, exceptions, dictionaries' [get], slicing,
                       decimal formatting);
    - [Timestamp]    : [utils/timestamp.py];
    - [Protocol]     : [core/protocol.py];
    - [State]        : [agents/player/state.py];
    - [Strategy]     : [agents/player/strategy.py], with the two keyword
                       log calls of [utils/logger.py]'s logger;
    - [Handlers]     : [agents/player/handlers.py];
    - [Server]       : the [mcp_endpoint] of [agents/player/server.py];
    - [Registration] : [core/registration.py];
    - [Settings]     : the string settings of [config/settings.py];
    - [Samples]      : concrete inputs used by the examples.

    Python dictionaries are finite maps ([gmap string pyval]); functions
    that may raise return an [outcome]; reads of the wall clock and of the
    random generator, the behaviour of the reasoning service, of the
    League Manager and of the terminal renderer, the content of the state
    file and the environment variables are explicit arguments. Floating
    point is not modelled: [get_win_rate] is left out, and the deadline
    functions take their one float operation as an argument.

    The second half states and proves the properties: C1 to C10, then the
    further properties X1 to X23. *)

From stdpp Require Import gmap strings list fin_maps.
From Stdlib Require Import ZArith NArith QArith Ascii.
Close Scope Q_scope.

(** ** The Python fragment *)

Module Py.

(** Values that travel in JSON-RPC parameters and in built messages. *)
#[warnings="-register-all"]
Inductive pyval :=
| PNone
| PBool (b : bool)
| PInt (z : Z)
| PFloat (q : Q)
| PStr (s : string)
| PList (l : list pyval)
| PDict (d : gmap string pyval).

(** Exceptions. A constructor stands for its class and the subclasses
    the code does not tell apart. [CancelledError] and [KeyboardInterrupt]
    derive from [BaseException] only, so [except Exception] lets them
    through. [ServiceError] is any other [Exception] subclass raised by an
    external collaborator (network failure, quota, ...). *)
Inductive exn :=
| ValueError (msg : string)
| TypeError (msg : string)
| AttributeError (msg : string)
| RuntimeError (msg : string)
| ImportError (msg : string)
| AsyncioTimeoutError
| ServiceError (cls msg : string)
| CancelledError
| KeyboardInterrupt.

(** [isinstance(e, Exception)] *)
Definition is_Exception (e : exn) : bool :=
  match e with
  | CancelledError | KeyboardInterrupt => false
  | _ => true
  end.

(** [isinstance(e, ValueError)] *)
Definition is_ValueError (e : exn) : bool :=
  match e with ValueError _ => true | _ => false end.

(** [isinstance(e, asyncio.TimeoutError)] *)
Definition is_TimeoutError (e : exn) : bool :=
  match e with AsyncioTimeoutError => true | _ => false end.

(** [str(e)] *)
Definition exn_str (e : exn) : string :=
  match e with
  | ValueError m | TypeError m | AttributeError m | RuntimeError m
  | ImportError m | ServiceError _ m => m
  | AsyncioTimeoutError | CancelledError | KeyboardInterrupt => EmptyString
  end.

(** The result of running a piece of code: a value, or a raised exception. *)
Inductive outcome (A : Type) :=
| Return (a : A)
| Raise (e : exn).
Arguments Return {A} a.
Arguments Raise {A} e.

#[global] Instance outcome_ret : MRet outcome := @Return.
#[global] Instance outcome_bind : MBind outcome := fun A B f m =>
  match m with
  | Return a => f a
  | Raise e => Raise e
  end.

Definition returns {A} (m : outcome A) : bool :=
  match m with Return _ => true | Raise _ => false end.

(** Truth value of an object, as tested by [if x:] and [not x]. *)
Definition truthy (v : pyval) : bool :=
  match v with
  | PNone => false
  | PBool b => b
  | PInt z => negb (z =? 0)%Z
  | PFloat q => negb (Qeq_bool q 0)
  | PStr s => negb (String.eqb s EmptyString)
  | PList l => negb (Nat.eqb (length l) 0)
  | PDict d => negb (Nat.eqb (size d) 0)
  end.

(** Truth value of an [Optional[str]]. *)
Definition truthy_opt_str (o : option string) : bool :=
  match o with
  | Some s => negb (String.eqb s EmptyString)
  | None => false
  end.

Definition type_name (v : pyval) : string :=
  match v with
  | PNone => "NoneType"
  | PBool _ => "bool"
  | PInt _ => "int"
  | PFloat _ => "float"
  | PStr _ => "str"
  | PList _ => "list"
  | PDict _ => "dict"
  end.

(** [v == s] for a string [s]: only an equal string compares equal. *)
Definition eq_str (v : pyval) (s : string) : bool :=
  match v with
  | PStr s' => String.eqb s' s
  | _ => false
  end.

(** [v in ["even", "odd"]] *)
Definition in_even_odd (v : pyval) : bool :=
  eq_str v "even" || eq_str v "odd".

(** [d.get(k, dflt)] on a dictionary with string keys. *)
Definition get (d : gmap string pyval) (k : string) (dflt : pyval) : pyval :=
  default dflt (d !! k).

(** [obj.get(key, dflt)] when neither the receiver nor the key is known to
    be well typed: a receiver that is not a dictionary has no [get]
    attribute, and lists and dictionaries cannot be hashed. Any other key
    that is not a string equals no key of a JSON object. *)
Definition get_method (obj key dflt : pyval) : outcome pyval :=
  match obj with
  | PDict d =>
      match key with
      | PStr k => Return (get d k dflt)
      | PList _ | PDict _ =>
          Raise (TypeError ("unhashable type: '" +:+ type_name key +:+ "'"))
      | _ => Return dflt
      end
  | _ => Raise (AttributeError
                  ("'" +:+ type_name obj +:+ "' object has no attribute 'get'"))
  end.

(** [l[start:]] *)
Definition slice_from {A} (start : Z) (l : list A) : list A :=
  let n := Z.of_nat (length l) in
  let i := if (start <? 0)%Z then Z.max 0 (n + start) else Z.min start n in
  drop (Z.to_nat i) l.

(** Characters and decimal numerals. *)
Definition nl : string := String "010"%char EmptyString.

Definition is_digit (c : ascii) : bool :=
  let n := N_of_ascii c in ((48 <=? n) && (n <=? 57))%N.

Definition digit_val (c : ascii) : N := (N_of_ascii c - 48)%N.

Definition digit_char (d : N) : ascii := ascii_of_N (48 + d).

(** The [w] lowest decimal digits of [n], most significant first. *)
Fixpoint fixed_digits (w : nat) (n : N) : string :=
  match w with
  | O => EmptyString
  | S w' => String (digit_char ((n / 10 ^ N.of_nat w') mod 10)%N)
                   (fixed_digits w' n)
  end.

Fixpoint ndigits_aux (fuel : nat) (n : N) : nat :=
  match fuel with
  | O => 1
  | S f => if (n <? 10)%N then 1 else S (ndigits_aux f (n / 10)%N)
  end.

(** Number of decimal digits of [n] (one for zero). *)
Definition ndigits (n : N) : nat := ndigits_aux (N.to_nat n) n.

(** ["%0wd" % n] for a natural number. *)
Definition zero_pad (w : nat) (n : N) : string :=
  fixed_digits (Nat.max w (ndigits n)) n.

(** [str(n)] for a natural number. *)
Definition nat_str (n : nat) : string := zero_pad 1 (N.of_nat n).

(** [str(z)] for an integer. *)
Definition int_str (z : Z) : string :=
  if (z <? 0)%Z then "-" +:+ zero_pad 1 (Z.to_N (- z)) else zero_pad 1 (Z.to_N z).

Definition dq : string := String "034"%char EmptyString.

(** A text given line by line, each line ended by a newline. *)
Definition unlines (ls : list string) : string :=
  foldr (fun l acc => l +:+ nl +:+ acc) EmptyString ls.

(** [s.lower()] on the ASCII range. *)
Definition lower_char (c : ascii) : ascii :=
  let n := N_of_ascii c in
  if ((65 <=? n) && (n <=? 90))%N then ascii_of_N (n + 32) else c.

Fixpoint lower (s : string) : string :=
  match s with
  | EmptyString => EmptyString
  | String c s' => String (lower_char c) (lower s')
  end.

(** Every character of [s] satisfies [p]. *)
Fixpoint str_forall (p : ascii -> bool) (s : string) : bool :=
  match s with
  | EmptyString => true
  | String c s' => p c && str_forall p s'
  end.

(** [s.endswith(suffix)] *)
Fixpoint endswith (suffix s : string) : bool :=
  String.eqb s suffix ||
  match s with
  | EmptyString => false
  | String _ s' => endswith suffix s'
  end.

(** [s.rstrip(c)] for a single character [c]. *)
Fixpoint rstrip (c : ascii) (s : string) : string :=
  match s with
  | EmptyString => EmptyString
  | String a s' =>
      let r := rstrip c s' in
      if String.eqb r EmptyString && Ascii.eqb a c then EmptyString else String a r
  end.

(** [s.replace(old, new)] for a non-empty [old]: occurrences are replaced
    from left to right without overlap. [skip] counts the characters of a
    replaced occurrence still to be dropped. *)
Fixpoint replace_from (old new : string) (skip : nat) (s : string) : string :=
  match s with
  | EmptyString => EmptyString
  | String c s' =>
      match skip with
      | S k => replace_from old new k s'
      | O =>
          if String.prefix old s
          then new +:+ replace_from old new (String.length old - 1) s'
          else String c (replace_from old new 0 s')
      end
  end.

Definition replace (old new s : string) : string := replace_from old new 0 s.

End Py.

Export Py.

(** ** utils/timestamp.py *)

Module Timestamp.

(** An aware [datetime] in UTC, as returned by [datetime.now(timezone.utc)]. *)
Record datetime := {
  year : N;
  month : N;
  day : N;
  hour : N;
  minute : N;
  second : N;
  microsecond : N;
}.

Definition is_leap (y : N) : bool :=
  ((y mod 4 =? 0) && (negb (y mod 100 =? 0) || (y mod 400 =? 0)))%N.

Definition days_in_month (y m : N) : N :=
  match m with
  | 1 | 3 | 5 | 7 | 8 | 10 | 12 => 31
  | 4 | 6 | 9 | 11 => 30
  | 2 => if is_leap y then 29 else 28
  | _ => 0
  end%N.

(** The ranges the [datetime] constructor enforces. *)
Definition valid_datetime (d : datetime) : bool :=
  ((1 <=? year d) && (year d <=? 9999) &&
   (1 <=? month d) && (month d <=? 12) &&
   (1 <=? day d) && (day d <=? days_in_month (year d) (month d)) &&
   (hour d <? 24) && (minute d <? 60) && (second d <? 60) &&
   (microsecond d <? 1000000))%N.

(** [d.isoformat()] for an aware UTC datetime: the fraction is printed
    only when the microsecond field is not zero. *)
Definition isoformat (d : datetime) : string :=
  zero_pad 4 (year d) +:+ "-" +:+ zero_pad 2 (month d) +:+ "-" +:+
  zero_pad 2 (day d) +:+ "T" +:+
  zero_pad 2 (hour d) +:+ ":" +:+ zero_pad 2 (minute d) +:+ ":" +:+
  zero_pad 2 (second d) +:+
  (if (microsecond d =? 0)%N then EmptyString else "." +:+ zero_pad 6 (microsecond d))
  +:+ "+00:00".

(** The regular expressions needed for [ISO8601_PATTERN]. [Dollar] is
    Python's [$]: the end of the string, or just before a final newline.
    [\d] is read on the ASCII range. *)
Inductive cclass :=
| CChar (c : ascii)
| CDigit.

Inductive regex :=
| One (c : cclass)
| Times (n : nat) (c : cclass)
| Many1 (c : cclass)
| Opt (r : regex)
| Cat (r1 r2 : regex)
| Dollar.

Definition in_class (cl : cclass) (c : ascii) : bool :=
  match cl with
  | CChar a => Ascii.eqb c a
  | CDigit => is_digit c
  end.

Fixpoint times (n : nat) (p : ascii -> bool) (k : string -> bool)
    (s : string) : bool :=
  match n with
  | O => k s
  | S n' =>
      match s with
      | String c s' => p c && times n' p k s'
      | EmptyString => false
      end
  end.

Fixpoint many1 (p : ascii -> bool) (k : string -> bool) (s : string) : bool :=
  match s with
  | String c s' => p c && (many1 p k s' || k s')
  | EmptyString => false
  end.

Definition at_end (s : string) : bool :=
  String.eqb s EmptyString || String.eqb s nl.

(** Backtracking matcher: [re_match r k s] holds when a prefix of [s]
    matches [r] and the continuation [k] accepts the rest. *)
Fixpoint re_match (r : regex) (k : string -> bool) (s : string) : bool :=
  match r with
  | One cl =>
      match s with
      | String c s' => in_class cl c && k s'
      | EmptyString => false
      end
  | Times n cl => times n (in_class cl) k s
  | Many1 cl => many1 (in_class cl) k s
  | Opt r' => re_match r' k s || k s
  | Cat r1 r2 => re_match r1 (re_match r2 k) s
  | Dollar => at_end s && k s
  end.

(** [pattern.match(s)]: anchored at the start only. *)
Definition pattern_match (r : regex) (s : string) : bool :=
  re_match r (fun _ => true) s.

(** [r'^\d{4}-\d{2}-\d{2}T\d{2}:\d{2}:\d{2}(\.\d+)?Z$'] *)
Definition ISO8601_PATTERN : regex :=
  Cat (Times 4 CDigit) (Cat (One (CChar "-"))
  (Cat (Times 2 CDigit) (Cat (One (CChar "-"))
  (Cat (Times 2 CDigit) (Cat (One (CChar "T"))
  (Cat (Times 2 CDigit) (Cat (One (CChar ":"))
  (Cat (Times 2 CDigit) (Cat (One (CChar ":"))
  (Cat (Times 2 CDigit)
  (Cat (Opt (Cat (One (CChar ".")) (Many1 CDigit)))
  (Cat (One (CChar "Z")) Dollar)))))))))))).

(** [get_utc_now], given the clock reading [now]. *)
Definition get_utc_now (now : datetime) : string :=
  replace "+00:00" "Z" (isoformat now).

(** [datetime.fromisoformat] changed in Python 3.11: older versions accept
    a fraction of exactly three or six digits, newer ones any number of
    digits (those after the sixth are dropped). *)
Inductive py_version := Before311 | From311.

Fixpoint take_digits (k : nat) (acc : N) (s : string) : option (N * string) :=
  match k with
  | O => Some (acc, s)
  | S k' =>
      match s with
      | String c s' =>
          if is_digit c then take_digits k' (10 * acc + digit_val c)%N s'
          else None
      | EmptyString => None
      end
  end.

Definition expect (c : ascii) (s : string) : option string :=
  match s with
  | String a s' => if Ascii.eqb a c then Some s' else None
  | EmptyString => None
  end.

Definition skip_char (s : string) : option string :=
  match s with
  | String _ s' => Some s'
  | EmptyString => None
  end.

(** Reads a run of digits up to the end of the string: the value of its
    first six digits and its length. *)
Fixpoint read_fraction (acc : N) (len : nat) (s : string) : option (N * nat) :=
  match s with
  | EmptyString => Some (acc, len)
  | String c s' =>
      if is_digit c
      then read_fraction (if (len <? 6)%nat then 10 * acc + digit_val c else acc)%N
                         (S len) s'
      else None
  end.

Definition fraction_ok (v : py_version) (len : nat) : bool :=
  match v with
  | Before311 => Nat.eqb len 3 || Nat.eqb len 6
  | From311 => Nat.leb 1 len
  end.

(** What may follow the seconds: nothing, or a dot and a run of digits,
    scaled to microseconds and returned with its number of digits. *)
Definition parse_fraction (y mo d h mi sec : N) (s : string)
    : option (datetime * option nat) :=
  match s with
  | EmptyString => Some (Build_datetime y mo d h mi sec 0, None)
  | String c s' =>
      if Ascii.eqb c "."
      then '(f, len) ← read_fraction 0 0 s';
           Some (Build_datetime y mo d h mi sec
                   (f * 10 ^ N.of_nat (6 - Nat.min len 6))%N, Some len)
      else None
  end.

(** Splits ["YYYY-MM-DD?HH:MM:SS[.f+]"] into its fields. *)
Definition parse_iso (s : string) : option (datetime * option nat) :=
  '(y, s) ← take_digits 4 0 s;
  s ← expect "-" s;
  '(mo, s) ← take_digits 2 0 s;
  s ← expect "-" s;
  '(d, s) ← take_digits 2 0 s;
  s ← skip_char s;
  '(h, s) ← take_digits 2 0 s;
  s ← expect ":" s;
  '(mi, s) ← take_digits 2 0 s;
  s ← expect ":" s;
  '(sec, s) ← take_digits 2 0 s;
  parse_fraction y mo d h mi sec s.

(** [datetime.fromisoformat(s)] on the extended format with seconds, the
    only shape [ISO8601_PATTERN] lets through to it. Every other string is
    reported as invalid. *)
Definition fromisoformat (v : py_version) (s : string) : outcome datetime :=
  match parse_iso s with
  | Some (d, frac) =>
      if valid_datetime d && from_option (fraction_ok v) true frac
      then Return d
      else Raise (ValueError ("Invalid isoformat string: '" +:+ s +:+ "'"))
  | None => Raise (ValueError ("Invalid isoformat string: '" +:+ s +:+ "'"))
  end.

(** [_parse_timestamp]: the parsed value is naive, so the UTC zone is
    attached and the fields are unchanged. *)
Definition _parse_timestamp (v : py_version) (timestamp_str : string)
    : outcome datetime :=
  let dt_str := rstrip "Z" timestamp_str in
  fromisoformat v dt_str.

Definition validate_timestamp (v : py_version) (timestamp_str : string)
    : outcome bool :=
  if String.eqb timestamp_str EmptyString
  then Raise (ValueError "Timestamp string cannot be None or empty")
  else if negb (pattern_match ISO8601_PATTERN timestamp_str)
  then Return false
  else match _parse_timestamp v timestamp_str with
       | Return _ => Return true
       | Raise (ValueError _) | Raise (TypeError _) => Return false
       | Raise e => Raise e
       end.

(** The module-level convenience function. *)
Definition utc_now (now : datetime) : string := get_utc_now now.

(** A timestamp carries sub-second precision when it has a fraction. *)
Fixpoint has_fraction (s : string) : bool :=
  match s with
  | EmptyString => false
  | String c s' => Ascii.eqb c "." || has_fraction s'
  end.

(** The nineteen characters [YYYY-MM-DDTHH:MM:SS] of a clock reading. *)
Definition date_time_text (d : datetime) : string :=
  fixed_digits 4 (year d) +:+ "-" +:+ fixed_digits 2 (month d) +:+ "-" +:+
  fixed_digits 2 (day d) +:+ "T" +:+
  fixed_digits 2 (hour d) +:+ ":" +:+ fixed_digits 2 (minute d) +:+ ":" +:+
  fixed_digits 2 (second d).

(** The characters of a timestamp in the module's format. *)
Definition iso_char (c : ascii) : bool :=
  is_digit c || Ascii.eqb c "-" || Ascii.eqb c ":" || Ascii.eqb c "." ||
  Ascii.eqb c "T" || Ascii.eqb c "Z".

(** The difference of two datetimes. [toordinal] counts the days from 1
    January of year 1, as [date.toordinal] does; [timedelta a b] is
    [a - b] in microseconds. *)
Definition days_before_year (y : N) : Z :=
  let y := (Z.of_N y - 1)%Z in (y * 365 + y / 4 - y / 100 + y / 400)%Z.

Definition days_before_month (y m : N) : Z :=
  foldr Z.add 0%Z
    ((fun k => Z.of_N (days_in_month y (N.of_nat k))) <$> seq 1 (N.to_nat m - 1)).

Definition toordinal (d : datetime) : Z :=
  (days_before_year (year d) + days_before_month (year d) (month d) +
   Z.of_N (day d))%Z.

Definition microseconds (d : datetime) : Z :=
  ((toordinal d * 86400 + Z.of_N (hour d) * 3600 + Z.of_N (minute d) * 60 +
    Z.of_N (second d)) * 1000000 + Z.of_N (microsecond d))%Z.

Definition timedelta (a b : datetime) : Z := (microseconds a - microseconds b)%Z.

(** The reference time of the two deadline functions: the parsed
    [reference_time] when one is given and not empty, the clock reading
    [now] otherwise. [what] is the name the error message uses. *)
Definition current_time (v : py_version) (what : string)
    (reference_time : option string) (now : datetime) : outcome datetime :=
  match reference_time with
  | Some r =>
      if negb (String.eqb r EmptyString) then
        validate_timestamp v r ≫= fun valid : bool =>
        if negb valid
        then Raise (ValueError (what +:+ r))
        else _parse_timestamp v r
      else Return now
  | None => Return now
  end.

(** [is_expired]. The elapsed time is the float [total_seconds()] of an
    exact difference; its comparison with the bound is [exceeds], applied
    to the elapsed microseconds and the bound in seconds. *)
Definition is_expired (v : py_version) (exceeds : Z -> Z -> bool)
    (timestamp_str : string) (timeout_seconds : Z)
    (reference_time : option string) (now : datetime) : outcome bool :=
  if (timeout_seconds <? 0)%Z
  then Raise (ValueError ("timeout_seconds must be non-negative, got " +:+
                          int_str timeout_seconds))
  else
    validate_timestamp v timestamp_str ≫= fun valid : bool =>
    if negb valid
    then Raise (ValueError ("Invalid timestamp format: " +:+ timestamp_str))
    else
      start_dt ← _parse_timestamp v timestamp_str;
      current_dt ← current_time v "Invalid reference_time format: "
                     reference_time now;
      mret (exceeds (timedelta current_dt start_dt) timeout_seconds).

(** [get_seconds_until_deadline]; [remaining] is the float subtraction
    of the elapsed time, given in microseconds, from the bound. *)
Definition get_seconds_until_deadline {F : Type} (v : py_version)
    (remaining : Z -> Z -> F) (start_timestamp : string)
    (timeout_seconds : Z) (reference_time : option string) (now : datetime)
    : outcome F :=
  validate_timestamp v start_timestamp ≫= fun valid : bool =>
  if negb valid
  then Raise (ValueError ("Invalid start_timestamp: " +:+ start_timestamp))
  else
    start_dt ← _parse_timestamp v start_timestamp;
    current_dt ← current_time v "Invalid reference_time: " reference_time now;
    mret (remaining timeout_seconds (timedelta current_dt start_dt)).

End Timestamp.

(** ** core/protocol.py *)

Module Protocol.
Import Timestamp.

Record ProtocolMessageBuilder := {
  player_id : string;
  auth_token : option string;
}.

Definition PROTOCOL_VERSION : string := "league.v2".

Definition __init__ (player_id : string) : outcome ProtocolMessageBuilder :=
  if negb (truthy (PStr player_id))
  then Raise (ValueError "player_id cannot be None or empty")
  else Return {| player_id := player_id; auth_token := None |}.

Definition set_auth_token (self : ProtocolMessageBuilder) (auth_token : string)
    : ProtocolMessageBuilder :=
  {| player_id := player_id self; auth_token := Some auth_token |}.

(** [d.update(other)]: the entries of [other] win. *)
Definition update (d other : gmap string pyval) : gmap string pyval :=
  other ∪ d.

(** [now] is the clock reading of the [utc_now()] call. *)
Definition _build_envelope (self : ProtocolMessageBuilder)
    (message_type : string) (conversation_id : pyval) (include_auth : bool)
    (now : datetime) : outcome (gmap string pyval) :=
  let envelope : gmap string pyval :=
    {[ "protocol" := PStr PROTOCOL_VERSION;
       "message_type" := PStr message_type;
       "sender" := PStr ("player:" +:+ player_id self);
       "timestamp" := PStr (utc_now now);
       "conversation_id" := conversation_id ]} in
  if include_auth then
    match auth_token self with
    | Some t =>
        if negb (truthy (PStr t))
        then Raise (ValueError
               ("auth_token is required for " +:+ message_type +:+
                " but not set. Call set_auth_token() after registration."))
        else Return (<["auth_token" := PStr t]> envelope)
    | None =>
        Raise (ValueError
               ("auth_token is required for " +:+ message_type +:+
                " but not set. Call set_auth_token() after registration."))
    end
  else Return envelope.

Definition build_league_register_request (self : ProtocolMessageBuilder)
    (conversation_id : pyval) (display_name callback_url : string)
    (now : datetime) : outcome (gmap string pyval) :=
  envelope ← _build_envelope self "LEAGUE_REGISTER_REQUEST" conversation_id false now;
  mret (update envelope
          {[ "player_id" := PStr (player_id self);
             "display_name" := PStr display_name;
             "callback_url" := PStr callback_url ]}).

(** The envelope and the arrival timestamp read the clock separately. *)
Definition build_game_join_ack (self : ProtocolMessageBuilder)
    (conversation_id match_id : pyval) (accept : bool)
    (now arrival : datetime) : outcome (gmap string pyval) :=
  envelope ← _build_envelope self "GAME_JOIN_ACK" conversation_id true now;
  mret (update envelope
          {[ "match_id" := match_id;
             "player_id" := PStr (player_id self);
             "arrival_timestamp" := PStr (utc_now arrival);
             "accept" := PBool accept ]}).

Definition build_choose_parity_response (self : ProtocolMessageBuilder)
    (conversation_id match_id : pyval) (parity_choice : string)
    (now : datetime) : outcome (gmap string pyval) :=
  if negb (in_even_odd (PStr parity_choice))
  then Raise (ValueError
         ("parity_choice must be lowercase 'even' or 'odd', got: '" +:+
          parity_choice +:+
          "'. This is a CRITICAL protocol requirement. See CLAUDE.md line 1920."))
  else
    envelope ← _build_envelope self "CHOOSE_PARITY_RESPONSE" conversation_id true now;
    mret (update envelope
            {[ "match_id" := match_id;
               "player_id" := PStr (player_id self);
               "parity_choice" := PStr parity_choice ]}).

Definition build_result_acknowledgment (self : ProtocolMessageBuilder)
    (conversation_id match_id : pyval) (status : string)
    (now : datetime) : outcome (gmap string pyval) :=
  envelope ← _build_envelope self "RESULT_ACKNOWLEDGMENT" conversation_id true now;
  mret (update envelope
          {[ "match_id" := match_id;
             "status" := PStr status ]}).

Definition validate_parity_choice (choice : string) : bool :=
  in_even_odd (PStr choice).

(** The three builders whose envelope carries the token. *)
Inductive auth_builder :=
| GameJoinAck (accept : bool) (arrival : datetime)
| ChooseParityResponse (parity_choice : string)
| ResultAcknowledgment (status : string).

Definition message_type_of (k : auth_builder) : string :=
  match k with
  | GameJoinAck _ _ => "GAME_JOIN_ACK"
  | ChooseParityResponse _ => "CHOOSE_PARITY_RESPONSE"
  | ResultAcknowledgment _ => "RESULT_ACKNOWLEDGMENT"
  end.

Definition build (self : ProtocolMessageBuilder) (k : auth_builder)
    (conversation_id match_id : pyval) (now : datetime)
    : outcome (gmap string pyval) :=
  match k with
  | GameJoinAck accept arrival =>
      build_game_join_ack self conversation_id match_id accept now arrival
  | ChooseParityResponse parity_choice =>
      build_choose_parity_response self conversation_id match_id parity_choice now
  | ResultAcknowledgment status =>
      build_result_acknowledgment self conversation_id match_id status now
  end.

(** The text of the configuration error raised for a missing token. *)
Definition missing_token_message (message_type : string) : string :=
  "auth_token is required for " +:+ message_type +:+
  " but not set. Call set_auth_token() after registration.".

(** The text of the validation error raised for a malformed choice. *)
Definition invalid_choice_message (parity_choice : string) : string :=
  "parity_choice must be lowercase 'even' or 'odd', got: '" +:+
  parity_choice +:+
  "'. This is a CRITICAL protocol requirement. See CLAUDE.md line 1920.".

(** [normalize_parity_choice]: the lowercased choice, once it is a valid
    one; the error names the choice as it was given. *)
Definition normalize_parity_choice (choice : string) : outcome string :=
  let choice_lower := lower choice in
  if negb (in_even_odd (PStr choice_lower))
  then Raise (ValueError ("Invalid parity choice: " +:+ choice))
  else Return choice_lower.

End Protocol.

(** ** agents/player/state.py *)

Module State.
Import Timestamp.
Local Open Scope Z_scope.

Record MatchResult := {
  match_id : pyval;
  opponent_id : pyval;
  player_choice : pyval;
  opponent_choice : pyval;
  drawn_number : pyval;
  result : string;
  points_earned : Z;
  timestamp : string;
}.

(** The [stats] dictionary: its five keys are created by the constructor
    and never removed. *)
Record Stats := {
  wins : Z;
  draws : Z;
  losses : Z;
  total_points : Z;
  total_matches : Z;
}.

Record PlayerState := {
  player_id : string;
  display_name : string;
  max_history_entries : Z;
  persistence_enabled : bool;
  state_file_path : option string;
  auth_token : option string;
  registered : bool;
  stats : Stats;
  match_history : list MatchResult;
}.

(** [PlayerState(player_id, display_name, max_history_entries)] with
    persistence left at its default (disabled), so that no earlier
    snapshot is loaded. *)
Definition __init__ (player_id display_name : string)
    (max_history_entries : Z) : outcome PlayerState :=
  if negb (truthy (PStr player_id))
  then Raise (ValueError "player_id cannot be None or empty")
  else Return {|
    player_id := player_id;
    display_name := display_name;
    max_history_entries := max_history_entries;
    persistence_enabled := false;
    state_file_path := None;
    auth_token := None;
    registered := false;
    stats := {| wins := 0; draws := 0; losses := 0;
                total_points := 0; total_matches := 0 |};
    match_history := [];
  |}.

Definition with_stats (self : PlayerState) (st : Stats) : PlayerState :=
  {| player_id := player_id self;
     display_name := display_name self;
     max_history_entries := max_history_entries self;
     persistence_enabled := persistence_enabled self;
     state_file_path := state_file_path self;
     auth_token := auth_token self;
     registered := registered self;
     stats := st;
     match_history := match_history self |}.

Definition with_history (self : PlayerState) (h : list MatchResult)
    : PlayerState :=
  {| player_id := player_id self;
     display_name := display_name self;
     max_history_entries := max_history_entries self;
     persistence_enabled := persistence_enabled self;
     state_file_path := state_file_path self;
     auth_token := auth_token self;
     registered := registered self;
     stats := stats self;
     match_history := h |}.

(** The trailing [_maybe_save_state()] only writes a snapshot to disk (see
    [_maybe_save_state] below); the object itself is left as it is. *)
Definition set_auth_token (self : PlayerState) (token : string) : PlayerState :=
  {| player_id := player_id self;
     display_name := display_name self;
     max_history_entries := max_history_entries self;
     persistence_enabled := persistence_enabled self;
     state_file_path := state_file_path self;
     auth_token := Some token;
     registered := true;
     stats := stats self;
     match_history := match_history self |}.

(** The three branches of "Determine result" with the counter each one
    increments. *)
Definition record_draw (st : Stats) : Stats :=
  {| wins := wins st; draws := draws st + 1; losses := losses st;
     total_points := total_points st; total_matches := total_matches st |}.

Definition record_win (st : Stats) : Stats :=
  {| wins := wins st + 1; draws := draws st; losses := losses st;
     total_points := total_points st; total_matches := total_matches st |}.

Definition record_loss (st : Stats) : Stats :=
  {| wins := wins st; draws := draws st; losses := losses st + 1;
     total_points := total_points st; total_matches := total_matches st |}.

(** "Update statistics" *)
Definition add_points (st : Stats) (points_earned : Z) : Stats :=
  {| wins := wins st; draws := draws st; losses := losses st;
     total_points := total_points st + points_earned;
     total_matches := total_matches st + 1 |}.

(** [update_from_result]. [now] is the clock reading of [utc_now()]. Both
    places that can raise (the two [choices.get]) come before the first
    assignment, so a raised exception leaves the object untouched. *)
Definition update_from_result (self : PlayerState)
    (game_over_msg : gmap string pyval) (now : datetime)
    : outcome PlayerState :=
  let match_id := get game_over_msg "match_id" (PStr "unknown") in
  let winner := get game_over_msg "winner" PNone in
  let drawn_number := get game_over_msg "drawn_number" (PInt 0) in
  let choices := get game_over_msg "choices" (PDict ∅) in
  let opponent_id := get game_over_msg "opponent_id" (PStr "unknown") in
  player_choice ← get_method choices (PStr (player_id self)) (PStr "unknown");
  opponent_choice ← get_method choices opponent_id (PStr "unknown");
  let '(result, points_earned, st) :=
    match winner with
    | PNone => ("draw", 1, record_draw (stats self))
    | _ =>
        if eq_str winner (player_id self)
        then ("win", 3, record_win (stats self))
        else ("loss", 0, record_loss (stats self))
    end in
  let st := add_points st points_earned in
  let match_record :=
    {| match_id := match_id;
       opponent_id := opponent_id;
       player_choice := player_choice;
       opponent_choice := opponent_choice;
       drawn_number := drawn_number;
       result := result;
       points_earned := points_earned;
       timestamp := utc_now now |} in
  let history := match_history self ++ [match_record] in
  let history :=
    if Z.of_nat (length history) >? max_history_entries self
    then slice_from (- max_history_entries self) history
    else history in
  mret (with_history (with_stats self st) history).

(** [get_stats]: a fresh dictionary. *)
Definition get_stats (self : PlayerState) : gmap string pyval :=
  {[ "wins" := PInt (wins (stats self));
     "draws" := PInt (draws (stats self));
     "losses" := PInt (losses (stats self));
     "total_points" := PInt (total_points (stats self));
     "total_matches" := PInt (total_matches (stats self)) ]}.

(** [dataclasses.asdict] *)
Definition asdict (m : MatchResult) : gmap string pyval :=
  {[ "match_id" := match_id m;
     "opponent_id" := opponent_id m;
     "player_choice" := player_choice m;
     "opponent_choice" := opponent_choice m;
     "drawn_number" := drawn_number m;
     "result" := PStr (result m);
     "points_earned" := PInt (points_earned m);
     "timestamp" := PStr (timestamp m) ]}.

(** [get_match_history(limit)]; [None] is the omitted argument. *)
Definition get_match_history (self : PlayerState) (limit : option Z)
    : list (gmap string pyval) :=
  let history := asdict <$> match_history self in
  match limit with
  | Some n => if truthy (PInt n) then slice_from (- n) history else history
  | None => history
  end.

Definition opt_str (o : option string) : pyval :=
  match o with Some s => PStr s | None => PNone end.

Definition to_dict (self : PlayerState) (now : datetime) : gmap string pyval :=
  {[ "player_id" := PStr (player_id self);
     "display_name" := PStr (display_name self);
     "auth_token" := opt_str (auth_token self);
     "registered" := PBool (registered self);
     "stats" := PDict (get_stats self);
     "match_history" := PList (PDict <$> get_match_history self None);
     "last_updated" := PStr (utc_now now) ]}.

(** [_maybe_save_state]: the path and the snapshot handed to [json.dump],
    when persistence is on. A failed write is only reported on the
    console. *)
Definition _maybe_save_state (self : PlayerState) (now : datetime)
    : option (string * gmap string pyval) :=
  if persistence_enabled self && truthy_opt_str (state_file_path self)
  then path ← state_file_path self; Some (path, to_dict self now)
  else None.

(** Applying a sequence of results, each with its own clock reading; the
    first exception ends the run. *)
Fixpoint apply_results (self : PlayerState)
    (msgs : list (gmap string pyval * datetime)) : outcome PlayerState :=
  match msgs with
  | [] => Return self
  | (m, now) :: rest =>
      self' ← update_from_result self m now;
      apply_results self' rest
  end.

(** The record [update_from_result] appends for a message, as a function
    of the player's identifier alone. *)
Definition record_of (pid : string) (game_over_msg : gmap string pyval)
    (now : datetime) : outcome MatchResult :=
  let choices := get game_over_msg "choices" (PDict ∅) in
  let opponent_id := get game_over_msg "opponent_id" (PStr "unknown") in
  let winner := get game_over_msg "winner" PNone in
  player_choice ← get_method choices (PStr pid) (PStr "unknown");
  opponent_choice ← get_method choices opponent_id (PStr "unknown");
  let '(result, points_earned) :=
    match winner with
    | PNone => ("draw", 1)
    | _ => if eq_str winner pid then ("win", 3) else ("loss", 0)
    end in
  mret {| match_id := get game_over_msg "match_id" (PStr "unknown");
          opponent_id := opponent_id;
          player_choice := player_choice;
          opponent_choice := opponent_choice;
          drawn_number := get game_over_msg "drawn_number" (PInt 0);
          result := result;
          points_earned := points_earned;
          timestamp := utc_now now |}.

(** Delivering a sequence of results one call at a time, as the dispatch
    layer does: a call that raises is reported to its caller and the next
    message meets the state as it was. *)
Fixpoint deliver (self : PlayerState)
    (msgs : list (gmap string pyval * datetime)) : PlayerState :=
  match msgs with
  | [] => self
  | (m, now) :: rest =>
      match update_from_result self m now with
      | Return self' => deliver self' rest
      | Raise _ => deliver self rest
      end
  end.

(** The records appended by a run of [apply_results], in order. *)
Fixpoint records_of (pid : string)
    (msgs : list (gmap string pyval * datetime)) : outcome (list MatchResult) :=
  match msgs with
  | [] => Return []
  | (m, now) :: rest =>
      r ← record_of pid m now;
      rs ← records_of pid rest;
      mret (r :: rs)
  end.

(** The statistics after [n] applied results, as the specification has
    them. *)
Definition stats_consistent (self : PlayerState) (n : nat) : Prop :=
  total_matches (stats self) = Z.of_nat n /\
  wins (stats self) + draws (stats self) + losses (stats self) = Z.of_nat n /\
  total_points (stats self) = 3 * wins (stats self) + 1 * draws (stats self).

(** A result message on which [update_from_result] cannot raise: its
    [choices] entry, when present, is an object, and [opponent_id], when
    present, is hashable. *)
Definition well_formed (game_over_msg : gmap string pyval) : bool :=
  match get game_over_msg "choices" (PDict ∅) with
  | PDict _ =>
      match get game_over_msg "opponent_id" (PStr "unknown") with
      | PList _ | PDict _ => false
      | _ => true
      end
  | _ => false
  end.

(** One for a record with the given result, zero for any other. *)
Definition is_result (kind : string) (r : MatchResult) : Z :=
  if String.eqb (result r) kind then 1 else 0.

(** [get_opponent_history] *)
Definition get_opponent_history (self : PlayerState) (opponent : string)
    : list (gmap string pyval) :=
  asdict <$> filter (fun m => eq_str (opponent_id m) opponent = true)
                    (match_history self).

(** What [_load_state] finds at [state_file_path]: no file; a file that
    cannot be opened or does not hold JSON; or the value [json.load]
    returns. *)
Inductive state_file :=
| Missing
| Unreadable
| Stored (data : pyval).

(** Python stores whatever a snapshot holds, of any type. [Built] is a
    value of the type the field has here, [Untyped] a value of another
    type, [Rejected] an expression that raises. *)
Inductive decoded (A : Type) :=
| Built (a : A)
| Untyped
| Rejected.
Arguments Built {A} a.
Arguments Untyped {A}.
Arguments Rejected {A}.

Definition field_names : list string :=
  ["match_id"; "opponent_id"; "player_choice"; "opponent_choice";
   "drawn_number"; "result"; "points_earned"; "timestamp"].

(** [MatchResult] called with the entries of [m] as keyword arguments: a
    [TypeError] unless [m] is an object whose keys are exactly the eight
    fields; the values are not checked. *)
Definition MatchResult_of (m : pyval) : decoded MatchResult :=
  match m with
  | PDict d =>
      if bool_decide (dom d = list_to_set field_names)
      then match d !! "result", d !! "points_earned", d !! "timestamp" with
           | Some (PStr result), Some (PInt points_earned),
             Some (PStr timestamp) =>
               Built {| match_id := get d "match_id" PNone;
                        opponent_id := get d "opponent_id" PNone;
                        player_choice := get d "player_choice" PNone;
                        opponent_choice := get d "opponent_choice" PNone;
                        drawn_number := get d "drawn_number" PNone;
                        result := result;
                        points_earned := points_earned;
                        timestamp := timestamp |}
           | _, _, _ => Untyped
           end
      else Rejected
  | _ => Rejected
  end.

(** The list comprehension over the entries of [l]: the first call that
    raises ends it. *)
Fixpoint MatchResults_of (l : list pyval) : decoded (list MatchResult) :=
  match l with
  | [] => Built []
  | m :: rest =>
      match MatchResult_of m with
      | Rejected => Rejected
      | Untyped =>
          match MatchResults_of rest with
          | Rejected => Rejected
          | _ => Untyped
          end
      | Built r =>
          match MatchResults_of rest with
          | Built rs => Built (r :: rs)
          | Untyped => Untyped
          | Rejected => Rejected
          end
      end
  end.

(** The comprehension over [history_data]: the keys of an object and the
    characters of a string are strings, on which the call of [MatchResult]
    raises; the other values cannot be iterated. *)
Definition history_of (history_data : pyval) : decoded (list MatchResult) :=
  match history_data with
  | PList l => MatchResults_of l
  | PDict d => if Nat.eqb (size d) 0 then Built [] else Rejected
  | PStr s => if String.eqb s EmptyString then Built [] else Rejected
  | _ => Rejected
  end.

Definition int_at (d : gmap string pyval) (k : string) : option Z :=
  match d !! k with
  | Some (PInt z) => Some z
  | _ => None
  end.

(** The [stats] entry of a snapshot as a [Stats]: an object with exactly
    the five counters, each an integer. *)
Definition Stats_of (v : pyval) : option Stats :=
  match v with
  | PDict d =>
      if Nat.eqb (size d) 5
      then w ← int_at d "wins";
           dr ← int_at d "draws";
           l ← int_at d "losses";
           p ← int_at d "total_points";
           m ← int_at d "total_matches";
           Some {| wins := w; draws := dr; losses := l;
                   total_points := p; total_matches := m |}
      else None
  | _ => None
  end.

(** [_load_state]. The result is [None] when a restored field holds a
    value of a type the record does not have. An exception inside the
    [try] is only reported: the assignments made before it stay. *)
Definition _load_state (self : PlayerState) (file : state_file)
    : option PlayerState :=
  if negb (truthy_opt_str (state_file_path self)) then Some self
  else match file with
  | Missing | Unreadable => Some self
  | Stored (PDict data) =>
      token ← match get data "auth_token" PNone with
              | PNone => Some None
              | PStr t => Some (Some t)
              | _ => None
              end;
      reg ← match get data "registered" (PBool false) with
            | PBool b => Some b
            | _ => None
            end;
      st ← match data !! "stats" with
           | Some v => Stats_of v
           | None => Some (stats self)
           end;
      let self :=
        {| player_id := player_id self;
           display_name := display_name self;
           max_history_entries := max_history_entries self;
           persistence_enabled := persistence_enabled self;
           state_file_path := state_file_path self;
           auth_token := token;
           registered := reg;
           stats := st;
           match_history := match_history self |} in
      match history_of (get data "match_history" (PList [])) with
      | Built h => Some (with_history self h)
      | Untyped => None
      | Rejected => Some self
      end
  | Stored _ => Some self
  end.

(** [PlayerState(player_id, display_name, max_history_entries,
    persistence_enabled, state_file_path)], with what is found at the
    path. *)
Definition __init__persistent (player_id display_name : string)
    (max_history_entries : Z) (persistence_enabled : bool)
    (state_file_path : option string) (file : state_file)
    : outcome (option PlayerState) :=
  if negb (truthy (PStr player_id))
  then Raise (ValueError "player_id cannot be None or empty")
  else
    let self :=
      {| player_id := player_id;
         display_name := display_name;
         max_history_entries := max_history_entries;
         persistence_enabled := persistence_enabled;
         state_file_path := state_file_path;
         auth_token := None;
         registered := false;
         stats := {| wins := 0; draws := 0; losses := 0;
                     total_points := 0; total_matches := 0 |};
         match_history := [] |} in
    if persistence_enabled && truthy_opt_str state_file_path
    then Return (_load_state self file)
    else Return (Some self).

End State.

(** ** agents/player/strategy.py *)

Module Strategy.
Local Open Scope Z_scope.

(** The configuration handed to [Agent(model=Gemini(...), ...)]. *)
Record Agent := {
  model_id : string;
  temperature : Q;
  max_output_tokens : Z;
  instructions : string;
}.

Record StrategyEngine := {
  mode : string;
  llm_timeout : Z;
  agent : option Agent;
}.

(** What [response.content] can be, following the [isinstance] tests of
    [_llm_choice]: a [ParityChoice], a dictionary, or any other object,
    given by its [str()]. *)
Inductive llm_content :=
| ContentParityChoice (choice reasoning : string)
| ContentDict (d : gmap string pyval)
| ContentOther (text : string).

(** The object returned by [agent.arun]: with a [content] attribute, or
    without one, and then with or without [choice] and [reasoning]
    attributes. *)
Inductive llm_response :=
| WithContent (content : llm_content)
| Direct (choice reasoning : option pyval).

(** How one [await self.agent.arun(prompt)] ends: it is still pending when
    the wait bound expires, it raises, or it returns a response. *)
Inductive agent_run :=
| Stalls
| Fails (e : exn)
| Responds (r : llm_response).

(** What a call of [choose_parity] reads from outside: the rendering of
    values in f-strings ([str()]), the reasoning service, the index that
    each call of [random.choice] draws over the two-element list (the
    calls made during the call of [choose_parity] are numbered from
    zero), and the effective level of the module's logger, the lowest
    level it lets through. The module creates its logger with
    [setup_logger(__name__)], which sets the level to [INFO]. *)
Record environment := {
  py_str : pyval -> string;
  arun : Agent -> string -> agent_run;
  draw : nat -> bool;
  logger_level : Z;
}.

(** The logger is a [logging.Logger] ([utils/logger.py]). A call that
    passes keyword arguments, as in [logger.info(msg, choice=choice)],
    hands them to [Logger._log] when the level is enabled; [_log] takes no
    such argument, and the call raises a [TypeError]. A call whose level
    is not enabled does nothing. The calls that pass an f-string alone
    cannot raise and are left out. *)
Definition INFO : Z := 20.
Definition WARNING : Z := 30.

Definition log_with_keyword (env : environment) (level : Z)
    (keyword : string) : outcome unit :=
  if logger_level env <=? level
  then Raise (TypeError ("Logger._log() got an unexpected keyword argument '"
                         +:+ keyword +:+ "'"))
  else Return tt.

(** A computation that may call [random.choice]: it starts from the
    number of calls made before it and gives, with its outcome, the
    number of calls made after it. The calls made before an exception
    is raised stay made. *)
Definition drawing (A : Type) : Type := nat -> outcome A * nat.

Definition lift {A} (o : outcome A) : drawing A := fun calls => (o, calls).

#[global] Instance drawing_ret : MRet drawing := fun A v => lift (Return v).
#[global] Instance drawing_bind : MBind drawing := fun A B f m calls =>
  match m calls with
  | (Return v, calls) => f v calls
  | (Raise e, calls) => (Raise e, calls)
  end.

(** [try: body except: handler] *)
Definition try_except {A} (body : drawing A) (handler : exn -> drawing A)
    : drawing A :=
  fun calls =>
    match body calls with
    | (Return v, calls) => (Return v, calls)
    | (Raise e, calls) => handler e calls
    end.

(** The outcome of a computation that starts with no call made, and the
    number of calls it makes. *)
Definition run {A} (m : drawing A) : outcome A := (m 0%nat).1.
Definition calls_of {A} (m : drawing A) : nat := (m 0%nat).2.

(** A coroutine run under a wait bound. *)
Inductive awaited (A : Type) :=
| Pending
| Done (m : drawing A).
Arguments Pending {A}.
Arguments Done {A} m.

(** [asyncio.wait_for(coro, timeout)]: with a bound that is not positive
    the coroutine is cancelled before it starts. *)
Definition wait_for {A} (coro : awaited A) (timeout : Z) : drawing A :=
  if timeout <=? 0 then lift (Raise AsyncioTimeoutError)
  else match coro with
       | Pending => lift (Raise AsyncioTimeoutError)
       | Done m => m
       end.

Definition _get_default_system_prompt : string :=
  unlines [
    "You are an AI agent playing the Even/Odd game.";
    EmptyString;
    "**Game Rules:**";
    "- Two players simultaneously choose " +:+ dq +:+ "even" +:+ dq +:+ " or " +:+ dq +:+ "odd" +:+ dq;
    "- Referee draws a random number from 1-10";
    "- You win if the number's parity matches your choice";
    "- Scoring: Win = 3 points, Draw = 1 point, Loss = 0 points";
    EmptyString;
    "**Your Task:**";
    "Choose " +:+ dq +:+ "even" +:+ dq +:+ " or " +:+ dq +:+ "odd" +:+ dq +:+ " for the current match.";
    EmptyString;
    "**CRITICAL REQUIREMENTS:**";
    "1. Your choice MUST be lowercase: " +:+ dq +:+ "even" +:+ dq +:+ " or " +:+ dq +:+ "odd" +:+ dq +:+
      " (NEVER " +:+ dq +:+ "Even" +:+ dq +:+ ", " +:+ dq +:+ "ODD" +:+ dq +:+ ", etc.)";
    "2. Provide brief reasoning for your choice (1-2 sentences)";
    "3. Consider game context: opponent patterns, standings, match history";
    EmptyString;
    "**Important Note:**";
    "This is a pure luck game. Your strategy won't statistically improve win rate,";
    "but interesting reasoning makes for better documentation and analysis!";
    EmptyString;
    "**Output Format:**";
    "{";
    "    " +:+ dq +:+ "choice" +:+ dq +:+ ": " +:+ dq +:+ "even" +:+ dq +:+ ",  // MUST be lowercase";
    "    " +:+ dq +:+ "reasoning" +:+ dq +:+ ": " +:+ dq +:+ "Your explanation here" +:+ dq;
    "}"
  ].

Definition _create_agent (model_id : string) (temperature : Q)
    (max_output_tokens : Z) (system_prompt : option string) : Agent :=
  let system_prompt := default _get_default_system_prompt system_prompt in
  {| model_id := model_id;
     temperature := temperature;
     max_output_tokens := max_output_tokens;
     instructions := system_prompt |}.

Definition is_mode (m : string) (ms : list string) : bool :=
  existsb (String.eqb m) ms.

(** The constructor. [AGNO_AVAILABLE] is the module flag set by the
    guarded import, [GOOGLE_API_KEY] the value of [os.getenv]. *)
Definition __init__ (AGNO_AVAILABLE : bool) (GOOGLE_API_KEY : option string)
    (mode gemini_model_id : string) (temperature : Q)
    (max_output_tokens llm_timeout : Z) (system_prompt : option string)
    : outcome StrategyEngine :=
  if negb (is_mode mode ["random"; "llm"; "hybrid"])
  then Raise (ValueError ("Invalid mode: " +:+ mode +:+
                          ". Must be 'random', 'llm', or 'hybrid'"))
  else if llm_timeout >=? 30
  then Raise (ValueError
         ("llm_timeout must be < 30 seconds (protocol limit), got " +:+
          int_str llm_timeout +:+ ". Recommended: 25s for 5-second buffer."))
  else if is_mode mode ["llm"; "hybrid"] then
    if negb AGNO_AVAILABLE
    then Raise (ImportError
           "Agno framework not installed. Install with: pip install agno>=0.59.0")
    else
      let api_key := GOOGLE_API_KEY in
      if negb (truthy_opt_str api_key) ||
         bool_decide (api_key = Some "your_google_gemini_api_key_here")
      then
        if String.eqb mode "llm"
        then Raise (ValueError
               "GOOGLE_API_KEY required for 'llm' mode. Set in .env file or use 'hybrid' mode for fallback.")
        else Return {| mode := mode; llm_timeout := llm_timeout; agent := None |}
      else Return {| mode := mode; llm_timeout := llm_timeout;
                     agent := Some (_create_agent gemini_model_id temperature
                                      max_output_tokens system_prompt) |}
  else Return {| mode := mode; llm_timeout := llm_timeout; agent := None |}.

(** What the call of [random.choice(["even", "odd"])] numbered [calls]
    returns, and [_random_choice], which makes the next call. *)
Definition drawn (env : environment) (calls : nat) : string :=
  if draw env calls then "odd" else "even".

Definition _random_choice (env : environment) : drawing pyval :=
  fun calls => (Return (PStr (drawn env calls)), S calls).

(** The standings block of the prompt. A truthy value that is not a
    dictionary has no [items]. The lines come in the key order of the
    finite map, where Python lists them in insertion order; the prompt is
    only read by the reasoning service. *)
Definition format_standings (env : environment) (standings : pyval)
    : outcome string :=
  if truthy standings then
    match standings with
    | PDict d =>
        Return ("**Current Standings:**" +:+ nl +:+
                foldr (fun '(player, points) acc =>
                         "- " +:+ player +:+ ": " +:+ py_str env points +:+
                         " points" +:+ nl +:+ acc) EmptyString (map_to_list d) +:+ nl)
    | _ => Raise (AttributeError
                    ("'" +:+ type_name standings +:+
                     "' object has no attribute 'items'"))
    end
  else Return EmptyString.

(** One line of the history block, for the entry numbered [i]. *)
Definition format_match (env : environment) (i : nat) (m : pyval)
    : outcome string :=
  opponent_id ← get_method m (PStr "opponent_id") PNone;
  player_choice ← get_method m (PStr "player_choice") PNone;
  result ← get_method m (PStr "result") PNone;
  mret (nat_str i +:+ ". vs " +:+ py_str env opponent_id +:+ ": " +:+
        "You chose " +:+ py_str env player_choice +:+ ", " +:+
        "result: " +:+ py_str env result +:+ nl).

Fixpoint format_matches (env : environment) (i : nat) (ms : list pyval)
    : outcome string :=
  match ms with
  | [] => Return EmptyString
  | m :: rest =>
      line ← format_match env i m;
      lines ← format_matches env (S i) rest;
      mret (line +:+ lines)
  end.

(** The history block: the last five entries, numbered from one. A
    non-empty string can be sliced but its characters have no [get]; a
    dictionary or a number cannot be sliced (the dictionary case is a
    [KeyError] from Python 3.12 on, which the callers treat alike). *)
Definition format_history (env : environment) (history : pyval)
    : outcome string :=
  if truthy history then
    match history with
    | PList l =>
        lines ← format_matches env 1 (slice_from (-5) l);
        mret ("**Recent Match History:**" +:+ nl +:+ lines +:+ nl)
    | PStr _ => Raise (AttributeError "'str' object has no attribute 'get'")
    | PDict _ => Raise (TypeError "unhashable type: 'slice'")
    | _ => Raise (TypeError ("'" +:+ type_name history +:+
                             "' object is not subscriptable"))
    end
  else Return EmptyString.

Definition _format_context_prompt (env : environment)
    (context : gmap string pyval) : outcome string :=
  let opponent := get context "opponent" (PStr "unknown") in
  let standings := get context "standings" (PDict ∅) in
  let history := get context "history" (PList []) in
  let prompt := "Make your parity choice for the current match." +:+ nl +:+ nl in
  let prompt := prompt +:+ "**Opponent:** " +:+ py_str env opponent +:+ nl +:+ nl in
  s ← format_standings env standings;
  let prompt := prompt +:+ s in
  h ← format_history env history;
  let prompt := prompt +:+ h in
  mret (prompt +:+ "Choose 'even' or 'odd' and explain your reasoning.").

(** "Extract choice from structured response" *)
Definition extract_choice (response : llm_response) : outcome pyval :=
  match response with
  | WithContent (ContentParityChoice choice _) => Return (PStr choice)
  | WithContent (ContentDict d) => Return (get d "choice" (PStr "even"))
  | WithContent (ContentOther text) =>
      let choice := lower text in
      if negb (in_even_odd (PStr choice))
      then Raise (ValueError ("Invalid LLM output: " +:+ text))
      else Return (PStr choice)
  | Direct choice _ => Return (default (PStr "even") choice)
  end.

(** "Final validation" *)
Definition final_validation (env : environment) (choice : pyval)
    : drawing pyval :=
  if negb (in_even_odd choice) then _random_choice env else mret choice.

Definition _llm_choice (self : StrategyEngine) (env : environment)
    (context : gmap string pyval) : awaited pyval :=
  match agent self with
  | None => Done (lift (Raise (RuntimeError
                    "Agent not initialized. Check GOOGLE_API_KEY in .env")))
  | Some a =>
      match _format_context_prompt env context with
      | Raise e => Done (lift (Raise e))
      | Return prompt =>
          match arun env a prompt with
          | Stalls => Pending
          | Fails e => Done (lift (Raise e))
          | Responds response =>
              Done (choice ← lift (extract_choice response);
                    final_validation env choice)
          end
      end
  end.

(** The inner [try] of [choose_parity], for the modes that consult the
    reasoning service, with its two keyword log calls: the one after the
    wait, inside the [try], and the one in the
    [except asyncio.TimeoutError] clause, whose exception leaves the inner
    [try]. *)
Definition llm_attempt (self : StrategyEngine) (env : environment)
    (context : gmap string pyval) : drawing pyval :=
  try_except
    (choice ← wait_for (_llm_choice self env context) (llm_timeout self);
     _ ← lift (log_with_keyword env INFO "choice");
     mret choice)
    (fun e =>
       if is_TimeoutError e
       then _ ← lift (log_with_keyword env WARNING "timeout_seconds");
            _random_choice env
       else if is_Exception e then
         if String.eqb (mode self) "llm"
         then lift (Raise e)
         else _random_choice env
       else lift (Raise e)).

(** [choose_parity]: the body of the outer [try], then its
    [except Exception] clause. A mode outside the three known ones would
    fall off the end of the function and return [None]. The calls of
    [random.choice] are counted from the start of the call. *)
Definition choose_parity (self : StrategyEngine) (env : environment)
    (context : gmap string pyval) : outcome pyval :=
  run (try_except
         (if String.eqb (mode self) "random" then _random_choice env
          else if is_mode (mode self) ["llm"; "hybrid"]
          then llm_attempt self env context
          else mret PNone)
         (fun e =>
            if is_Exception e then _random_choice env else lift (Raise e))).

End Strategy.

(** ** agents/player/handlers.py *)

Module Handlers.
Import Timestamp.

Record ToolHandlers := {
  state : State.PlayerState;
  strategy : Strategy.StrategyEngine;
  protocol : Protocol.ProtocolMessageBuilder;
}.

(** The terminal renderer ([utils/console.py]) is a presentation layer;
    each call is given by how it ends: [None] when it returns, [Some e]
    when it raises [e]. *)
Record Console := {
  print_game_invitation : option exn;
  print_parity_thinking : option exn;
  print_parity_choice : option exn;
  print_match_result : option exn;
  print_stats_summary : option exn;
}.

Definition rendered (call : option exn) : outcome unit :=
  match call with
  | None => Return tt
  | Some e => Raise e
  end.

Definition __init__ (state : State.PlayerState)
    (strategy : Strategy.StrategyEngine) : outcome ToolHandlers :=
  protocol ← Protocol.__init__ (State.player_id state);
  let protocol :=
    match State.auth_token state with
    | Some t => if truthy (PStr t) then Protocol.set_auth_token protocol t
                else protocol
    | None => protocol
    end in
  mret {| state := state; strategy := strategy; protocol := protocol |}.

Definition with_protocol (self : ToolHandlers)
    (p : Protocol.ProtocolMessageBuilder) : ToolHandlers :=
  {| state := state self; strategy := strategy self; protocol := p |}.

Definition with_state (self : ToolHandlers) (s : State.PlayerState)
    : ToolHandlers :=
  {| state := s; strategy := strategy self; protocol := protocol self |}.

(** [handle_game_invitation]. The token copied into the builder stays
    there even when the rest of the call raises; the [except] clause only
    logs and re-raises. *)
Definition handle_game_invitation (self : ToolHandlers)
    (params : gmap string pyval) (console : Console) (now arrival : datetime)
    : outcome (gmap string pyval) * ToolHandlers :=
  let conversation_id := get params "conversation_id" (PStr "unknown") in
  let match_id := get params "match_id" (PStr "unknown") in
  let self :=
    match State.auth_token (state self) with
    | Some t =>
        if truthy (PStr t) && negb (truthy_opt_str (Protocol.auth_token (protocol self)))
        then with_protocol self (Protocol.set_auth_token (protocol self) t)
        else self
    | None => self
    end in
  (response ← Protocol.build_game_join_ack (protocol self)
                conversation_id match_id true now arrival;
   _ ← rendered (print_game_invitation console);
   mret response,
   self).

(** "Validate choice is lowercase", with its emergency fallback. *)
Definition validated_choice (parity_choice : pyval) : string :=
  match parity_choice with
  | PStr s => if negb (in_even_odd (PStr s)) then "even" else s
  | _ => "even"
  end.

(** "Build context for strategy engine" *)
Definition choice_context (self : ToolHandlers) (params : gmap string pyval)
    : gmap string pyval :=
  {[ "opponent" := get params "opponent_id" (PStr "unknown");
     "standings" := get params "standings" (PDict ∅);
     "history" := PList (PDict <$> State.get_match_history (state self) (Some 10%Z));
     "deadline" := get params "deadline" PNone ]}.

(** [choose_parity], for a strategy object given by what its
    [choose_parity] does on a context. [now] is the clock reading of the
    response built in the [try] body, [later] that of the response built
    in the [except asyncio.TimeoutError] clause. [print_parity_thinking]
    runs before the [try]. *)
Definition choose_parity_with
    (engine : gmap string pyval -> outcome pyval)
    (self : ToolHandlers) (params : gmap string pyval) (console : Console)
    (now later : datetime) : outcome (gmap string pyval) :=
  let conversation_id := get params "conversation_id" (PStr "unknown") in
  let match_id := get params "match_id" (PStr "unknown") in
  _ ← rendered (print_parity_thinking console);
  let body :=
    let context := choice_context self params in
    parity_choice ← engine context;
    let parity_choice := validated_choice parity_choice in
    response ← Protocol.build_choose_parity_response (protocol self)
                 conversation_id match_id parity_choice now;
    _ ← rendered (print_parity_choice console);
    mret response in
  match body with
  | Return response => Return response
  | Raise e =>
      if is_TimeoutError e
      then Protocol.build_choose_parity_response (protocol self)
             conversation_id match_id "even" later
      else Raise e
  end.

(** [choose_parity] with the agent's own [StrategyEngine]. *)
Definition choose_parity (self : ToolHandlers) (env : Strategy.environment)
    (params : gmap string pyval) (console : Console) (now later : datetime)
    : outcome (gmap string pyval) :=
  choose_parity_with (Strategy.choose_parity (strategy self) env)
    self params console now later.

(** [notify_match_result]. [now] is the clock reading of the match record,
    [later] that of the acknowledgment. The state keeps the applied result
    when a later step raises. *)
Definition notify_match_result (self : ToolHandlers)
    (params : gmap string pyval) (console : Console) (now later : datetime)
    : outcome (gmap string pyval) * ToolHandlers :=
  let conversation_id := get params "conversation_id" (PStr "unknown") in
  let match_id := get params "match_id" (PStr "unknown") in
  let choices := get params "choices" (PDict ∅) in
  let opponent_id := get params "opponent_id" (PStr "unknown") in
  match State.update_from_result (state self) params now with
  | Raise e => (Raise e, self)
  | Return s =>
      let self := with_state self s in
      (response ← Protocol.build_result_acknowledgment (protocol self)
                    conversation_id match_id "acknowledged" later;
       my_choice ← get_method choices (PStr (State.player_id s)) (PStr "unknown");
       opponent_choice ← get_method choices opponent_id (PStr "unknown");
       _ ← rendered (print_match_result console);
       _ ← rendered (print_stats_summary console);
       mret response,
       self)
  end.

Definition update_auth_token (self : ToolHandlers) (auth_token : string)
    : ToolHandlers :=
  {| state := State.set_auth_token (state self) auth_token;
     strategy := strategy self;
     protocol := Protocol.set_auth_token (protocol self) auth_token |}.

End Handlers.

(** ** agents/player/server.py *)

Module Server.
Import Timestamp.
Local Open Scope Z_scope.

Record MCPRequest := {
  jsonrpc : string;
  method : string;
  params : gmap string pyval;
  id : Z;
}.

Record MCPResponse := {
  result : option (gmap string pyval);
  error : option (gmap string pyval);
  response_id : Z;
}.

Definition PARSE_ERROR := -32700.
Definition INVALID_REQUEST := -32600.
Definition METHOD_NOT_FOUND := -32601.
Definition INVALID_PARAMS := -32602.
Definition INTERNAL_ERROR := -32603.

Definition error_response (code : Z) (message : string) (id : Z) : MCPResponse :=
  {| result := None;
     error := Some {[ "code" := PInt code; "message" := PStr message ]};
     response_id := id |}.

(** The two [except] clauses of [mcp_endpoint]; an exception that is not
    an [Exception] leaves the endpoint. *)
Definition shape (id : Z) (o : outcome (gmap string pyval)) : outcome MCPResponse :=
  match o with
  | Return r => Return {| result := Some r; error := None; response_id := id |}
  | Raise e =>
      if is_ValueError e
      then Return (error_response INVALID_PARAMS
                     ("Invalid parameters: " +:+ exn_str e) id)
      else if is_Exception e
      then Return (error_response INTERNAL_ERROR
                     ("Internal error: " +:+ exn_str e) id)
      else Raise e
  end.

(** [mcp_endpoint], for a strategy object given by what its
    [choose_parity] does on a context. *)
Definition mcp_endpoint_with
    (engine : gmap string pyval -> outcome pyval)
    (handlers : Handlers.ToolHandlers) (request : MCPRequest)
    (console : Handlers.Console) (now later : datetime)
    : outcome MCPResponse * Handlers.ToolHandlers :=
  if String.eqb (method request) "handle_game_invitation" then
    let '(o, handlers) :=
      Handlers.handle_game_invitation handlers (params request) console now later in
    (shape (id request) o, handlers)
  else if String.eqb (method request) "choose_parity" then
    (shape (id request)
       (Handlers.choose_parity_with engine handlers (params request) console now later),
     handlers)
  else if String.eqb (method request) "notify_match_result" then
    let '(o, handlers) :=
      Handlers.notify_match_result handlers (params request) console now later in
    (shape (id request) o, handlers)
  else
    (Return (error_response METHOD_NOT_FOUND
               ("Method not found: " +:+ method request) (id request)),
     handlers).

Definition mcp_endpoint (handlers : Handlers.ToolHandlers)
    (env : Strategy.environment) (request : MCPRequest)
    (console : Handlers.Console) (now later : datetime)
    : outcome MCPResponse * Handlers.ToolHandlers :=
  mcp_endpoint_with (Strategy.choose_parity (Handlers.strategy handlers) env)
    handlers request console now later.

(** The tool names the endpoint routes. *)
Definition known_methods : list string :=
  ["handle_game_invitation"; "choose_parity"; "notify_match_result"].

End Server.

(** ** core/registration.py *)

Module Registration.
Import Timestamp.

Record RegistrationClient := {
  league_manager_url : string;
  timeout : Z;
}.

Definition __init__ (league_manager_url : string) (timeout : Z)
    : RegistrationClient :=
  {| league_manager_url := league_manager_url; timeout := timeout |}.

(** What [register] takes from outside: the digits of [uuid.uuid4().hex];
    the HTTP exchange, from the URL, the timeout and the request to the
    decoded body of the answer, or to the exception raised on the way
    ([client.post], [raise_for_status], [response.json]); and [str] as an
    f-string applies it to a value. *)
Record network := {
  uuid4_hex : string;
  post : string -> Z -> gmap string pyval -> outcome pyval;
  py_str : pyval -> string;
}.

(** [sub in s] for two strings. *)
Fixpoint has_substring (sub s : string) : bool :=
  String.prefix sub s ||
  match s with
  | String _ s' => has_substring sub s'
  | EmptyString => false
  end.

(** [key in data] for a string [key]. *)
Definition contains (data : pyval) (key : string) : outcome bool :=
  match data with
  | PDict d => Return (bool_decide (is_Some (d !! key)))
  | PList l => Return (existsb (fun v => eq_str v key) l)
  | PStr s => Return (has_substring key s)
  | _ => Raise (TypeError
                  ("argument of type '" +:+ type_name data +:+
                   "' is not iterable"))
  end.

(** [data[key]] for a string [key], once [key in data] has held: an
    object has the key; a list and a string take no string index. *)
Definition item (data : pyval) (key : string) : outcome pyval :=
  match data with
  | PDict d => Return (get d key PNone)
  | PList _ =>
      Raise (TypeError "list indices must be integers or slices, not str")
  | PStr _ => Raise (TypeError "string indices must be integers, not 'str'")
  | _ => Raise (TypeError
                  ("'" +:+ type_name data +:+ "' object is not subscriptable"))
  end.

(** [auth_token[:8]], evaluated for the log line: strings and lists can
    be sliced. *)
Definition token_preview (auth_token : pyval) : outcome unit :=
  match auth_token with
  | PStr _ | PList _ => Return tt
  | PDict _ => Raise (TypeError "unhashable type: 'slice'")
  | _ => Raise (TypeError
                  ("'" +:+ type_name auth_token +:+
                   "' object is not subscriptable"))
  end.

(** The JSON-RPC request that carries the registration message. *)
Definition json_rpc_request (message : gmap string pyval)
    : gmap string pyval :=
  {[ "jsonrpc" := PStr "2.0";
     "method" := PStr "league_register";
     "params" := PDict message;
     "id" := PInt 1 ]}.

(** The handling of the decoded answer. *)
Definition extract_auth_token (env : network) (data : pyval)
    : outcome pyval :=
  contains data "result" ≫= fun has_result : bool =>
  if has_result then
    result ← item data "result";
    auth_token ← get_method result (PStr "auth_token") PNone;
    if truthy auth_token
    then _ ← token_preview auth_token; Return auth_token
    else Raise (ValueError "No auth_token in registration response")
  else
    contains data "error" ≫= fun has_error : bool =>
    if has_error then
      error ← item data "error";
      error_msg ← get_method error (PStr "message") (PStr "Unknown error");
      Raise (ValueError ("Registration failed: " +:+ py_str env error_msg))
    else Raise (ValueError "Invalid response format").

(** [register]. Both [except] clauses log and re-raise, so every exception
    reaches the caller as it was raised. [now] is the clock reading of the
    message's timestamp. *)
Definition register (self : RegistrationClient) (env : network)
    (player_id display_name callback_url : string) (now : datetime)
    : outcome pyval :=
  protocol ← Protocol.__init__ player_id;
  let conversation_id :=
    "registration-" +:+ String.substring 0 8 (uuid4_hex env) in
  message ← Protocol.build_league_register_request protocol
              (PStr conversation_id) display_name callback_url now;
  data ← post env (league_manager_url self) (timeout self)
           (json_rpc_request message);
  extract_auth_token env data.

End Registration.

(** ** config/settings.py *)

Module Settings.

(** [config_data] is what [yaml.safe_load] returned, or the empty
    object. *)
Record Settings := {
  config_data : pyval;
}.

(** [os.getenv(name, default)] *)
Definition getenv (environ : gmap string string) (name : string)
    (default : pyval) : pyval :=
  from_option PStr default (environ !! name).

(** The getters evaluate the default, the chain of [get] calls on the
    configuration, before [os.getenv] is called. *)
Definition player_id (self : Settings) (environ : gmap string string)
    : outcome pyval :=
  player ← get_method (config_data self) (PStr "player") (PDict ∅);
  default ← get_method player (PStr "id") (PStr "P01");
  mret (getenv environ "PLAYER_ID" default).

Definition display_name (self : Settings) (environ : gmap string string)
    : outcome pyval :=
  player ← get_method (config_data self) (PStr "player") (PDict ∅);
  default ← get_method player (PStr "display_name") (PStr "Player");
  mret (getenv environ "PLAYER_DISPLAY_NAME" default).

Definition strategy_mode (self : Settings) (environ : gmap string string)
    : outcome pyval :=
  strategy ← get_method (config_data self) (PStr "strategy") (PDict ∅);
  default ← get_method strategy (PStr "mode") (PStr "hybrid");
  mret (getenv environ "STRATEGY_MODE" default).

Definition gemini_model_id (self : Settings) (environ : gmap string string)
    : outcome pyval :=
  strategy ← get_method (config_data self) (PStr "strategy") (PDict ∅);
  llm ← get_method strategy (PStr "llm") (PDict ∅);
  default ← get_method llm (PStr "model_id") (PStr "gemini-2.0-flash-exp");
  mret (getenv environ "GEMINI_MODEL_ID" default).

Definition league_manager_host (self : Settings)
    (environ : gmap string string) : outcome pyval :=
  league ← get_method (config_data self) (PStr "league") (PDict ∅);
  manager ← get_method league (PStr "manager") (PDict ∅);
  default ← get_method manager (PStr "host") (PStr "localhost");
  mret (getenv environ "LEAGUE_MANAGER_HOST" default).

Definition log_level (self : Settings) (environ : gmap string string)
    : outcome pyval :=
  logging ← get_method (config_data self) (PStr "logging") (PDict ∅);
  default ← get_method logging (PStr "level") (PStr "INFO");
  mret (getenv environ "LOG_LEVEL" default).

Definition log_format (self : Settings) (environ : gmap string string)
    : outcome pyval :=
  logging ← get_method (config_data self) (PStr "logging") (PDict ∅);
  default ← get_method logging (PStr "format") (PStr "json");
  mret (getenv environ "LOG_FORMAT" default).

(** The getters that return the looked-up value as it is, each with the
    environment variable it reads. *)
Definition getters
    : list (string * (Settings -> gmap string string -> outcome pyval)) :=
  [("PLAYER_ID", player_id);
   ("PLAYER_DISPLAY_NAME", display_name);
   ("STRATEGY_MODE", strategy_mode);
   ("GEMINI_MODEL_ID", gemini_model_id);
   ("LEAGUE_MANAGER_HOST", league_manager_host);
   ("LOG_LEVEL", log_level);
   ("LOG_FORMAT", log_format)].

End Settings.

(** ** Sample inputs *)

Module Samples.
Import Timestamp.

(** 2025-01-15 10:30:00.123456 and the same second with no microseconds. *)
Definition reading : datetime := Build_datetime 2025 1 15 10 30 0 123456.
Definition whole_second : datetime := Build_datetime 2025 1 15 10 30 0 0.

(** A GAME_OVER message between P01 and P02. *)
Definition game_over (match_id : string) (winner : pyval) : gmap string pyval :=
  {[ "match_id" := PStr match_id;
     "winner" := winner;
     "drawn_number" := PInt 4;
     "choices" := PDict {[ "P01" := PStr "even"; "P02" := PStr "odd" ]};
     "opponent_id" := PStr "P02" ]}.

Definition ten_results : list (gmap string pyval * datetime) :=
  [ (game_over "R1M1" (PStr "P01"), reading);
    (game_over "R1M2" (PStr "P02"), reading);
    (game_over "R1M3" PNone, reading);
    (game_over "R1M4" (PStr "P01"), reading);
    (game_over "R1M5" (PStr "P01"), reading);
    (game_over "R1M6" (PStr "P02"), reading);
    (game_over "R1M7" PNone, reading);
    (game_over "R1M8" (PStr "P01"), reading);
    (game_over "R1M9" (PStr "P02"), reading);
    (game_over "R1M10" (PStr "P01"), reading) ].

(** [PlayerState("P01", "Player", n)] *)
Definition fresh_state (max_history_entries : Z) : State.PlayerState :=
  State.Build_PlayerState "P01" "Player" max_history_entries false None None
    false (State.Build_Stats 0 0 0 0 0) [].

(** [ProtocolMessageBuilder("P01")], before and after [set_auth_token]. *)
Definition fresh_builder : Protocol.ProtocolMessageBuilder :=
  Protocol.Build_ProtocolMessageBuilder "P01" None.

Definition builder_with (token : string) : Protocol.ProtocolMessageBuilder :=
  Protocol.set_auth_token fresh_builder token.

(** [StrategyEngine(mode="llm", llm_timeout=25)] with an API key set. *)
Definition llm_engine : Strategy.StrategyEngine :=
  Strategy.Build_StrategyEngine "llm" 25
    (Some (Strategy._create_agent "gemini-2.0-flash-exp" (7 # 10) 100 None)).

(** A reasoning service that never answers; one that fails; one that
    answers with a capitalised choice, while the random generator draws
    ["odd"] at its first call and ["even"] at its second. The logger has
    the level the module gives it. *)
Definition stalled : Strategy.environment :=
  Strategy.Build_environment (fun _ => "?") (fun _ _ => Strategy.Stalls)
    (fun _ => false) Strategy.INFO.

Definition failing : Strategy.environment :=
  Strategy.Build_environment (fun _ => "?")
    (fun _ _ => Strategy.Fails (ServiceError "ConnectionError" "connection reset"))
    (fun _ => false) Strategy.INFO.

Definition shouting : Strategy.environment :=
  Strategy.Build_environment (fun _ => "?")
    (fun _ _ => Strategy.Responds
       (Strategy.WithContent (Strategy.ContentDict {[ "choice" := PStr "EVEN" ]})))
    Nat.even Strategy.INFO.

(** A reasoning service that answers ["odd"] in time, while the random
    generator would draw ["even"]: under the module's logger, and under a
    logger raised to [ERROR]. *)
Definition agreeing : Strategy.environment :=
  Strategy.Build_environment (fun _ => "?")
    (fun _ _ => Strategy.Responds
       (Strategy.WithContent (Strategy.ContentParityChoice "odd" "a hunch")))
    (fun _ => false) Strategy.INFO.

Definition agreeing_unlogged : Strategy.environment :=
  Strategy.Build_environment (fun _ => "?")
    (fun _ _ => Strategy.Responds
       (Strategy.WithContent (Strategy.ContentParityChoice "odd" "a hunch")))
    (fun _ => false) 40.

Definition choice_call : gmap string pyval :=
  {[ "conversation_id" := PStr "conv-001";
     "match_id" := PStr "M1";
     "opponent_id" := PStr "P02" ]}.

(** A registered agent, and a terminal that renders everything. *)
Definition handlers : Handlers.ToolHandlers :=
  Handlers.Build_ToolHandlers
    (State.set_auth_token (fresh_state 100) "tok")
    llm_engine (builder_with "tok").

Definition quiet : Handlers.Console :=
  Handlers.Build_Console None None None None None.

(** A registered state with persistence on, after one won match. *)
Definition won_match : State.MatchResult :=
  State.Build_MatchResult (PStr "R1M1") (PStr "P02") (PStr "even")
    (PStr "odd") (PInt 4) "win" 3 "2025-01-15T10:30:00.123456Z".

Definition saved_state : State.PlayerState :=
  State.Build_PlayerState "P01" "Player" 3 true (Some "state.json")
    (Some "tok") true (State.Build_Stats 1 0 0 3 1) [won_match].

(** A snapshot of two matches whose second history entry has lost its
    [timestamp]. *)
Definition damaged_snapshot : gmap string pyval :=
  {[ "player_id" := PStr "P01";
     "display_name" := PStr "Player";
     "auth_token" := PStr "tok";
     "registered" := PBool true;
     "stats" := PDict (State.get_stats
                         (State.with_stats saved_state
                            (State.Build_Stats 2 0 0 6 2)));
     "match_history" :=
       PList [PDict (State.asdict won_match);
              PDict (delete "timestamp" (State.asdict won_match))];
     "last_updated" := PStr "2025-01-15T10:30:00.123456Z" ]}.

(** A League Manager that grants a token, and one that refuses in the
    shape of a response object with both members. *)
Definition granting : Registration.network :=
  Registration.Build_network "0123456789abcdef0123456789abcdef"
    (fun _ _ _ => Return (PDict {[ "jsonrpc" := PStr "2.0";
                                   "result" := PDict {[ "auth_token" := PStr "tok-123" ]};
                                   "id" := PInt 1 ]}))
    (fun _ => "?").

Definition refusal : gmap string pyval :=
  {[ "jsonrpc" := PStr "2.0";
     "result" := PNone;
     "error" := PDict {[ "code" := PInt (-32000);
                         "message" := PStr "league is full" ]};
     "id" := PInt 1 ]}.

End Samples.

(** * Properties *)

(** ** The repository's unit tests, run on the embedding *)

Section UnitTests.
Import Timestamp.

(** tests/unit/test_timestamp.py *)
Example test_validate_timestamp_valid_cases :
  (fun v => validate_timestamp v <$>
     [ "2025-01-15T10:30:00.123456Z"; "2025-01-15T10:30:00Z";
       "2025-12-31T23:59:59.999999Z"; "2025-01-01T00:00:00Z" ])
  <$> [Before311; From311]
  = [ [Return true; Return true; Return true; Return true];
      [Return true; Return true; Return true; Return true] ].
Proof. vm_compute. reflexivity. Qed.

Example test_validate_timestamp_invalid_cases :
  validate_timestamp From311 <$>
    [ "2025-01-15T10:30:00"; "2025-01-15T10:30:00+02:00";
      "2025-01-15T10:30:00+00:00"; "2025-01-15 10:30:00Z";
      "2025/01/15T10:30:00Z"; "invalid" ]
  = [Return false; Return false; Return false; Return false; Return false;
     Return false].
Proof. vm_compute. reflexivity. Qed.

Example test_validate_timestamp_empty_raises :
  validate_timestamp From311 EmptyString
  = Raise (ValueError "Timestamp string cannot be None or empty").
Proof. vm_compute. reflexivity. Qed.

Example test_leap_year_date :
  validate_timestamp From311 "2024-02-29T10:30:00Z" = Return true /\
  validate_timestamp From311 "2025-02-29T10:30:00Z" = Return false.
Proof. split; vm_compute; reflexivity. Qed.

Example test_get_utc_now_format :
  get_utc_now Samples.reading = "2025-01-15T10:30:00.123456Z".
Proof. vm_compute. reflexivity. Qed.

(** tests/unit/test_state.py *)
Example test_update_from_result_win :
  exists s,
    State.update_from_result (Samples.fresh_state 100)
      (Samples.game_over "R1M1" (PStr "P01")) Samples.reading = Return s /\
    State.stats s = State.Build_Stats 1 0 0 3 1 /\
    State.match_history s =
      [ State.Build_MatchResult (PStr "R1M1") (PStr "P02") (PStr "even")
          (PStr "odd") (PInt 4) "win" 3 "2025-01-15T10:30:00.123456Z" ].
Proof. eexists. repeat split; vm_compute; reflexivity. Qed.

Example test_match_without_opponent_id :
  exists s,
    State.update_from_result (Samples.fresh_state 100)
      {[ "match_id" := PStr "R1M1"; "winner" := PStr "P01";
         "drawn_number" := PInt 4;
         "choices" := PDict {[ "P01" := PStr "even" ]} ]}
      Samples.reading = Return s /\
    State.opponent_id <$> State.match_history s = [PStr "unknown"].
Proof. eexists. split; vm_compute; reflexivity. Qed.

Example test_max_history_entries_trimming :
  exists s,
    State.apply_results (Samples.fresh_state 5) Samples.ten_results = Return s /\
    State.match_id <$> State.match_history s =
      [PStr "R1M6"; PStr "R1M7"; PStr "R1M8"; PStr "R1M9"; PStr "R1M10"].
Proof. eexists. split; vm_compute; reflexivity. Qed.

Example test_get_match_history_with_limit :
  exists s,
    State.apply_results (Samples.fresh_state 100) Samples.ten_results = Return s /\
    (fun m => m !! "match_id") <$> State.get_match_history s (Some 3%Z) =
      [Some (PStr "R1M8"); Some (PStr "R1M9"); Some (PStr "R1M10")].
Proof. eexists. split; vm_compute; reflexivity. Qed.

(** tests/unit/test_strategy.py and test_strategy_advanced.py *)
Example test_initialization_timeout_boundaries :
  returns (Strategy.__init__ true None "random" "gemini-2.0-flash-exp"
             (7 # 10) 100 29 None) = true /\
  Strategy.__init__ true None "random" "gemini-2.0-flash-exp" (7 # 10) 100 30 None
  = Raise (ValueError
      "llm_timeout must be < 30 seconds (protocol limit), got 30. Recommended: 25s for 5-second buffer.").
Proof. split; vm_compute; reflexivity. Qed.

Example test_mode_case_sensitive :
  Strategy.__init__ true None "Random" "gemini-2.0-flash-exp" (7 # 10) 100 25 None
  = Raise (ValueError
      "Invalid mode: Random. Must be 'random', 'llm', or 'hybrid'").
Proof. vm_compute. reflexivity. Qed.

Example test_llm_mode_without_api_key_raises_error :
  Strategy.__init__ true (Some EmptyString) "llm" "gemini-2.0-flash-exp"
    (7 # 10) 100 25 None
  = Raise (ValueError
      "GOOGLE_API_KEY required for 'llm' mode. Set in .env file or use 'hybrid' mode for fallback.").
Proof. vm_compute. reflexivity. Qed.

Example test_hybrid_mode_without_api_key_falls_back_to_random :
  exists engine,
    Strategy.__init__ true (Some EmptyString) "hybrid" "gemini-2.0-flash-exp"
      (7 # 10) 100 25 None = Return engine /\
    Strategy.agent engine = None /\
    Strategy.choose_parity engine Samples.stalled {[ "opponent" := PStr "P02" ]}
      = Return (PStr "even").
Proof. eexists. repeat split; vm_compute; reflexivity. Qed.

(** tests/unit/test_handlers.py *)
Example test_choose_parity_without_auth_token :
  exists engine handlers,
    Strategy.__init__ true None "random" "gemini-2.0-flash-exp" (7 # 10) 100 25 None
      = Return engine /\
    Handlers.__init__ (Samples.fresh_state 100) engine = Return handlers /\
    Handlers.choose_parity handlers Samples.stalled Samples.choice_call
      Samples.quiet Samples.reading Samples.reading
    = Raise (ValueError (Protocol.missing_token_message "CHOOSE_PARITY_RESPONSE")).
Proof. do 2 eexists. repeat split; vm_compute; reflexivity. Qed.

(** The end-to-end scenario: invitation, choice and result for match M1
    against P02, the result reporting a win on the drawn number 4. *)
Example end_to_end_scenario :
  let invitation : gmap string pyval :=
    {[ "conversation_id" := PStr "conv-001"; "match_id" := PStr "M1";
       "opponent_id" := PStr "P02" ]} in
  let result := Samples.game_over "M1" (PStr "P01") in
  exists ack h1 choice final_ack h2,
    Handlers.handle_game_invitation Samples.handlers invitation Samples.quiet
      Samples.reading Samples.reading = (Return ack, h1) /\
    ack !! "accept" = Some (PBool true) /\
    (ts ← ack !! "timestamp";
     match ts with
     | PStr s => Some (validate_timestamp From311 s)
     | _ => None
     end) = Some (Return true) /\
    Handlers.choose_parity h1 Samples.stalled Samples.choice_call Samples.quiet
      Samples.reading Samples.reading = Return choice /\
    choice !! "parity_choice" = Some (PStr "even") /\
    Handlers.notify_match_result h1 result Samples.quiet
      Samples.reading Samples.reading = (Return final_ack, h2) /\
    final_ack !! "status" = Some (PStr "acknowledged") /\
    State.stats (Handlers.state h2) = State.Build_Stats 1 0 0 3 1.
Proof. do 5 eexists. repeat split; vm_compute; reflexivity. Qed.

End UnitTests.

(** ** Strings and decimal numerals *)

Section StringFacts.

Lemma str_app_nil_l (t : string) : EmptyString +:+ t = t.
Proof. reflexivity. Qed.

Lemma str_app_cons (c : ascii) (s t : string) :
  String c s +:+ t = String c (s +:+ t).
Proof. reflexivity. Qed.

Lemma str_app_nil_r (s : string) : s +:+ EmptyString = s.
Proof. induction s as [|c s IH]; [reflexivity|]. by rewrite str_app_cons, IH. Qed.

Lemma str_forall_app (p : ascii -> bool) (s t : string) :
  str_forall p (s +:+ t) = str_forall p s && str_forall p t.
Proof.
  induction s as [|c s IH]; [reflexivity|].
  rewrite str_app_cons. simpl. by rewrite IH, andb_assoc.
Qed.

Lemma str_forall_impl (p q : ascii -> bool) (s : string) :
  (forall c, p c = true -> q c = true) ->
  str_forall p s = true -> str_forall q s = true.
Proof.
  intros Hpq. induction s as [|c s IH]; [done|]. simpl.
  intros [Hc Hs]%andb_true_iff. rewrite (Hpq _ Hc). simpl. auto.
Qed.

Lemma endswith_app (suffix s t : string) :
  endswith suffix t = true -> endswith suffix (s +:+ t) = true.
Proof.
  intros Ht. induction s as [|c s IH]; [done|].
  rewrite str_app_cons. simpl. rewrite IH. apply orb_true_r.
Qed.

Lemma rstrip_app (c : ascii) (s t : string) :
  str_forall (fun a => negb (Ascii.eqb a c)) s = true ->
  rstrip c (s +:+ t) = s +:+ rstrip c t.
Proof.
  induction s as [|a s IH]; [done|]. simpl.
  intros [Ha Hs]%andb_true_iff. rewrite str_app_cons. simpl.
  rewrite (IH Hs). apply negb_true_iff in Ha. rewrite Ha.
  by rewrite andb_false_r.
Qed.

Lemma prefix_cons_ne (a b : ascii) (s t : string) :
  a <> b -> String.prefix (String a s) (String b t) = false.
Proof. intros Hne. simpl. by destruct (ascii_dec a b). Qed.

Lemma replace_from_cons (old new : string) (c : ascii) (s : string) :
  replace_from old new 0 (String c s) =
  if String.prefix old (String c s)
  then new +:+ replace_from old new (String.length old - 1) s
  else String c (replace_from old new 0 s).
Proof. reflexivity. Qed.

(** Replacing ["+00:00"] leaves a text without ["+"] as it is. *)
Lemma replace_from_no_plus (new s t : string) :
  str_forall (fun a => negb (Ascii.eqb a "+")) s = true ->
  replace_from "+00:00" new 0 (s +:+ t) = s +:+ replace_from "+00:00" new 0 t.
Proof.
  induction s as [|a s IH]; [done|].
  intros Has. simpl in Has. apply andb_true_iff in Has as [Ha Hs].
  apply negb_true_iff, Ascii.eqb_neq in Ha.
  rewrite !str_app_cons, replace_from_cons, prefix_cons_ne by congruence.
  by rewrite (IH Hs).
Qed.

Lemma has_fraction_app (s t : string) :
  Timestamp.has_fraction (s +:+ t) =
  Timestamp.has_fraction s || Timestamp.has_fraction t.
Proof.
  induction s as [|a s IH]; [done|].
  rewrite str_app_cons. simpl. by rewrite IH, orb_assoc.
Qed.

End StringFacts.

Section Digits.
Local Open Scope N_scope.

Lemma is_digit_digit_char (d : N) : d < 10 -> is_digit (digit_char d) = true.
Proof.
  intros Hd. unfold is_digit, digit_char.
  rewrite N_ascii_embedding by lia.
  apply andb_true_iff. split; apply N.leb_le; lia.
Qed.

Lemma digit_val_digit_char (d : N) : d < 10 -> digit_val (digit_char d) = d.
Proof.
  intros Hd. unfold digit_val, digit_char.
  rewrite N_ascii_embedding by lia. lia.
Qed.

Lemma mod10_lt (n : N) : n mod 10 < 10.
Proof. apply N.mod_lt. lia. Qed.

Lemma pow10_succ (w : nat) : 10 ^ N.of_nat (S w) = 10 * 10 ^ N.of_nat w.
Proof. rewrite Nat2N.inj_succ, N.pow_succ_r'. reflexivity. Qed.

Lemma pow10_pos (w : nat) : 0 < 10 ^ N.of_nat w.
Proof. apply N.neq_0_lt_0, N.pow_nonzero. lia. Qed.

(** The leading digit splits off the remainder. *)
Lemma mod_pow10_succ (n : N) (w : nat) :
  n mod 10 ^ N.of_nat (S w) =
  (n / 10 ^ N.of_nat w) mod 10 * 10 ^ N.of_nat w + n mod 10 ^ N.of_nat w.
Proof.
  pose proof (pow10_pos w) as Hp.
  rewrite pow10_succ, (N.mul_comm 10).
  rewrite N.Div0.mod_mul_r. lia.
Qed.

Lemma str_forall_fixed_digits (w : nat) (n : N) :
  str_forall is_digit (fixed_digits w n) = true.
Proof.
  induction w as [|w IH]; [done|]. simpl.
  by rewrite is_digit_digit_char, IH by apply mod10_lt.
Qed.

Lemma length_fixed_digits (w : nat) (n : N) :
  String.length (fixed_digits w n) = w.
Proof. induction w as [|w IH]; [done|]. simpl. by rewrite IH. Qed.

Lemma is_digit_not (c a : ascii) :
  is_digit a = false -> is_digit c = true -> negb (Ascii.eqb c a) = true.
Proof.
  intros Ha Hc. apply negb_true_iff, Ascii.eqb_neq. congruence.
Qed.

Lemma fixed_digits_avoid (a : ascii) (w : nat) (n : N) :
  is_digit a = false ->
  str_forall (fun c => negb (Ascii.eqb c a)) (fixed_digits w n) = true.
Proof.
  intros Ha. apply str_forall_impl with (p := is_digit).
  - intros c. by apply is_digit_not.
  - apply str_forall_fixed_digits.
Qed.

Lemma has_fraction_fixed_digits (w : nat) (n : N) :
  Timestamp.has_fraction (fixed_digits w n) = false.
Proof.
  induction w as [|w IH]; [done|]. simpl. rewrite IH, orb_false_r.
  apply Ascii.eqb_neq. intros Heq.
  pose proof (is_digit_digit_char _ (mod10_lt (n / 10 ^ N.of_nat w))) as Hd.
  rewrite Heq in Hd. discriminate.
Qed.

Lemma ndigits_aux_le (fuel : nat) (n : N) (w : nat) :
  n < 10 ^ N.of_nat w -> (1 <= w)%nat -> (ndigits_aux fuel n <= w)%nat.
Proof.
  revert n w. induction fuel as [|f IH]; intros n w Hn Hw; simpl; [lia|].
  destruct (N.ltb_spec n 10) as [|Hge]; [lia|].
  destruct w as [|w]; [lia|].
  rewrite pow10_succ in Hn.
  assert (1 <= w)%nat as Hw'.
  { destruct w; [|lia]. simpl in Hn. lia. }
  apply le_n_S, IH; [|done].
  apply N.Div0.div_lt_upper_bound. lia.
Qed.

(** Within its width, zero padding prints exactly [w] digits. *)
Lemma zero_pad_fixed (w : nat) (n : N) :
  n < 10 ^ N.of_nat w -> (1 <= w)%nat -> zero_pad w n = fixed_digits w n.
Proof.
  intros Hn Hw. unfold zero_pad, ndigits.
  by rewrite Nat.max_l by by apply ndigits_aux_le.
Qed.

Lemma times_fixed_digits (w : nat) (n : N) (k : string -> bool) (rest : string) :
  Timestamp.times w is_digit k (fixed_digits w n +:+ rest) = k rest.
Proof.
  induction w as [|w IH]; [done|]. simpl. rewrite ?str_app_cons. simpl.
  by rewrite is_digit_digit_char, IH by apply mod10_lt.
Qed.

Lemma many1_fixed_digits (w : nat) (n : N) (k : string -> bool) (rest : string) :
  (1 <= w)%nat -> k rest = true ->
  Timestamp.many1 is_digit k (fixed_digits w n +:+ rest) = true.
Proof.
  intros Hw Hk. induction w as [|w IH]; [lia|]. simpl. rewrite ?str_app_cons. simpl.
  rewrite is_digit_digit_char by apply mod10_lt. simpl.
  destruct w as [|w'].
  - simpl. rewrite str_app_nil_l, Hk. apply orb_true_r.
  - rewrite IH by lia. done.
Qed.

Lemma take_digits_fixed (w : nat) (n acc : N) (rest : string) :
  Timestamp.take_digits w acc (fixed_digits w n +:+ rest) =
  Some (acc * 10 ^ N.of_nat w + n mod 10 ^ N.of_nat w, rest).
Proof.
  revert acc. induction w as [|w IH]; intros acc.
  - simpl. rewrite str_app_nil_l, N.mod_1_r. do 2 f_equal. lia.
  - cbn [fixed_digits]. rewrite str_app_cons. cbn [Timestamp.take_digits].
    rewrite is_digit_digit_char, digit_val_digit_char by apply mod10_lt.
    rewrite IH, mod_pow10_succ, pow10_succ. do 2 f_equal. lia.
Qed.

Lemma read_fraction_fixed (w : nat) (n acc : N) (len : nat) :
  (len + w <= 6)%nat ->
  Timestamp.read_fraction acc len (fixed_digits w n) =
  Some (acc * 10 ^ N.of_nat w + n mod 10 ^ N.of_nat w, (len + w)%nat).
Proof.
  revert acc len. induction w as [|w IH]; intros acc len Hlen.
  - simpl. rewrite N.mod_1_r. do 2 f_equal; lia.
  - cbn [fixed_digits Timestamp.read_fraction].
    rewrite is_digit_digit_char, digit_val_digit_char by apply mod10_lt.
    destruct (Nat.ltb_spec len 6) as [_|]; [|lia].
    rewrite IH by lia. rewrite mod_pow10_succ, pow10_succ.
    do 2 f_equal; lia.
Qed.

End Digits.

(** ** Timestamps *)

Section TimestampFacts.
Import Timestamp.
Local Open Scope N_scope.

Lemma str_app_assoc (a b c : string) : (a +:+ b) +:+ c = a +:+ (b +:+ c).
Proof.
  induction a as [|x a IH]; [reflexivity|].
  by rewrite !str_app_cons, IH.
Qed.

Lemma valid_datetime_bounds (d : datetime) :
  valid_datetime d = true ->
  1 <= year d <= 9999 /\ 1 <= month d <= 12 /\
  1 <= day d <= days_in_month (year d) (month d) /\
  hour d < 24 /\ minute d < 60 /\ second d < 60 /\ microsecond d < 1000000.
Proof.
  unfold valid_datetime. rewrite !andb_true_iff.
  rewrite !N.leb_le, !N.ltb_lt. tauto.
Qed.

Lemma days_in_month_le (y m : N) : days_in_month y m <= 31.
Proof.
  unfold days_in_month.
  repeat match goal with
         | |- context [match ?x with _ => _ end] => destruct x
         end; lia.
Qed.

Lemma date_time_text_app (d : datetime) (rest : string) :
  date_time_text d +:+ rest =
  fixed_digits 4 (year d) +:+ "-" +:+ fixed_digits 2 (month d) +:+ "-" +:+
  fixed_digits 2 (day d) +:+ "T" +:+
  fixed_digits 2 (hour d) +:+ ":" +:+ fixed_digits 2 (minute d) +:+ ":" +:+
  fixed_digits 2 (second d) +:+ rest.
Proof. unfold date_time_text. by rewrite !str_app_assoc. Qed.

(** The date and time are made of digits, ["-"], ["T"] and [":"]. *)
Lemma date_time_text_avoid (a : ascii) (d : datetime) :
  is_digit a = false ->
  str_forall (fun c => negb (Ascii.eqb c a)) "-T:" = true ->
  str_forall (fun c => negb (Ascii.eqb c a)) (date_time_text d) = true.
Proof.
  intros Ha Hsep. unfold date_time_text.
  simpl in Hsep. rewrite !andb_true_iff in Hsep. destruct Hsep as (H1 & H2 & H3 & _).
  rewrite !str_forall_app, !fixed_digits_avoid by done.
  simpl. by rewrite H1, H2, H3.
Qed.

Lemma has_fraction_date_time_text (d : datetime) :
  has_fraction (date_time_text d) = false.
Proof.
  unfold date_time_text.
  by rewrite !has_fraction_app, !has_fraction_fixed_digits.
Qed.

(** [isoformat] within the ranges of a valid reading. *)
Lemma isoformat_eq (now : datetime) :
  valid_datetime now = true ->
  isoformat now =
  date_time_text now +:+
  (if microsecond now =? 0 then EmptyString
   else "." +:+ fixed_digits 6 (microsecond now)) +:+ "+00:00".
Proof.
  intros (Hy & Hm & Hd & Hh & Hmi & Hs & Hus)%valid_datetime_bounds.
  pose proof (days_in_month_le (year now) (month now)) as Hdim.
  unfold isoformat. rewrite date_time_text_app.
  by rewrite !zero_pad_fixed by (simpl; lia).
Qed.

(** The text [get_utc_now] produces: date and time, an optional six-digit
    fraction, and the suffix. *)
Lemma get_utc_now_eq (now : datetime) :
  valid_datetime now = true ->
  get_utc_now now =
  date_time_text now +:+
  (if microsecond now =? 0 then "Z"
   else "." +:+ fixed_digits 6 (microsecond now) +:+ "Z").
Proof.
  intros Hvalid. unfold get_utc_now, replace. rewrite isoformat_eq by done.
  rewrite replace_from_no_plus by by apply date_time_text_avoid.
  f_equal. destruct (microsecond now =? 0); [reflexivity|].
  rewrite str_app_assoc.
  rewrite replace_from_no_plus by reflexivity.
  rewrite replace_from_no_plus by by apply fixed_digits_avoid.
  reflexivity.
Qed.

(** One field of the date and time: after its digits have been consumed,
    the separator that follows is exposed and compared. *)
Ltac next_field lem :=
  rewrite lem;
  rewrite ?str_app_cons, ?str_app_nil_l;
  cbn [mbind option_bind expect skip_char re_match in_class
       Ascii.eqb Bool.eqb andb].

Lemma mod_small_pow (n : N) (w : nat) (b : N) :
  10 ^ N.of_nat w = b -> n < b -> n mod 10 ^ N.of_nat w = n.
Proof. intros <- Hn. by apply N.mod_small. Qed.

Lemma parse_iso_date_time (now : datetime) (rest : string) :
  valid_datetime now = true ->
  parse_iso (date_time_text now +:+ rest) =
  parse_fraction (year now) (month now) (day now) (hour now) (minute now)
    (second now) rest.
Proof.
  intros (Hy & Hm & Hd & Hh & Hmi & Hs & Hus)%valid_datetime_bounds.
  pose proof (days_in_month_le (year now) (month now)) as Hdim.
  rewrite date_time_text_app. unfold parse_iso.
  repeat (cbn [mbind option_bind]; next_field take_digits_fixed).
  rewrite !N.mul_0_l, !N.add_0_l.
  rewrite (mod_small_pow (year now) 4 10000) by (done || lia).
  by rewrite !(mod_small_pow _ 2 100) by (done || lia).
Qed.

(** Parsing a produced timestamp gives back the clock reading. *)
Lemma parse_get_utc_now (v : py_version) (now : datetime) :
  valid_datetime now = true ->
  _parse_timestamp v (get_utc_now now) = Return now.
Proof.
  intros Hvalid.
  pose proof (valid_datetime_bounds _ Hvalid)
    as (Hy & Hm & Hd & Hh & Hmi & Hs & Hus).
  rewrite get_utc_now_eq by done.
  unfold _parse_timestamp, fromisoformat.
  rewrite rstrip_app by by apply date_time_text_avoid.
  destruct (N.eqb_spec (microsecond now) 0) as [Hz|Hnz].
  - change (rstrip "Z" "Z") with EmptyString.
    rewrite parse_iso_date_time by done. cbn [parse_fraction].
    destruct now; simpl in *. subst. by rewrite Hvalid.
  - rewrite rstrip_app by reflexivity.
    rewrite rstrip_app by by apply fixed_digits_avoid.
    change (rstrip "Z" "Z") with EmptyString.
    rewrite parse_iso_date_time by done.
    rewrite str_app_cons, str_app_nil_l, str_app_nil_r.
    cbn [parse_fraction Ascii.eqb Bool.eqb].
    rewrite read_fraction_fixed by lia.
    cbn [mbind option_bind].
    rewrite (mod_small_pow _ 6 1000000) by (done || lia).
    change (10 ^ N.of_nat (6 - Nat.min (0 + 6) 6)) with 1.
    rewrite N.mul_0_l, N.add_0_l, N.mul_1_r.
    destruct now; simpl in *. rewrite Hvalid. by destruct v.
Qed.

Lemma pattern_get_utc_now (now : datetime) :
  valid_datetime now = true ->
  pattern_match ISO8601_PATTERN (get_utc_now now) = true.
Proof.
  intros Hvalid. rewrite get_utc_now_eq by done.
  rewrite date_time_text_app.
  unfold pattern_match, ISO8601_PATTERN.
  repeat (cbn [re_match]; next_field times_fixed_digits).
  destruct (microsecond now =? 0).
  - reflexivity.
  - rewrite ?str_app_cons, ?str_app_nil_l.
    cbn [re_match in_class Ascii.eqb Bool.eqb andb orb].
    rewrite many1_fixed_digits; [done|lia|reflexivity].
Qed.

Lemma get_utc_now_nonempty (now : datetime) :
  valid_datetime now = true ->
  String.eqb (get_utc_now now) EmptyString = false.
Proof.
  intros Hvalid. rewrite get_utc_now_eq, date_time_text_app by done.
  reflexivity.
Qed.

End TimestampFacts.

(** ** Match state *)

Section StateFacts.
Import Timestamp State.
Local Open Scope Z_scope.

(** [update_from_result] returns exactly on well-formed messages. *)
Lemma update_from_result_returns (s : PlayerState) (m : gmap string pyval)
    (now : datetime) :
  returns (update_from_result s m now) = well_formed m.
Proof.
  unfold update_from_result, well_formed, get_method.
  destruct (get m "choices" (PDict ∅)); try reflexivity.
  destruct (get m "opponent_id" (PStr "unknown")); try reflexivity;
    cbn [mbind outcome_bind];
    destruct (get m "winner" PNone); try reflexivity;
    destruct (eq_str _ _); reflexivity.
Qed.

Lemma update_from_result_well_formed (s : PlayerState)
    (m : gmap string pyval) (now : datetime) :
  well_formed m = true -> exists s', update_from_result s m now = Return s'.
Proof.
  intros Hwf. rewrite <- (update_from_result_returns s m now) in Hwf.
  destruct (update_from_result s m now); [eauto|discriminate].
Qed.

(** One applied result: one more match, one more of exactly one counter,
    and the points that counter is worth. The identity and the history
    bound do not change. *)
Lemma update_from_result_stats (s s' : PlayerState) (m : gmap string pyval)
    (now : datetime) :
  update_from_result s m now = Return s' ->
  total_matches (stats s') = total_matches (stats s) + 1 /\
  wins (stats s') + draws (stats s') + losses (stats s') =
    wins (stats s) + draws (stats s) + losses (stats s) + 1 /\
  total_points (stats s') - 3 * wins (stats s') - draws (stats s') =
    total_points (stats s) - 3 * wins (stats s) - draws (stats s) /\
  player_id s' = player_id s /\
  max_history_entries s' = max_history_entries s.
Proof.
  unfold update_from_result.
  destruct (get_method _ (PStr (player_id s)) _) as [pc|]; [|discriminate].
  destruct (get_method _ (get m "opponent_id" _) _) as [oc|]; [|discriminate].
  cbn [mbind outcome_bind mret outcome_ret].
  destruct (get m "winner" PNone); try destruct (eq_str _ _);
    intros [= <-]; simpl; repeat split; lia.
Qed.

Lemma apply_results_stats (msgs : list (gmap string pyval * datetime)) :
  forall s s' : PlayerState,
  apply_results s msgs = Return s' ->
  total_matches (stats s') = total_matches (stats s) + Z.of_nat (length msgs) /\
  wins (stats s') + draws (stats s') + losses (stats s') =
    wins (stats s) + draws (stats s) + losses (stats s) + Z.of_nat (length msgs) /\
  total_points (stats s') - 3 * wins (stats s') - draws (stats s') =
    total_points (stats s) - 3 * wins (stats s) - draws (stats s).
Proof.
  induction msgs as [|[m now] rest IH]; intros s s' Happ.
  - injection Happ as <-. simpl. lia.
  - simpl in Happ.
    destruct (update_from_result s m now) as [s1|] eqn:Hup; [|discriminate].
    cbn [mbind outcome_bind] in Happ.
    apply update_from_result_stats in Hup as (H1 & H2 & H3 & _).
    apply IH in Happ as (H4 & H5 & H6).
    rewrite length_cons. lia.
Qed.

Lemma apply_results_well_formed (msgs : list (gmap string pyval * datetime)) :
  Forall (fun mn => well_formed mn.1 = true) msgs ->
  forall s : PlayerState, exists s', apply_results s msgs = Return s'.
Proof.
  induction 1 as [|[m now] rest Hwf _ IH]; intros s; [by exists s|].
  destruct (update_from_result_well_formed s m now Hwf) as [s1 Hs1].
  destruct (IH s1) as [s' Hs']. exists s'. simpl. by rewrite Hs1.
Qed.

(** Whatever is delivered, the counters count the accepted messages. *)
Lemma deliver_stats (msgs : list (gmap string pyval * datetime)) :
  forall s : PlayerState,
  let n := Z.of_nat (length (filter (fun mn => well_formed mn.1 = true) msgs)) in
  total_matches (stats (deliver s msgs)) = total_matches (stats s) + n /\
  wins (stats (deliver s msgs)) + draws (stats (deliver s msgs)) +
    losses (stats (deliver s msgs)) =
    wins (stats s) + draws (stats s) + losses (stats s) + n /\
  total_points (stats (deliver s msgs)) - 3 * wins (stats (deliver s msgs)) -
    draws (stats (deliver s msgs)) =
    total_points (stats s) - 3 * wins (stats s) - draws (stats s).
Proof.
  induction msgs as [|[m now] rest IH]; intros s; [simpl; lia|].
  pose proof (update_from_result_returns s m now) as Hret.
  cbn [deliver]. rewrite filter_cons. cbn [fst].
  destruct (update_from_result s m now) as [s1|e] eqn:Hup; simpl in Hret.
  - rewrite decide_True by done.
    apply update_from_result_stats in Hup as (H1 & H2 & H3 & _).
    specialize (IH s1). cbn zeta in IH. rewrite length_cons. lia.
  - rewrite decide_False by (rewrite <- Hret; discriminate).
    apply IH.
Qed.

Lemma state_init_fresh (pid name : string) (max : Z) (s0 : PlayerState) :
  __init__ pid name max = Return s0 ->
  stats s0 = Build_Stats 0 0 0 0 0 /\ match_history s0 = [] /\
  player_id s0 = pid /\ max_history_entries s0 = max.
Proof.
  unfold __init__. destruct (negb _); [discriminate|]. by intros [= <-].
Qed.

(** The record appended by one call, and the trimming that follows. *)
Lemma update_from_result_history (s s' : PlayerState) (m : gmap string pyval)
    (now : datetime) :
  update_from_result s m now = Return s' ->
  exists r, record_of (player_id s) m now = Return r /\
    match_history s' =
      if Z.of_nat (length (match_history s ++ [r])) >? max_history_entries s
      then slice_from (- max_history_entries s) (match_history s ++ [r])
      else match_history s ++ [r].
Proof.
  unfold update_from_result, record_of.
  destruct (get_method _ (PStr (player_id s)) _) as [pc|]; [|discriminate].
  destruct (get_method _ (get m "opponent_id" _) _) as [oc|]; [|discriminate].
  cbn [mbind outcome_bind mret outcome_ret].
  destruct (get m "winner" PNone); try destruct (eq_str _ _);
    intros [= <-]; eexists; (split; [reflexivity|]); reflexivity.
Qed.

(** Appending to the last [n] entries and trimming keeps the last [n]
    entries of the longer sequence. *)
Lemma trim_keeps_last {A} (n : nat) (all : list A) (r : A) :
  (1 <= n)%nat ->
  (if Z.of_nat (length (drop (length all - n) all ++ [r])) >? Z.of_nat n
   then slice_from (- Z.of_nat n) (drop (length all - n) all ++ [r])
   else drop (length all - n) all ++ [r]) =
  drop (length (all ++ [r]) - n) (all ++ [r]).
Proof.
  intros Hn. rewrite !length_app, length_drop. simpl length.
  destruct (decide (length all < n)%nat) as [Hlt|Hge].
  - replace (length all - n)%nat with 0%nat by lia.
    replace (length all + 1 - n)%nat with 0%nat by lia.
    rewrite !drop_0. destruct (Z.gtb_spec (Z.of_nat (length all - 0 + 1)) (Z.of_nat n)); [lia|done].
  - destruct (Z.gtb_spec (Z.of_nat (length all - (length all - n) + 1)) (Z.of_nat n)); [|lia].
    unfold slice_from. rewrite length_app, length_drop. simpl length.
    destruct (Z.ltb_spec (- Z.of_nat n) 0); [|lia].
    replace (Z.to_nat (Z.max 0 (Z.of_nat (length all - (length all - n) + 1) + - Z.of_nat n)))
      with 1%nat by lia.
    rewrite drop_app_le by (rewrite length_drop; lia).
    rewrite drop_drop.
    rewrite drop_app_le by lia.
    f_equal. f_equal. lia.
Qed.

Lemma apply_results_history (msgs : list (gmap string pyval * datetime)) :
  forall (s s' : PlayerState) (all : list MatchResult) (n : nat),
  max_history_entries s = Z.of_nat n -> (1 <= n)%nat ->
  match_history s = drop (length all - n) all ->
  apply_results s msgs = Return s' ->
  exists rs, records_of (player_id s) msgs = Return rs /\
    length rs = length msgs /\
    match_history s' = drop (length (all ++ rs) - n) (all ++ rs).
Proof.
  induction msgs as [|[m now] rest IH]; intros s s' all n Hmax Hn Hall Happ.
  - injection Happ as <-. exists []. by rewrite app_nil_r.
  - simpl in Happ.
    destruct (update_from_result s m now) as [s1|] eqn:Hup; [|discriminate].
    cbn [mbind outcome_bind] in Happ.
    pose proof (update_from_result_stats _ _ _ _ Hup) as (_ & _ & _ & Hpid & Hmax1).
    apply update_from_result_history in Hup as (r & Hr & Hh).
    rewrite Hmax, Hall, trim_keeps_last in Hh by done.
    destruct (IH s1 s' (all ++ [r]) n) as (rs & Hrs & Hlen & Hs');
      [congruence|done|done|done|].
    exists (r :: rs). simpl. rewrite Hr. cbn [mbind outcome_bind].
    rewrite <- Hpid, Hrs. cbn [mbind outcome_bind mret outcome_ret].
    split; [done|]. split; [simpl; congruence|].
    by rewrite <- app_assoc in Hs'.
Qed.

End StateFacts.

(** ** Claims about timestamps and the match state *)

Section Claims.
Import Timestamp.

(** C8, as stated, fails: at a clock reading whose microsecond field is
    zero, [isoformat] prints no fraction, so the produced timestamp has no
    sub-second part. *)
Lemma get_utc_now_whole_second_no_fraction :
  valid_datetime Samples.whole_second = true /\
  get_utc_now Samples.whole_second = "2025-01-15T10:30:00Z" /\
  has_fraction (get_utc_now Samples.whole_second) = false.
Proof. repeat split; reflexivity. Qed.

(** C8, amended: every timestamp produced by [get_utc_now] from a valid
    clock reading validates as true, ends in ["Z"] and contains no ["+"];
    it has a fractional part, of six digits, exactly when the microsecond
    field of the reading is not zero. This holds for the parsers of both
    Python generations. *)
Theorem get_utc_now_well_formed (v : py_version) (now : datetime) :
  valid_datetime now = true ->
  validate_timestamp v (get_utc_now now) = Return true /\
  endswith "Z" (get_utc_now now) = true /\
  str_forall (fun c => negb (Ascii.eqb c "+")) (get_utc_now now) = true /\
  has_fraction (get_utc_now now) = negb (microsecond now =? 0)%N /\
  get_utc_now now =
    date_time_text now +:+
    (if (microsecond now =? 0)%N then "Z"
     else "." +:+ fixed_digits 6 (microsecond now) +:+ "Z").
Proof.
  intros Hvalid. split; [|split; [|split; [|split; [|by apply get_utc_now_eq]]]].
  - unfold validate_timestamp.
    rewrite get_utc_now_nonempty, pattern_get_utc_now by done.
    cbn [negb]. by rewrite parse_get_utc_now.
  - rewrite get_utc_now_eq by done.
    apply endswith_app. destruct (microsecond now =? 0)%N; [reflexivity|].
    by do 2 apply endswith_app.
  - rewrite get_utc_now_eq by done.
    rewrite str_forall_app, date_time_text_avoid by done.
    destruct (microsecond now =? 0)%N; [reflexivity|].
    by rewrite !str_forall_app, fixed_digits_avoid.
  - rewrite get_utc_now_eq by done.
    rewrite has_fraction_app, has_fraction_date_time_text.
    by destruct (microsecond now =? 0)%N.
Qed.

Lemma get_utc_now_well_formed_witness :
  valid_datetime Samples.reading = true /\
  validate_timestamp Before311 (get_utc_now Samples.reading) = Return true /\
  endswith "Z" (get_utc_now Samples.reading) = true /\
  str_forall (fun c => negb (Ascii.eqb c "+")) (get_utc_now Samples.reading) = true /\
  has_fraction (get_utc_now Samples.reading) =
    negb (microsecond Samples.reading =? 0)%N /\
  get_utc_now Samples.reading =
    date_time_text Samples.reading +:+
    (if (microsecond Samples.reading =? 0)%N then "Z"
     else "." +:+ fixed_digits 6 (microsecond Samples.reading) +:+ "Z").
Proof.
  split; [reflexivity|].
  apply (get_utc_now_well_formed Before311 Samples.reading). reflexivity.
Defined.

Import State.
Local Open Scope Z_scope.

(** C4: starting from a freshly constructed [PlayerState], after each of
    the first [k] result messages of any sequence has been applied the
    statistics satisfy [total_matches = k], [wins + draws + losses = k] and
    [total_points = 3 * wins + 1 * draws]. The messages are those
    [update_from_result] accepts, and every such run returns. *)
Theorem stats_consistent_after_results (pid name : string) (max : Z)
    (s0 : PlayerState) (msgs : list (gmap string pyval * datetime)) (k : nat) :
  __init__ pid name max = Return s0 ->
  Forall (fun mn => well_formed mn.1 = true) msgs ->
  (k <= length msgs)%nat ->
  exists sk, apply_results s0 (take k msgs) = Return sk /\
             stats_consistent sk k.
Proof.
  intros Hinit Hwf Hk.
  destruct (apply_results_well_formed (take k msgs) (Forall_take _ k _ Hwf) s0)
    as [sk Hsk].
  exists sk. split; [done|].
  apply state_init_fresh in Hinit as (Hstats & _).
  apply apply_results_stats in Hsk as (H1 & H2 & H3).
  rewrite length_take_le in H1, H2 by done.
  rewrite Hstats in H1, H2, H3. simpl in *.
  unfold stats_consistent. lia.
Qed.

Lemma stats_consistent_after_results_witness :
  exists sk, apply_results (Samples.fresh_state 100) (take 7 Samples.ten_results)
               = Return sk /\
             stats_consistent sk 7.
Proof.
  apply (stats_consistent_after_results "P01" "Player" 100
           (Samples.fresh_state 100) Samples.ten_results 7).
  - reflexivity.
  - repeat constructor.
  - simpl. lia.
Defined.

(** C5: with [max_history_entries = 5], after ten applied results the
    history has exactly five entries: the sixth to the tenth appended
    record, in the order of application. *)
Theorem history_keeps_last_five (pid name : string) (s0 : PlayerState)
    (msgs : list (gmap string pyval * datetime)) :
  __init__ pid name 5 = Return s0 ->
  length msgs = 10%nat ->
  Forall (fun mn => well_formed mn.1 = true) msgs ->
  exists s rs,
    apply_results s0 msgs = Return s /\
    records_of pid msgs = Return rs /\
    length rs = 10%nat /\
    length (match_history s) = 5%nat /\
    match_history s = drop 5 rs.
Proof.
  intros Hinit Hlen Hwf.
  destruct (apply_results_well_formed msgs Hwf s0) as [s Hs].
  apply state_init_fresh in Hinit as (_ & Hhist & Hpid & Hmax).
  destruct (apply_results_history msgs s0 s [] 5%nat) as (rs & Hrs & Hlrs & Hh);
    [done|lia|by rewrite Hhist|done|].
  exists s, rs. rewrite <- Hpid.
  rewrite app_nil_l, Hlrs, Hlen in Hh.
  repeat split; [done|done|congruence| |done].
  rewrite Hh, length_drop. lia.
Qed.

Lemma history_keeps_last_five_witness :
  exists s rs,
    apply_results (Samples.fresh_state 5) Samples.ten_results = Return s /\
    records_of "P01" Samples.ten_results = Return rs /\
    length rs = 10%nat /\
    length (match_history s) = 5%nat /\
    match_history s = drop 5 rs.
Proof.
  apply (history_keeps_last_five "P01" "Player" (Samples.fresh_state 5)
           Samples.ten_results).
  - reflexivity.
  - reflexivity.
  - repeat constructor.
Defined.

(** C9: [set_auth_token] is idempotent: a second call with the same token
    leaves every field of the state (token, registered flag, statistics,
    history and the rest) as the first call left it. *)
Theorem set_auth_token_idempotent (s : PlayerState) (t : string) :
  set_auth_token (set_auth_token s t) t = set_auth_token s t.
Proof. reflexivity. Qed.

(** C10: [get_match_history] with [limit = 0] returns the whole history,
    oldest first, exactly as with no limit. *)
Theorem get_match_history_limit_zero (s : PlayerState) :
  get_match_history s (Some 0) = asdict <$> match_history s /\
  get_match_history s (Some 0) = get_match_history s None.
Proof. split; reflexivity. Qed.

End Claims.

(** ** Claims about the protocol message builder *)

Section ProtocolClaims.
Import Timestamp Protocol.

Lemma in_even_odd_str (choice : string) :
  in_even_odd (PStr choice) = true <-> choice = "even" \/ choice = "odd".
Proof.
  unfold in_even_odd, eq_str. rewrite orb_true_iff, !String.eqb_eq. done.
Qed.

Lemma in_even_odd_inv (v : pyval) :
  in_even_odd v = true -> v = PStr "even" \/ v = PStr "odd".
Proof.
  destruct v as [| | | |s| |]; try discriminate.
  intros [->| ->]%in_even_odd_str; auto.
Qed.

(** With a non-empty token the envelope carries it. *)
Lemma _build_envelope_token (self : ProtocolMessageBuilder) (t mt : string)
    (cid : pyval) (now : datetime) :
  auth_token self = Some t -> t <> EmptyString ->
  _build_envelope self mt cid true now =
  Return (<["auth_token" := PStr t]>
            ({[ "protocol" := PStr PROTOCOL_VERSION;
                "message_type" := PStr mt;
                "sender" := PStr ("player:" +:+ player_id self);
                "timestamp" := PStr (utc_now now);
                "conversation_id" := cid ]} : gmap string pyval)).
Proof.
  intros Ht Hne. unfold _build_envelope. rewrite Ht. simpl.
  apply String.eqb_neq in Hne. by rewrite Hne.
Qed.

(** Without a usable token the envelope is refused, naming the message. *)
Lemma _build_envelope_no_token (self : ProtocolMessageBuilder) (mt : string)
    (cid : pyval) (now : datetime) :
  truthy_opt_str (auth_token self) = false ->
  _build_envelope self mt cid true now =
  Raise (ValueError (missing_token_message mt)).
Proof.
  unfold _build_envelope, truthy_opt_str, missing_token_message.
  destruct (auth_token self) as [t|]; [|done]. simpl. by intros ->.
Qed.

(** C6, as stated, fails twice. After [set_auth_token] with the empty
    string the builder still refuses to build, because the token is tested
    for truth and the empty string is false. And before any token is set,
    [build_choose_parity_response] with a malformed choice raises the
    validation error about the choice, which does not name the message
    type: the choice is checked before the envelope is built. *)
Lemma empty_token_is_not_a_token :
  Protocol.__init__ "P01" = Return Samples.fresh_builder /\
  build (set_auth_token Samples.fresh_builder EmptyString)
    (GameJoinAck true Samples.reading) (PStr "conv-001") (PStr "M1")
    Samples.reading =
  Raise (ValueError
    "auth_token is required for GAME_JOIN_ACK but not set. Call set_auth_token() after registration.") /\
  build Samples.fresh_builder (ChooseParityResponse "Even")
    (PStr "conv-001") (PStr "M1") Samples.reading =
  Raise (ValueError
    "parity_choice must be lowercase 'even' or 'odd', got: 'Even'. This is a CRITICAL protocol requirement. See CLAUDE.md line 1920.").
Proof. repeat split; reflexivity. Qed.

(** C6, amended: for each of the three authenticated builders, called
    with arguments it accepts (for the choice response: a choice in the
    canonical set), a builder on which [set_auth_token] has not been
    called raises the configuration error that names the message type;
    after [set_auth_token(t)] with a non-empty [t] the same call succeeds
    and the message's [auth_token] field is [t]. *)
Theorem auth_builders_require_token (pid : string)
    (self : ProtocolMessageBuilder) (k : auth_builder)
    (conversation_id match_id : pyval) (now : datetime) (t : string) :
  Protocol.__init__ pid = Return self ->
  (forall c, k = ChooseParityResponse c -> c = "even" \/ c = "odd") ->
  t <> EmptyString ->
  build self k conversation_id match_id now =
    Raise (ValueError (missing_token_message (message_type_of k))) /\
  exists msg,
    build (set_auth_token self t) k conversation_id match_id now = Return msg /\
    msg !! "auth_token" = Some (PStr t).
Proof.
  intros Hinit Hk Ht.
  assert (auth_token self = None) as Hnone.
  { unfold Protocol.__init__ in Hinit.
    destruct (negb _); [discriminate|]. by injection Hinit as <-. }
  assert (forall c, k = ChooseParityResponse c -> in_even_odd (PStr c) = true)
    as Hk' by (intros c Hc; by apply in_even_odd_str, Hk).
  split.
  - destruct k as [accept arrival|c|status]; simpl;
      [unfold build_game_join_ack
      |unfold build_choose_parity_response; rewrite (Hk' c eq_refl); cbn [negb]
      |unfold build_result_acknowledgment];
      by rewrite _build_envelope_no_token by by rewrite Hnone.
  - destruct k as [accept arrival|c|status]; simpl;
      [unfold build_game_join_ack
      |unfold build_choose_parity_response; rewrite (Hk' c eq_refl); cbn [negb]
      |unfold build_result_acknowledgment];
      rewrite (_build_envelope_token _ t) by done;
      eexists; (split; [reflexivity|]); reflexivity.
Qed.

Lemma auth_builders_require_token_witness :
  build Samples.fresh_builder (ChooseParityResponse "odd")
    (PStr "conv-001") (PStr "M1") Samples.reading =
    Raise (ValueError (missing_token_message "CHOOSE_PARITY_RESPONSE")) /\
  exists msg,
    build (set_auth_token Samples.fresh_builder "tok") (ChooseParityResponse "odd")
      (PStr "conv-001") (PStr "M1") Samples.reading = Return msg /\
    msg !! "auth_token" = Some (PStr "tok").
Proof.
  apply (auth_builders_require_token "P01" Samples.fresh_builder
           (ChooseParityResponse "odd") (PStr "conv-001") (PStr "M1")
           Samples.reading "tok").
  - reflexivity.
  - intros c [= <-]. by right.
  - discriminate.
Defined.

(** C7: [build_choose_parity_response] raises the validation error that
    quotes the offending value for every choice other than ["even"] and
    ["odd"], among them ["Even"], ["ODD"], the empty string and ["left"];
    for ["even"] and ["odd"], on a builder holding a (non-empty) token, it
    succeeds and the message's [parity_choice] field is the argument. *)
Theorem choice_response_validation (self : ProtocolMessageBuilder)
    (conversation_id match_id : pyval) (now : datetime) :
  (forall choice, choice <> "even" -> choice <> "odd" ->
     build_choose_parity_response self conversation_id match_id choice now =
     Raise (ValueError (invalid_choice_message choice))) /\
  Forall (fun choice =>
     build_choose_parity_response self conversation_id match_id choice now =
     Raise (ValueError (invalid_choice_message choice)))
    ["Even"; "ODD"; EmptyString; "left"] /\
  (forall choice t, choice = "even" \/ choice = "odd" ->
     auth_token self = Some t -> t <> EmptyString ->
     exists msg,
       build_choose_parity_response self conversation_id match_id choice now
         = Return msg /\
       msg !! "parity_choice" = Some (PStr choice)).
Proof.
  assert (forall choice, choice <> "even" -> choice <> "odd" ->
     build_choose_parity_response self conversation_id match_id choice now =
     Raise (ValueError (invalid_choice_message choice))) as Hbad.
  { intros choice He Ho. unfold build_choose_parity_response.
    destruct (in_even_odd (PStr choice)) eqn:Hin; [|reflexivity].
    apply in_even_odd_str in Hin as [?|?]; contradiction. }
  split; [exact Hbad|]. split.
  - repeat constructor; by apply Hbad.
  - intros choice t Hc Ht Hne. unfold build_choose_parity_response.
    rewrite (proj2 (in_even_odd_str choice) Hc). cbn [negb].
    rewrite (_build_envelope_token _ t) by done.
    eexists. split; reflexivity.
Qed.

Lemma choice_response_validation_witness :
  build_choose_parity_response (Samples.builder_with "tok")
    (PStr "conv-001") (PStr "M1") "Even" Samples.reading =
    Raise (ValueError (invalid_choice_message "Even")) /\
  exists msg,
    build_choose_parity_response (Samples.builder_with "tok")
      (PStr "conv-001") (PStr "M1") "even" Samples.reading = Return msg /\
    msg !! "parity_choice" = Some (PStr "even").
Proof.
  pose proof (choice_response_validation (Samples.builder_with "tok")
                (PStr "conv-001") (PStr "M1") Samples.reading)
    as (Hbad & _ & Hgood).
  split.
  - apply Hbad; discriminate.
  - apply (Hgood "even" "tok"); [by left|reflexivity|discriminate].
Defined.

End ProtocolClaims.

(** ** Claims about the decision engine *)

Section EngineClaims.
Import Strategy.
Local Open Scope Z_scope.

Lemma drawn_canonical (env : environment) (calls : nat) :
  in_even_odd (PStr (drawn env calls)) = true.
Proof. unfold drawn. by destruct (draw env calls). Qed.

Create HintDb canonical.
#[local] Hint Resolve drawn_canonical : canonical.

(** What the final validation gives: the value it was given when that is
    canonical, with no call of [random.choice]; what one more call
    returns otherwise. *)
Lemma final_validation_outcome (env : environment) (choice : pyval)
    (calls : nat) :
  final_validation env choice calls =
  if in_even_odd choice then (Return choice, calls)
  else (Return (PStr (drawn env calls)), S calls).
Proof. unfold final_validation. by destruct (in_even_odd choice). Qed.

(** What the wait on [_llm_choice] gives: a canonical value, after no
    call of [random.choice] or after one call whose value it is; or an
    exception, with no call made. *)
Lemma wait_for_llm_choice (self : StrategyEngine) (env : environment)
    (context : gmap string pyval) (calls : nat) :
  match wait_for (_llm_choice self env context) (llm_timeout self) calls with
  | (Return v, calls') =>
      in_even_odd v = true /\
      (calls' = calls \/ calls' = S calls /\ v = PStr (drawn env calls))
  | (Raise e, calls') => calls' = calls
  end.
Proof.
  unfold wait_for, _llm_choice.
  destruct (llm_timeout self <=? 0); [done|].
  destruct (agent self) as [a|]; [|done].
  destruct (_format_context_prompt env context) as [prompt|]; [|done].
  destruct (arun env a prompt) as [|e|r]; [done|done|].
  unfold mbind, drawing_bind, lift.
  destruct (extract_choice r) as [c|]; [|done].
  rewrite final_validation_outcome.
  destruct (in_even_odd c) eqn:Hc; auto with canonical.
Qed.

(** [choose_parity] in the two modes that consult the reasoning service,
    read off the wait: the value of the wait is returned when the logger
    does not let [INFO] through; in every other case that ends in an
    [Exception] the next call of [random.choice] decides. *)
Lemma choose_parity_consulting (self : StrategyEngine) (env : environment)
    (context : gmap string pyval) :
  String.eqb (mode self) "random" = false ->
  is_mode (mode self) ["llm"; "hybrid"] = true ->
  choose_parity self env context =
  match wait_for (_llm_choice self env context) (llm_timeout self) 0%nat with
  | (Return v, calls) =>
      if logger_level env <=? INFO then Return (PStr (drawn env calls))
      else Return v
  | (Raise e, calls) =>
      if is_Exception e then Return (PStr (drawn env calls)) else Raise e
  end.
Proof.
  intros Hrandom Hconsulting.
  unfold choose_parity, run, try_except. rewrite Hrandom, Hconsulting.
  unfold llm_attempt, try_except, mbind, drawing_bind, mret, drawing_ret,
    lift, log_with_keyword, _random_choice.
  destruct (wait_for _ _ 0%nat) as [[v|e] calls].
  - destruct (logger_level env <=? INFO); [|done].
    cbn [is_TimeoutError is_Exception].
    by destruct (String.eqb (mode self) "llm").
  - destruct (is_TimeoutError e) eqn:Htime.
    + assert (is_Exception e = true) as -> by by destruct e.
      by destruct (logger_level env <=? WARNING).
    + destruct (is_Exception e) eqn:Hexc; [|by rewrite Hexc].
      destruct (String.eqb (mode self) "llm"); [|done]. by rewrite Hexc.
Qed.

Lemma known_mode_consulting (m : string) :
  is_mode m ["random"; "llm"; "hybrid"] = true ->
  String.eqb m "random" = false ->
  is_mode m ["llm"; "hybrid"] = true.
Proof. unfold is_mode. simpl. intros H Hrandom. by rewrite Hrandom in H. Qed.

(** The wait on an answer outside the canonical set returns what the
    call of [random.choice] made by the final validation gives. *)
Lemma wait_for_invalid_answer (self : StrategyEngine) (env : environment)
    (context : gmap string pyval) (a : Agent) (prompt : string)
    (r : llm_response) (c : pyval) (calls : nat) :
  0 < llm_timeout self ->
  agent self = Some a ->
  _format_context_prompt env context = Return prompt ->
  arun env a prompt = Responds r ->
  extract_choice r = Return c ->
  in_even_odd c = false ->
  wait_for (_llm_choice self env context) (llm_timeout self) calls =
  (Return (PStr (drawn env calls)), S calls).
Proof.
  intros Hpos Ha Hprompt Hrun Hc Hbad. unfold wait_for, _llm_choice.
  destruct (Z.leb_spec (llm_timeout self) 0); [lia|].
  rewrite Ha, Hprompt, Hrun, Hc. unfold mbind, drawing_bind, lift.
  by rewrite final_validation_outcome, Hbad.
Qed.

(** The constructor only lets the three known modes through. *)
Lemma engine_init_mode (agno : bool) (key : option string) (m model : string)
    (temp : Q) (tokens timeout : Z) (prompt : option string)
    (self : StrategyEngine) :
  __init__ agno key m model temp tokens timeout prompt = Return self ->
  mode self = m /\ is_mode m ["random"; "llm"; "hybrid"] = true /\
  llm_timeout self < 30.
Proof.
  unfold __init__.
  destruct (is_mode m ["random"; "llm"; "hybrid"]); [|discriminate].
  destruct (Z.geb_spec timeout 30); [discriminate|]. cbn [negb].
  repeat match goal with
         | |- context [if ?b then _ else _] => destruct b
         end; try discriminate; intros [= <-]; simpl; auto.
Qed.

(** The outer [except Exception] leaves nothing but a [BaseException] to
    escape, in every mode. *)
Lemma choose_parity_raises (self : StrategyEngine) (env : environment)
    (context : gmap string pyval) (e : exn) :
  choose_parity self env context = Raise e -> is_Exception e = false.
Proof.
  unfold choose_parity, run, try_except.
  match goal with |- context [match ?b 0%nat with _ => _ end] =>
    destruct (b 0%nat) as [[v|e'] calls] end; [discriminate|].
  unfold _random_choice, lift.
  destruct (is_Exception e') eqn:He; [discriminate|]. by intros [= <-].
Qed.

(** In each of the three known modes a returned value is canonical. *)
Lemma choose_parity_known_mode (self : StrategyEngine) (env : environment)
    (context : gmap string pyval) (v : pyval) :
  is_mode (mode self) ["random"; "llm"; "hybrid"] = true ->
  choose_parity self env context = Return v ->
  in_even_odd v = true.
Proof.
  intros Hknown.
  destruct (String.eqb (mode self) "random") eqn:Hrandom.
  { unfold choose_parity, run, try_except. rewrite Hrandom.
    intros [= <-]. auto with canonical. }
  rewrite choose_parity_consulting by auto using known_mode_consulting.
  pose proof (wait_for_llm_choice self env context 0%nat) as Hwait.
  destruct (wait_for _ _ 0%nat) as [[c|e] calls].
  - destruct Hwait as [Hc _].
    destruct (logger_level env <=? INFO); intros [= <-]; auto with canonical.
  - destruct (is_Exception e); [|discriminate].
    intros [= <-]. auto with canonical.
Qed.

(** C3: whenever [choose_parity] of a constructed engine returns, in any
    mode, whatever [random.choice] draws and whatever level the logger
    has, the value is the string ["even"] or the string ["odd"]. *)
Theorem choose_parity_canonical (agno : bool) (key : option string)
    (m model : string) (temp : Q) (tokens timeout : Z) (prompt : option string)
    (self : StrategyEngine) (env : environment)
    (context : gmap string pyval) (v : pyval) :
  __init__ agno key m model temp tokens timeout prompt = Return self ->
  choose_parity self env context = Return v ->
  v = PStr "even" \/ v = PStr "odd".
Proof.
  intros (Hmode & Hknown & _)%engine_init_mode Hret.
  rewrite <- Hmode in Hknown.
  by eapply in_even_odd_inv, choose_parity_known_mode.
Qed.

Lemma choose_parity_canonical_witness :
  choose_parity Samples.llm_engine Samples.shouting Samples.choice_call
    = Return (PStr "even") /\
  (PStr "even" = PStr "even" \/ PStr "even" = PStr "odd").
Proof.
  split; [reflexivity|].
  apply (choose_parity_canonical true (Some "test-api-key") "llm"
           "gemini-2.0-flash-exp" (7 # 10) 100 25 None
           Samples.llm_engine Samples.shouting Samples.choice_call (PStr "even")).
  - reflexivity.
  - reflexivity.
Defined.

(** C1, as stated, fails: an engine in mode ["llm"] returns a random
    outcome instead of raising when the reasoning service never answers,
    when it fails with a service error, and when its answer is outside the
    canonical set. The logger has the level of the module, [INFO]: after
    the timeout the warning call raises its [TypeError] out of the inner
    [try]; the service error is raised again by the inner handler; the
    answer outside the set is replaced in [_llm_choice] by a first draw,
    ["odd"], and the log call after the wait raises. Each time the outer
    [except Exception] returns the next draw. *)
Lemma llm_mode_substitutes_instead_of_raising :
  __init__ true (Some "test-api-key") "llm" "gemini-2.0-flash-exp" (7 # 10)
    100 25 None = Return Samples.llm_engine /\
  choose_parity Samples.llm_engine Samples.stalled Samples.choice_call
    = Return (PStr "even") /\
  choose_parity Samples.llm_engine Samples.failing Samples.choice_call
    = Return (PStr "even") /\
  choose_parity Samples.llm_engine Samples.shouting Samples.choice_call
    = Return (PStr "even").
Proof. repeat split; reflexivity. Qed.

(** C1, amended: in mode ["llm"], when the wait on the reasoning call
    times out, or when the call answers in time with a structured answer
    whose choice is outside the canonical set, [choose_parity] does not
    raise: it returns an outcome drawn by [_random_choice], a member of
    the canonical set. After a timeout that is the first draw. After an
    answer outside the set it is the first draw, made by the final
    validation, when the logger does not let [INFO] through; when it
    does, the keyword log call raises and the value returned is the
    second draw, made by the outer handler. *)
Theorem llm_mode_timeout_and_invalid_answer (self : StrategyEngine)
    (env : environment) (context : gmap string pyval) :
  mode self = "llm" ->
  (forall calls, in_even_odd (PStr (drawn env calls)) = true) /\
  (run (wait_for (_llm_choice self env context) (llm_timeout self))
     = Raise AsyncioTimeoutError ->
   choose_parity self env context = Return (PStr (drawn env 0%nat))) /\
  (forall a prompt r c,
     0 < llm_timeout self ->
     agent self = Some a ->
     _format_context_prompt env context = Return prompt ->
     arun env a prompt = Responds r ->
     extract_choice r = Return c ->
     in_even_odd c = false ->
     choose_parity self env context =
       Return (PStr (drawn env (if logger_level env <=? INFO then 1%nat else 0%nat)))).
Proof.
  intros Hmode. split; [auto with canonical|].
  assert (choose_parity self env context = _) as ->
    by (apply choose_parity_consulting; by rewrite Hmode).
  split.
  - pose proof (wait_for_llm_choice self env context 0%nat) as Hcalls.
    unfold run. intros Hwait.
    destruct (wait_for _ _ 0%nat) as [o calls].
    simpl in Hwait. by subst o calls.
  - intros a prompt r c Hpos Ha Hprompt Hrun Hc Hbad.
    rewrite (wait_for_invalid_answer self env context a prompt r c) by done.
    by destruct (logger_level env <=? INFO).
Qed.

Lemma llm_mode_timeout_and_invalid_answer_witness :
  choose_parity Samples.llm_engine Samples.stalled Samples.choice_call
    = Return (PStr "even") /\
  choose_parity Samples.llm_engine Samples.shouting Samples.choice_call
    = Return (PStr "even").
Proof.
  split.
  - apply (llm_mode_timeout_and_invalid_answer Samples.llm_engine
             Samples.stalled Samples.choice_call); reflexivity.
  - pose proof (llm_mode_timeout_and_invalid_answer Samples.llm_engine
                  Samples.shouting Samples.choice_call eq_refl) as (_ & _ & H).
    eapply (H _ _ _ (PStr "EVEN")); reflexivity.
Defined.

End EngineClaims.

(** ** Claims about the dispatch layer *)

Section DispatchClaims.
Import Timestamp Handlers.
Local Open Scope Z_scope.

Lemma validated_choice_canonical (v : pyval) :
  in_even_odd (PStr (validated_choice v)) = true.
Proof.
  unfold validated_choice. destruct v as [| | | |s| |]; try reflexivity.
  by destruct (in_even_odd (PStr s)) eqn:Hs.
Qed.

Lemma validated_choice_invalid (v : pyval) :
  in_even_odd v = false -> validated_choice v = "even".
Proof.
  unfold validated_choice. destruct v as [| | | |s| |]; try reflexivity.
  by intros ->.
Qed.

Lemma validated_choice_valid (c : string) :
  c = "even" \/ c = "odd" -> validated_choice (PStr c) = c.
Proof. by intros [-> | ->]. Qed.

(** A choice response for a canonical choice, from a builder holding a
    non-empty token. *)
Lemma build_choose_parity_response_ok (p : Protocol.ProtocolMessageBuilder)
    (cid mid : pyval) (c t : string) (now : datetime) :
  Protocol.auth_token p = Some t -> t <> EmptyString ->
  in_even_odd (PStr c) = true ->
  exists msg,
    Protocol.build_choose_parity_response p cid mid c now = Return msg /\
    msg !! "message_type" = Some (PStr "CHOOSE_PARITY_RESPONSE") /\
    msg !! "parity_choice" = Some (PStr c).
Proof.
  intros Ht Hne Hc. unfold Protocol.build_choose_parity_response.
  rewrite Hc. cbn [negb]. rewrite (_build_envelope_token _ t) by done.
  eexists. repeat split; reflexivity.
Qed.

(** C2, as stated, fails: when the engine raises an error that is not a
    timeout, [choose_parity] re-raises it, and [mcp_endpoint] answers with
    a JSON-RPC internal error, not with a choice response. And when no
    token has been set, even the emergency path of the handler raises. *)
Lemma engine_error_is_reraised :
  Handlers.__init__ (State.set_auth_token (Samples.fresh_state 100) "tok")
    Samples.llm_engine = Return Samples.handlers /\
  choose_parity_with (fun _ => Raise (RuntimeError "engine failure"))
    Samples.handlers Samples.choice_call Samples.quiet
    Samples.reading Samples.reading
  = Raise (RuntimeError "engine failure") /\
  (Server.mcp_endpoint_with (fun _ => Raise (RuntimeError "engine failure"))
     Samples.handlers
     (Server.Build_MCPRequest "2.0" "choose_parity" Samples.choice_call 1)
     Samples.quiet Samples.reading Samples.reading).1
  = Return (Server.error_response (-32603) "Internal error: engine failure" 1) /\
  choose_parity_with (fun _ => Raise AsyncioTimeoutError)
    (Build_ToolHandlers (Samples.fresh_state 100) Samples.llm_engine
       Samples.fresh_builder)
    Samples.choice_call Samples.quiet Samples.reading Samples.reading
  = Raise (ValueError (Protocol.missing_token_message "CHOOSE_PARITY_RESPONSE")).
Proof. repeat split; vm_compute; reflexivity. Qed.

Section Handler.
Context (engine : gmap string pyval -> outcome pyval) (self : ToolHandlers)
  (params : gmap string pyval) (console : Console) (now later : datetime)
  (t : string).
Hypothesis token_set : Protocol.auth_token (protocol self) = Some t.
Hypothesis token_not_empty : t <> EmptyString.
Hypothesis thinking_rendered : print_parity_thinking console = None.

(** The engine returned: its value, or ["even"] in its place, is sent. *)
Lemma handler_answers (v : pyval) :
  print_parity_choice console = None ->
  engine (choice_context self params) = Return v ->
  exists msg,
    choose_parity_with engine self params console now later = Return msg /\
    msg !! "message_type" = Some (PStr "CHOOSE_PARITY_RESPONSE") /\
    msg !! "parity_choice" = Some (PStr (validated_choice v)).
Proof.
  intros Hchoice Hengine.
  unfold choose_parity_with. rewrite thinking_rendered, Hchoice, Hengine.
  cbn [rendered mbind outcome_bind].
  destruct (build_choose_parity_response_ok (protocol self)
              (get params "conversation_id" (PStr "unknown"))
              (get params "match_id" (PStr "unknown"))
              (validated_choice v) t now token_set token_not_empty
              (validated_choice_canonical v))
    as (msg & -> & Hmt & Hpc).
  by exists msg.
Qed.

(** The engine raised a timeout: the emergency response is sent. *)
Lemma handler_timeout (e : exn) :
  engine (choice_context self params) = Raise e ->
  is_TimeoutError e = true ->
  exists msg,
    choose_parity_with engine self params console now later = Return msg /\
    msg !! "message_type" = Some (PStr "CHOOSE_PARITY_RESPONSE") /\
    msg !! "parity_choice" = Some (PStr "even").
Proof.
  intros Hengine He.
  unfold choose_parity_with. rewrite thinking_rendered, Hengine.
  cbn [rendered mbind outcome_bind]. rewrite He.
  by apply (build_choose_parity_response_ok _ _ _ "even" t).
Qed.

(** The engine raised anything else: the handler raises it again. *)
Lemma handler_reraises (e : exn) :
  engine (choice_context self params) = Raise e ->
  is_TimeoutError e = false ->
  choose_parity_with engine self params console now later = Raise e.
Proof.
  intros Hengine He.
  unfold choose_parity_with. rewrite thinking_rendered, Hengine.
  cbn [rendered mbind outcome_bind]. by rewrite He.
Qed.

End Handler.

(** The endpoint hands a [choose_parity] request to the handler and
    shapes what comes back. *)
Lemma endpoint_routes_choose_parity
    (engine : gmap string pyval -> outcome pyval) (self : ToolHandlers)
    (request : Server.MCPRequest) (console : Console) (now later : datetime) :
  Server.method request = "choose_parity" ->
  (Server.mcp_endpoint_with engine self request console now later).1 =
  Server.shape (Server.id request)
    (choose_parity_with engine self (Server.params request) console now later).
Proof.
  intros Hmethod. unfold Server.mcp_endpoint_with. by rewrite Hmethod.
Qed.

(** C2, amended: with a token set and the console helpers returning,
    [choose_parity] answers with a valid CHOOSE_PARITY_RESPONSE carrying
    the engine's choice when that choice is canonical, and carrying the
    fixed emergency value ["even"] when the engine returns anything else
    or raises [asyncio.TimeoutError]; [mcp_endpoint] wraps that message as
    the result of its response. Any other exception raised by the engine
    is re-raised by the handler, and [mcp_endpoint] then answers with a
    JSON-RPC error in place of a choice response: code -32602 for a
    [ValueError], code -32603 for any other [Exception]. An exception
    that is not an [Exception], such as [asyncio.CancelledError], leaves
    the endpoint as well. *)
Theorem choose_parity_emergency_substitution
    (engine : gmap string pyval -> outcome pyval) (self : ToolHandlers)
    (request : Server.MCPRequest) (console : Console) (now later : datetime)
    (t : string) :
  let params := Server.params request in
  let endpoint :=
    (Server.mcp_endpoint_with engine self request console now later).1 in
  Server.method request = "choose_parity" ->
  Protocol.auth_token (protocol self) = Some t -> t <> EmptyString ->
  print_parity_thinking console = None ->
  print_parity_choice console = None ->
  match engine (choice_context self params) with
  | Return v =>
      exists msg,
        choose_parity_with engine self params console now later = Return msg /\
        msg !! "message_type" = Some (PStr "CHOOSE_PARITY_RESPONSE") /\
        msg !! "parity_choice" =
          Some (if in_even_odd v then v else PStr "even") /\
        endpoint = Return (Server.Build_MCPResponse (Some msg) None
                             (Server.id request))
  | Raise e =>
      if is_TimeoutError e
      then exists msg,
        choose_parity_with engine self params console now later = Return msg /\
        msg !! "message_type" = Some (PStr "CHOOSE_PARITY_RESPONSE") /\
        msg !! "parity_choice" = Some (PStr "even") /\
        endpoint = Return (Server.Build_MCPResponse (Some msg) None
                             (Server.id request))
      else
        choose_parity_with engine self params console now later = Raise e /\
        endpoint =
          if is_ValueError e
          then Return (Server.error_response (-32602)
                         ("Invalid parameters: " +:+ exn_str e)
                         (Server.id request))
          else if is_Exception e
          then Return (Server.error_response (-32603)
                         ("Internal error: " +:+ exn_str e)
                         (Server.id request))
          else Raise e
  end.
Proof.
  intros params endpoint Hmethod Ht Hne Hthinking Hchoice.
  assert (endpoint = Server.shape (Server.id request)
            (choose_parity_with engine self params console now later))
    as Hroute by by apply endpoint_routes_choose_parity.
  destruct (engine (choice_context self params)) as [v|e] eqn:Hengine.
  - destruct (handler_answers engine self params console now later t
                Ht Hne Hthinking v Hchoice Hengine) as (msg & Hmsg & Hmt & Hpc).
    exists msg. split; [done|]. split; [done|]. split.
    + rewrite Hpc. destruct (in_even_odd v) eqn:Hv.
      * apply in_even_odd_inv in Hv as [-> | ->]; reflexivity.
      * by rewrite validated_choice_invalid.
    + by rewrite Hroute, Hmsg.
  - destruct (is_TimeoutError e) eqn:He.
    + destruct (handler_timeout engine self params console now later t
                  Ht Hne Hthinking e Hengine He) as (msg & Hmsg & Hmt & Hpc).
      exists msg. split; [done|]. split; [done|]. split; [done|].
      by rewrite Hroute, Hmsg.
    + pose proof (handler_reraises engine self params console now later
                    Hthinking e Hengine He) as Hraise.
      split; [done|]. by rewrite Hroute, Hraise.
Qed.

Lemma choose_parity_emergency_substitution_witness :
  (exists msg,
     choose_parity_with (fun _ => Raise AsyncioTimeoutError)
       Samples.handlers Samples.choice_call Samples.quiet
       Samples.reading Samples.reading = Return msg /\
     msg !! "message_type" = Some (PStr "CHOOSE_PARITY_RESPONSE") /\
     msg !! "parity_choice" = Some (PStr "even") /\
     (Server.mcp_endpoint_with (fun _ => Raise AsyncioTimeoutError)
        Samples.handlers
        (Server.Build_MCPRequest "2.0" "choose_parity" Samples.choice_call 1)
        Samples.quiet Samples.reading Samples.reading).1
     = Return (Server.Build_MCPResponse (Some msg) None 1)) /\
  (Server.mcp_endpoint_with (fun _ => Raise CancelledError)
     Samples.handlers
     (Server.Build_MCPRequest "2.0" "choose_parity" Samples.choice_call 1)
     Samples.quiet Samples.reading Samples.reading).1
  = Raise CancelledError.
Proof.
  split.
  - apply (choose_parity_emergency_substitution
             (fun _ => Raise AsyncioTimeoutError) Samples.handlers
             (Server.Build_MCPRequest "2.0" "choose_parity" Samples.choice_call 1)
             Samples.quiet Samples.reading Samples.reading "tok").
    + reflexivity.
    + reflexivity.
    + discriminate.
    + reflexivity.
    + reflexivity.
  - apply (choose_parity_emergency_substitution
             (fun _ => Raise CancelledError) Samples.handlers
             (Server.Build_MCPRequest "2.0" "choose_parity" Samples.choice_call 1)
             Samples.quiet Samples.reading Samples.reading "tok").
    + reflexivity.
    + reflexivity.
    + discriminate.
    + reflexivity.
    + reflexivity.
Defined.

(** With the agent's own engine the first safety net already holds: its
    [choose_parity] returns a canonical value or lets a [BaseException]
    through, so the handler answers with that value or with that
    exception. *)
Lemma choose_parity_own_engine (agno : bool) (key : option string)
    (m model : string) (temp : Q) (tokens timeout : Z) (prompt : option string)
    (self : ToolHandlers) (env : Strategy.environment)
    (params : gmap string pyval) (console : Console) (now later : datetime)
    (t : string) :
  Strategy.__init__ agno key m model temp tokens timeout prompt
    = Return (strategy self) ->
  Protocol.auth_token (protocol self) = Some t -> t <> EmptyString ->
  print_parity_thinking console = None ->
  print_parity_choice console = None ->
  (exists msg c,
     choose_parity self env params console now later = Return msg /\
     msg !! "parity_choice" = Some (PStr c) /\ (c = "even" \/ c = "odd")) \/
  (exists e,
     choose_parity self env params console now later = Raise e /\
     is_Exception e = false).
Proof.
  intros (Hmode & Hknown & _)%engine_init_mode Ht Hne Hthinking Hchoice.
  rewrite <- Hmode in Hknown. unfold choose_parity.
  destruct (Strategy.choose_parity (strategy self) env (choice_context self params))
    as [v|e] eqn:Hengine.
  - left.
    destruct (handler_answers _ self params console now later t
                Ht Hne Hthinking v Hchoice Hengine) as (msg & Hmsg & _ & Hpc).
    pose proof (choose_parity_known_mode _ _ _ _ Hknown Hengine) as Hv.
    apply in_even_odd_inv in Hv as [-> | ->];
      [exists msg, "even" | exists msg, "odd"]; auto.
  - right. exists e.
    pose proof (choose_parity_raises _ _ _ _ Hengine) as He.
    split; [|done]. apply handler_reraises; [done|done|].
    by destruct e.
Qed.

End DispatchClaims.

(** ** Further properties of the message builder *)

Section ProtocolFacts.
Import Timestamp Protocol.

(** A timestamp produced from a valid clock reading validates. *)
Lemma validate_timestamp_get_utc_now (v : py_version) (now : datetime) :
  valid_datetime now = true ->
  validate_timestamp v (get_utc_now now) = Return true.
Proof.
  intros Hvalid. unfold validate_timestamp.
  rewrite get_utc_now_nonempty, pattern_get_utc_now by done.
  cbn [negb]. by rewrite parse_get_utc_now.
Qed.

Lemma lower_canonical (choice : string) :
  in_even_odd (PStr choice) = true -> lower choice = choice.
Proof. by intros [-> | ->]%in_even_odd_str. Qed.

(** The registration message, field by field. *)
Lemma register_request_fields (self : ProtocolMessageBuilder)
    (conversation_id : pyval) (display_name callback_url : string)
    (now : datetime) :
  exists msg,
    build_league_register_request self conversation_id display_name
      callback_url now = Return msg /\
    msg !! "auth_token" = None /\
    msg !! "protocol" = Some (PStr "league.v2") /\
    msg !! "message_type" = Some (PStr "LEAGUE_REGISTER_REQUEST") /\
    msg !! "sender" = Some (PStr ("player:" +:+ player_id self)) /\
    msg !! "timestamp" = Some (PStr (get_utc_now now)) /\
    msg !! "conversation_id" = Some conversation_id /\
    msg !! "player_id" = Some (PStr (player_id self)) /\
    msg !! "display_name" = Some (PStr display_name) /\
    msg !! "callback_url" = Some (PStr callback_url).
Proof. eexists. split; [reflexivity|]. repeat split; reflexivity. Qed.

(** X1: [build_league_register_request] returns on every builder, with or
    without a token, and its message never has an [auth_token] field, not
    even when the builder holds a token. The message carries the
    envelope (protocol, message type, sender, a timestamp that validates
    when the clock reading is a valid date and time, conversation
    identifier) and the three registration fields. *)
Theorem register_request_carries_no_token (v : py_version)
    (self : ProtocolMessageBuilder) (conversation_id : pyval)
    (display_name callback_url : string) (now : datetime) :
  exists msg,
    build_league_register_request self conversation_id display_name
      callback_url now = Return msg /\
    msg !! "auth_token" = None /\
    msg !! "protocol" = Some (PStr "league.v2") /\
    msg !! "message_type" = Some (PStr "LEAGUE_REGISTER_REQUEST") /\
    msg !! "sender" = Some (PStr ("player:" +:+ player_id self)) /\
    msg !! "conversation_id" = Some conversation_id /\
    msg !! "player_id" = Some (PStr (player_id self)) /\
    msg !! "display_name" = Some (PStr display_name) /\
    msg !! "callback_url" = Some (PStr callback_url) /\
    exists ts, msg !! "timestamp" = Some (PStr ts) /\
      (valid_datetime now = true -> validate_timestamp v ts = Return true).
Proof.
  destruct (register_request_fields self conversation_id display_name
              callback_url now)
    as (msg & Hmsg & H1 & H2 & H3 & H4 & H5 & H6 & H7 & H8 & H9).
  exists msg. repeat (split; [done|]).
  exists (get_utc_now now). split; [done|].
  apply validate_timestamp_get_utc_now.
Qed.

Lemma register_request_carries_no_token_witness :
  exists msg,
    build_league_register_request (Samples.builder_with "tok")
      (PStr "registration-01234567") "Player" "http://localhost:8101/mcp"
      Samples.reading = Return msg /\
    msg !! "auth_token" = None /\
    exists ts, msg !! "timestamp" = Some (PStr ts) /\
               validate_timestamp Before311 ts = Return true.
Proof.
  destruct (register_request_carries_no_token Before311
              (Samples.builder_with "tok") (PStr "registration-01234567")
              "Player" "http://localhost:8101/mcp" Samples.reading)
    as (msg & Hmsg & Hnone & _ & _ & _ & _ & _ & _ & _ & ts & Hts & Hvalid).
  exists msg. split; [exact Hmsg|]. split; [exact Hnone|].
  exists ts. split; [exact Hts|]. apply Hvalid. reflexivity.
Defined.

(** X2: every message returned by one of the three authenticated
    builders keeps the envelope under the payload merged into it: the
    protocol version, the message type of the builder, the sender
    ["player:<id>"], the conversation identifier and the match identifier
    as given, the builder's non-empty token, and a timestamp that
    [validate_timestamp] accepts whenever the clock reading is a valid
    date and time. *)
Theorem built_message_keeps_envelope (v : py_version)
    (self : ProtocolMessageBuilder) (k : auth_builder)
    (conversation_id match_id : pyval) (now : datetime)
    (msg : gmap string pyval) :
  valid_datetime now = true ->
  build self k conversation_id match_id now = Return msg ->
  msg !! "protocol" = Some (PStr PROTOCOL_VERSION) /\
  msg !! "message_type" = Some (PStr (message_type_of k)) /\
  msg !! "sender" = Some (PStr ("player:" +:+ player_id self)) /\
  msg !! "conversation_id" = Some conversation_id /\
  msg !! "match_id" = Some match_id /\
  (exists t, auth_token self = Some t /\ t <> EmptyString /\
             msg !! "auth_token" = Some (PStr t)) /\
  (exists ts, msg !! "timestamp" = Some (PStr ts) /\
              validate_timestamp v ts = Return true).
Proof.
  intros Hvalid Hbuild.
  destruct (truthy_opt_str (auth_token self)) eqn:Htok.
  - destruct (auth_token self) as [t|] eqn:Ht; [|discriminate].
    assert (t <> EmptyString) as Hne.
    { intros ->. discriminate. }
    destruct k as [accept arrival|c|status]; simpl in Hbuild;
      [unfold build_game_join_ack in Hbuild
      |unfold build_choose_parity_response in Hbuild;
       destruct (negb (in_even_odd (PStr c))); [discriminate|]
      |unfold build_result_acknowledgment in Hbuild];
      rewrite (_build_envelope_token _ t) in Hbuild by done;
      injection Hbuild as <-;
      (repeat split; try reflexivity;
       [exists t; by repeat split
       |exists (get_utc_now now); split;
        [reflexivity|by apply validate_timestamp_get_utc_now]]).
  - destruct k as [accept arrival|c|status]; simpl in Hbuild;
      [unfold build_game_join_ack in Hbuild
      |unfold build_choose_parity_response in Hbuild;
       destruct (negb (in_even_odd (PStr c))); [discriminate|]
      |unfold build_result_acknowledgment in Hbuild];
      by rewrite _build_envelope_no_token in Hbuild.
Qed.

Lemma built_message_keeps_envelope_witness :
  exists msg,
    build (Samples.builder_with "tok") (GameJoinAck true Samples.whole_second)
      (PStr "conv-001") (PStr "M1") Samples.reading = Return msg /\
    msg !! "conversation_id" = Some (PStr "conv-001") /\
    exists ts, msg !! "timestamp" = Some (PStr ts) /\
               validate_timestamp Before311 ts = Return true.
Proof.
  eexists. split; [reflexivity|].
  pose proof (built_message_keeps_envelope Before311 (Samples.builder_with "tok")
                (GameJoinAck true Samples.whole_second) (PStr "conv-001")
                (PStr "M1") Samples.reading _ eq_refl eq_refl)
    as (_ & _ & _ & Hcid & _ & _ & Hts).
  split; [exact Hcid|exact Hts].
Defined.

(** X3: [normalize_parity_choice] returns only canonical values: its
    result is the lowercased argument, [validate_parity_choice] accepts
    it, normalising it again changes nothing, and a builder that holds a
    token puts it into a choice response. Every choice that
    [validate_parity_choice] accepts is returned unchanged. When it
    raises, the error is the [ValueError] that names the argument as it
    was given, and the argument is one the builder's validation rejects
    as well. *)
Theorem normalize_parity_choice_canonical (choice : string) :
  (forall r, normalize_parity_choice choice = Return r ->
     r = lower choice /\
     validate_parity_choice r = true /\
     normalize_parity_choice r = Return r /\
     forall (self : ProtocolMessageBuilder) t conversation_id match_id now,
       auth_token self = Some t -> t <> EmptyString ->
       exists msg,
         build_choose_parity_response self conversation_id match_id r now
           = Return msg /\
         msg !! "parity_choice" = Some (PStr r)) /\
  (validate_parity_choice choice = true ->
     normalize_parity_choice choice = Return choice) /\
  (forall e, normalize_parity_choice choice = Raise e ->
     e = ValueError ("Invalid parity choice: " +:+ choice) /\
     validate_parity_choice choice = false).
Proof.
  unfold normalize_parity_choice, validate_parity_choice.
  split; [|split].
  - intros r Hr.
    destruct (in_even_odd (PStr (lower choice))) eqn:Hin; [|discriminate].
    injection Hr as <-. split; [done|]. split; [done|]. split.
    + by rewrite (lower_canonical _ Hin), Hin.
    + intros self t cid mid now Ht Hne.
      unfold build_choose_parity_response. rewrite Hin. cbn [negb].
      rewrite (_build_envelope_token _ t) by done.
      eexists. split; reflexivity.
  - intros Hin. by rewrite (lower_canonical _ Hin), Hin.
  - intros e He.
    destruct (in_even_odd (PStr (lower choice))) eqn:Hin; [discriminate|].
    injection He as <-. split; [done|].
    destruct (in_even_odd (PStr choice)) eqn:Hc; [|done].
    by rewrite (lower_canonical _ Hc), Hc in Hin.
Qed.

Lemma normalize_parity_choice_canonical_witness :
  normalize_parity_choice "EVEN" = Return "even" /\
  validate_parity_choice "even" = true /\
  normalize_parity_choice "even" = Return "even".
Proof.
  pose proof (normalize_parity_choice_canonical "EVEN") as (Hr & _ & _).
  destruct (Hr "even" eq_refl) as (_ & Hv & Hn & _).
  split; [reflexivity|]. split; [exact Hv|exact Hn].
Defined.

End ProtocolFacts.

(** ** Further properties of the match state *)

Section StateExtras.
Import Timestamp State.
Local Open Scope Z_scope.

Lemma update_from_result_record (s s' : PlayerState) (m : gmap string pyval)
    (now : datetime) :
  update_from_result s m now = Return s' ->
  exists r, record_of (player_id s) m now = Return r /\
    wins (stats s') = wins (stats s) + is_result "win" r /\
    draws (stats s') = draws (stats s) + is_result "draw" r /\
    losses (stats s') = losses (stats s) + is_result "loss" r /\
    total_points (stats s') = total_points (stats s) + points_earned r /\
    (result r, points_earned r) ∈ [("win", 3); ("draw", 1); ("loss", 0)].
Proof.
  unfold update_from_result, record_of.
  destruct (get_method _ (PStr (player_id s)) _) as [pc|]; [|discriminate].
  destruct (get_method _ (get m "opponent_id" _) _) as [oc|]; [|discriminate].
  cbn [mbind outcome_bind mret outcome_ret].
  destruct (get m "winner" PNone); try destruct (eq_str _ _);
    intros [= <-]; eexists; (split; [reflexivity|]);
    unfold is_result; simpl; repeat split; try lia; set_solver.
Qed.

Lemma apply_results_records (msgs : list (gmap string pyval * datetime)) :
  forall s s' : PlayerState,
  apply_results s msgs = Return s' ->
  exists rs, records_of (player_id s) msgs = Return rs /\
    wins (stats s') = wins (stats s) + foldr Z.add 0 (is_result "win" <$> rs) /\
    draws (stats s') = draws (stats s) + foldr Z.add 0 (is_result "draw" <$> rs) /\
    losses (stats s') =
      losses (stats s) + foldr Z.add 0 (is_result "loss" <$> rs) /\
    total_points (stats s') =
      total_points (stats s) + foldr Z.add 0 (points_earned <$> rs) /\
    Forall (fun r => (result r, points_earned r) ∈
                       [("win", 3); ("draw", 1); ("loss", 0)]) rs.
Proof.
  induction msgs as [|[m now] rest IH]; intros s s' Happ.
  - injection Happ as <-. exists []. simpl. repeat split; try lia. constructor.
  - simpl in Happ.
    destruct (update_from_result s m now) as [s1|] eqn:Hup; [|discriminate].
    cbn [mbind outcome_bind] in Happ.
    pose proof (update_from_result_stats _ _ _ _ Hup) as (_ & _ & _ & Hpid & _).
    apply update_from_result_record in Hup as (r & Hr & H1 & H2 & H3 & H4 & H5).
    apply IH in Happ as (rs & Hrs & H6 & H7 & H8 & H9 & H10).
    exists (r :: rs). cbn [records_of]. rewrite Hr. cbn [mbind outcome_bind].
    rewrite <- Hpid, Hrs. cbn [mbind outcome_bind mret outcome_ret].
    rewrite !fmap_cons. cbn [foldr].
    split; [done|]. repeat (split; [lia|]). by constructor.
Qed.

(** X4: the counters account for every result ever applied, whatever the
    history bound has dropped since: after a run of [update_from_result]
    calls on a fresh state, [wins], [draws] and [losses] are the numbers
    of appended records with that result, [total_points] is the sum of
    their [points_earned], and each record pairs its result with its
    points: win 3, draw 1, loss 0. *)
Theorem counters_account_for_all_records (pid name : string) (max : Z)
    (s0 s : PlayerState) (msgs : list (gmap string pyval * datetime)) :
  __init__ pid name max = Return s0 ->
  apply_results s0 msgs = Return s ->
  exists rs, records_of pid msgs = Return rs /\
    wins (stats s) = foldr Z.add 0 (is_result "win" <$> rs) /\
    draws (stats s) = foldr Z.add 0 (is_result "draw" <$> rs) /\
    losses (stats s) = foldr Z.add 0 (is_result "loss" <$> rs) /\
    total_points (stats s) = foldr Z.add 0 (points_earned <$> rs) /\
    Forall (fun r => (result r, points_earned r) ∈
                       [("win", 3); ("draw", 1); ("loss", 0)]) rs.
Proof.
  intros Hinit Happ.
  apply state_init_fresh in Hinit as (Hstats & _ & Hpid & _).
  apply apply_results_records in Happ as (rs & Hrs & H1 & H2 & H3 & H4 & H5).
  rewrite Hstats in H1, H2, H3, H4. simpl in *.
  exists rs. rewrite <- Hpid. repeat split; try done; lia.
Qed.

Lemma counters_account_for_all_records_witness :
  exists rs, records_of "P01" Samples.ten_results = Return rs /\
    wins (stats (deliver (Samples.fresh_state 3) Samples.ten_results)) =
      foldr Z.add 0 (is_result "win" <$> rs) /\
    total_points (stats (deliver (Samples.fresh_state 3) Samples.ten_results)) =
      foldr Z.add 0 (points_earned <$> rs).
Proof.
  assert (apply_results (Samples.fresh_state 3) Samples.ten_results =
          Return (deliver (Samples.fresh_state 3) Samples.ten_results))
    as Happ by (vm_compute; reflexivity).
  destruct (counters_account_for_all_records "P01" "Player" 3
              (Samples.fresh_state 3)
              (deliver (Samples.fresh_state 3) Samples.ten_results)
              Samples.ten_results eq_refl Happ)
    as (rs & Hrs & Hw & _ & _ & Hp & _).
  exists rs. split; [exact Hrs|]. split; [exact Hw|exact Hp].
Defined.

(** One applied result under a bound that is not positive. *)
Lemma update_from_result_no_bound (s s' : PlayerState)
    (m : gmap string pyval) (now : datetime) :
  max_history_entries s <= 0 ->
  update_from_result s m now = Return s' ->
  exists r, record_of (player_id s) m now = Return r /\
    match_history s' =
      drop (Z.to_nat (- max_history_entries s)) (match_history s ++ [r]).
Proof.
  intros Hmax Hup.
  apply update_from_result_history in Hup as (r & Hr & Hh).
  exists r. split; [done|]. rewrite Hh, length_app. simpl length.
  destruct (Z.gtb_spec (Z.of_nat (length (match_history s) + 1))
              (max_history_entries s)); [|lia].
  unfold slice_from. rewrite length_app. simpl length.
  destruct (Z.ltb_spec (- max_history_entries s) 0); [lia|].
  destruct (Z.min_spec (- max_history_entries s)
              (Z.of_nat (length (match_history s) + 1)))
    as [[_ ->]|[Hle ->]]; [done|].
  rewrite !drop_ge; [done|rewrite length_app; simpl; lia
                    |rewrite length_app; simpl; lia].
Qed.

Lemma apply_results_no_bound (msgs : list (gmap string pyval * datetime)) :
  forall s s' : PlayerState,
  max_history_entries s <= 0 ->
  apply_results s msgs = Return s' ->
  exists rs, records_of (player_id s) msgs = Return rs /\
    (max_history_entries s = 0 -> match_history s' = match_history s ++ rs) /\
    (max_history_entries s < 0 -> match_history s = [] ->
     match_history s' = []).
Proof.
  induction msgs as [|[m now] rest IH]; intros s s' Hmax Happ.
  - injection Happ as <-. exists []. by rewrite app_nil_r.
  - simpl in Happ.
    destruct (update_from_result s m now) as [s1|] eqn:Hup; [|discriminate].
    cbn [mbind outcome_bind] in Happ.
    pose proof (update_from_result_stats _ _ _ _ Hup)
      as (_ & _ & _ & Hpid & Hmax1).
    apply (update_from_result_no_bound _ _ _ _ Hmax) in Hup as (r & Hr & Hh).
    apply IH in Happ as (rs & Hrs & Hzero & Hneg); [|lia].
    exists (r :: rs). simpl. rewrite Hr. cbn [mbind outcome_bind].
    rewrite <- Hpid, Hrs. cbn [mbind outcome_bind mret outcome_ret].
    split; [done|]. split.
    + intros H0. rewrite Hzero by lia. rewrite Hh, H0. simpl.
      by rewrite drop_0, <- app_assoc.
    + intros Hlt Hnil. apply Hneg; [lia|].
      rewrite Hh, Hnil. simpl. apply drop_ge. simpl. lia.
Qed.

(** X5: what the history holds for every value of
    [max_history_entries], after any number of results applied to a
    fresh state. A positive bound [n] keeps the last [n] appended records
    (all of them while there are fewer); the bound [0] never trims, so
    the history keeps every record; a negative bound keeps none. *)
Theorem history_for_every_bound (pid name : string) (max : Z)
    (s0 : PlayerState) (msgs : list (gmap string pyval * datetime)) :
  __init__ pid name max = Return s0 ->
  Forall (fun mn => well_formed mn.1 = true) msgs ->
  exists s rs,
    apply_results s0 msgs = Return s /\
    records_of pid msgs = Return rs /\
    length rs = length msgs /\
    (0 < max ->
       match_history s = drop (length rs - Z.to_nat max) rs /\
       Z.of_nat (length (match_history s)) = Z.min (Z.of_nat (length msgs)) max) /\
    (max = 0 -> match_history s = rs) /\
    (max < 0 -> match_history s = []).
Proof.
  intros Hinit Hwf.
  destruct (apply_results_well_formed msgs Hwf s0) as [s Hs].
  apply state_init_fresh in Hinit as (_ & Hhist & Hpid & Hmax).
  assert (exists rs, records_of pid msgs = Return rs /\ length rs = length msgs)
    as (rs & Hrs & Hlen).
  { rewrite <- Hpid. clear Hwf Hhist Hmax Hpid. revert s0 s Hs.
    induction msgs as [|[m now] rest IH]; intros s0 s Hs; [by exists []|].
    simpl in Hs.
    destruct (update_from_result s0 m now) as [s1|] eqn:Hup; [|discriminate].
    cbn [mbind outcome_bind] in Hs.
    pose proof (update_from_result_stats _ _ _ _ Hup) as (_ & _ & _ & Hpid & _).
    apply update_from_result_history in Hup as (r & Hr & _).
    apply IH in Hs as (rs & Hrs & Hlen).
    exists (r :: rs). simpl. rewrite Hr. cbn [mbind outcome_bind].
    rewrite <- Hpid, Hrs. cbn [mbind outcome_bind mret outcome_ret].
    split; [done|]. simpl. congruence. }
  exists s, rs. split; [done|]. split; [done|]. split; [done|].
  split; [|split].
  - intros Hpos.
    destruct (apply_results_history msgs s0 s [] (Z.to_nat max))
      as (rs' & Hrs' & _ & Hh); [lia|lia|by rewrite Hhist|done|].
    rewrite Hpid, Hrs in Hrs'. injection Hrs' as <-.
    rewrite app_nil_l in Hh. split; [done|].
    rewrite Hh, length_drop. lia.
  - intros H0.
    destruct (apply_results_no_bound msgs s0 s) as (rs' & Hrs' & Hzero & _);
      [lia|done|].
    rewrite Hpid, Hrs in Hrs'. injection Hrs' as <-.
    rewrite Hzero, Hhist by lia. done.
  - intros Hneg.
    destruct (apply_results_no_bound msgs s0 s) as (rs' & _ & _ & Hn);
      [lia|done|].
    apply Hn; [lia|done].
Qed.

Lemma history_for_every_bound_witness :
  exists s rs,
    apply_results (Samples.fresh_state 0) Samples.ten_results = Return s /\
    records_of "P01" Samples.ten_results = Return rs /\
    length rs = 10%nat /\
    match_history s = rs.
Proof.
  destruct (history_for_every_bound "P01" "Player" 0 (Samples.fresh_state 0)
              Samples.ten_results eq_refl)
    as (s & rs & Hs & Hrs & Hlen & _ & Hzero & _).
  - repeat constructor.
  - exists s, rs. split; [exact Hs|]. split; [exact Hrs|].
    split; [exact Hlen|]. by apply Hzero.
Defined.

Lemma drop_min {A} (k : nat) (l : list A) :
  drop (Nat.min k (length l)) l = drop k l.
Proof.
  destruct (decide (k <= length l)%nat).
  - by rewrite Nat.min_l.
  - rewrite Nat.min_r by lia. rewrite !drop_ge; [done|lia|lia].
Qed.

(** X6: [get_match_history] with a positive limit [n] returns the last
    [n] entries of the history (the whole history when it has fewer), in
    order; with a negative limit [-k] it raises nothing and returns the
    history without its [k] oldest entries. *)
Theorem get_match_history_limit (s : PlayerState) (n : Z) :
  (0 < n ->
     get_match_history s (Some n) =
       drop (length (match_history s) - Z.to_nat n)
            (asdict <$> match_history s) /\
     length (get_match_history s (Some n)) =
       Nat.min (Z.to_nat n) (length (match_history s))) /\
  (n < 0 ->
     get_match_history s (Some n) =
       drop (Z.to_nat (- n)) (asdict <$> match_history s)).
Proof.
  unfold get_match_history, truthy, slice_from. rewrite length_fmap.
  split; intros Hn.
  - destruct (Z.eqb_spec n 0); [lia|]. cbn [negb].
    destruct (Z.ltb_spec (- n) 0); [|lia].
    replace (Z.to_nat (Z.max 0 (Z.of_nat (length (match_history s)) + - n)))
      with (length (match_history s) - Z.to_nat n)%nat by lia.
    split; [done|]. rewrite length_drop, length_fmap. lia.
  - destruct (Z.eqb_spec n 0); [lia|]. cbn [negb].
    destruct (Z.ltb_spec (- n) 0); [lia|].
    replace (Z.to_nat (Z.min (- n) (Z.of_nat (length (match_history s)))))
      with (Nat.min (Z.to_nat (- n)) (length (asdict <$> match_history s)))
      by (rewrite length_fmap; lia).
    apply drop_min.
Qed.

Lemma get_match_history_limit_witness :
  get_match_history (deliver (Samples.fresh_state 100) Samples.ten_results)
    (Some (-8)) =
  drop 8 (asdict <$> match_history
            (deliver (Samples.fresh_state 100) Samples.ten_results)).
Proof.
  apply (get_match_history_limit
           (deliver (Samples.fresh_state 100) Samples.ten_results) (-8)).
  lia.
Defined.

(** X7: [get_opponent_history] selects from the full history, in its
    order, exactly the entries whose [opponent_id] is the given string:
    every returned entry has that opponent, and every entry of
    [get_match_history()] with that opponent is returned. *)
Theorem get_opponent_history_selects (s : PlayerState) (opponent : string) :
  sublist (get_opponent_history s opponent) (get_match_history s None) /\
  Forall (fun d => d !! "opponent_id" = Some (PStr opponent))
         (get_opponent_history s opponent) /\
  (forall d, d ∈ get_match_history s None ->
     d !! "opponent_id" = Some (PStr opponent) ->
     d ∈ get_opponent_history s opponent).
Proof.
  unfold get_opponent_history, get_match_history. split; [|split].
  - apply fmap_sublist, sublist_filter.
  - apply Forall_fmap, Forall_forall. intros r [Hr _]%list_elem_of_filter.
    change (Some (opponent_id r) = Some (PStr opponent)).
    destruct (opponent_id r); try discriminate.
    apply String.eqb_eq in Hr as ->. reflexivity.
  - intros d (r & -> & Hr)%list_elem_of_fmap Hopp.
    apply list_elem_of_fmap_2, list_elem_of_filter. split; [|done].
    change (Some (opponent_id r) = Some (PStr opponent)) in Hopp.
    injection Hopp as ->. apply String.eqb_refl.
Qed.

Lemma get_opponent_history_selects_witness :
  asdict Samples.won_match ∈ get_match_history Samples.saved_state None /\
  asdict Samples.won_match ∈ get_opponent_history Samples.saved_state "P02".
Proof.
  assert (asdict Samples.won_match ∈ get_match_history Samples.saved_state None)
    as Hin by apply list_elem_of_here.
  split; [exact Hin|].
  pose proof (get_opponent_history_selects Samples.saved_state "P02")
    as (_ & _ & Hall).
  apply (Hall _ Hin). reflexivity.
Defined.

Lemma MatchResult_of_asdict (r : MatchResult) :
  MatchResult_of (PDict (asdict r)) = Built r.
Proof.
  destruct r. unfold MatchResult_of.
  by rewrite bool_decide_eq_true_2 by (vm_compute; reflexivity).
Qed.

Lemma MatchResults_of_asdict (h : list MatchResult) :
  MatchResults_of (PDict <$> (asdict <$> h)) = Built h.
Proof.
  induction h as [|r h IH]; [done|].
  rewrite !fmap_cons. cbn [MatchResults_of].
  by rewrite MatchResult_of_asdict, IH.
Qed.

Lemma Stats_of_get_stats (s : PlayerState) :
  Stats_of (PDict (get_stats s)) = Some (stats s).
Proof. unfold get_stats. by destruct (stats s). Qed.

(** What [_load_state] makes of a snapshot written by [to_dict]. *)
Lemma load_state_to_dict (self s : PlayerState) (now : datetime) :
  truthy_opt_str (state_file_path self) = true ->
  _load_state self (Stored (PDict (to_dict s now))) =
  Some {| player_id := player_id self;
          display_name := display_name self;
          max_history_entries := max_history_entries self;
          persistence_enabled := persistence_enabled self;
          state_file_path := state_file_path self;
          auth_token := auth_token s;
          registered := registered s;
          stats := stats s;
          match_history := match_history s |}.
Proof.
  intros Hpath. unfold _load_state. rewrite Hpath. cbn [negb].
  change (get (to_dict s now) "auth_token" PNone) with (opt_str (auth_token s)).
  change (get (to_dict s now) "registered" (PBool false))
    with (PBool (registered s)).
  change (to_dict s now !! "stats") with (Some (PDict (get_stats s))).
  change (get (to_dict s now) "match_history" (PList []))
    with (PList (PDict <$> (asdict <$> match_history s))).
  destruct (auth_token s); cbn [opt_str mbind option_bind];
    rewrite Stats_of_get_stats; cbn [mbind option_bind history_of];
    by rewrite MatchResults_of_asdict.
Qed.

(** X8: saving and loading round-trip. With persistence enabled and a
    non-empty path, [_maybe_save_state] writes the snapshot [to_dict] to
    that path, and a [PlayerState] constructed with the same identity,
    bound and path, finding that snapshot in the file (as [json.load]
    gives back what [json.dump] wrote), is the saved state, field for
    field: token, registration flag, statistics and the whole history. *)
Theorem save_then_load_restores (self : PlayerState) (path : string)
    (now : datetime) :
  player_id self <> EmptyString ->
  persistence_enabled self = true ->
  state_file_path self = Some path ->
  path <> EmptyString ->
  _maybe_save_state self now = Some (path, to_dict self now) /\
  __init__persistent (player_id self) (display_name self)
    (max_history_entries self) true (Some path)
    (Stored (PDict (to_dict self now))) = Return (Some self).
Proof.
  intros Hpid Hon Hpath Hne.
  apply String.eqb_neq in Hpid, Hne.
  split.
  - unfold _maybe_save_state. rewrite Hon, Hpath. simpl. by rewrite Hne.
  - unfold __init__persistent. simpl. rewrite Hpid, Hne. cbn [negb].
    rewrite load_state_to_dict by (simpl; by rewrite Hne).
    destruct self; simpl in *. by subst.
Qed.

Lemma save_then_load_restores_witness :
  _maybe_save_state Samples.saved_state Samples.reading =
    Some ("state.json", to_dict Samples.saved_state Samples.reading) /\
  __init__persistent (player_id Samples.saved_state)
    (display_name Samples.saved_state)
    (max_history_entries Samples.saved_state) true (Some "state.json")
    (Stored (PDict (to_dict Samples.saved_state Samples.reading))) =
  Return (Some Samples.saved_state).
Proof.
  apply (save_then_load_restores Samples.saved_state "state.json"
           Samples.reading);
    [simpl; discriminate|reflexivity|reflexivity|discriminate].
Defined.

Lemma MatchResults_of_rejected (l : list pyval) :
  Exists (fun m => MatchResult_of m = Rejected) l ->
  MatchResults_of l = Rejected.
Proof.
  induction 1 as [m l Hm|m l _ IH]; cbn [MatchResults_of].
  - by rewrite Hm.
  - rewrite IH. by destruct (MatchResult_of m).
Qed.

(** X9: the history is restored all or nothing, and apart from the other
    fields. When the stored history list holds one entry that is not an
    object with exactly the eight record fields, [_load_state] restores
    no history entry at all, while the token, the registration flag and
    the statistics of the same snapshot are restored; the loaded
    statistics then count matches of which the history shows none. *)
Theorem load_state_history_all_or_nothing (self : PlayerState)
    (data : gmap string pyval) (entries : list pyval) (token : string)
    (reg : bool) (counters : pyval) (st : Stats) :
  truthy_opt_str (state_file_path self) = true ->
  data !! "auth_token" = Some (PStr token) ->
  data !! "registered" = Some (PBool reg) ->
  data !! "stats" = Some counters -> Stats_of counters = Some st ->
  data !! "match_history" = Some (PList entries) ->
  Exists (fun m => MatchResult_of m = Rejected) entries ->
  exists s, _load_state self (Stored (PDict data)) = Some s /\
    auth_token s = Some token /\
    registered s = reg /\
    stats s = st /\
    match_history s = match_history self.
Proof.
  intros Hpath Htok Hreg Hst Hcounters Hh Hbad.
  unfold _load_state, get. rewrite Hpath, Htok, Hreg, Hst, Hh, Hcounters.
  cbn [negb default from_option id mbind option_bind history_of].
  rewrite MatchResults_of_rejected by done.
  eexists. split; [reflexivity|]. by repeat split.
Qed.

Lemma load_state_history_all_or_nothing_witness :
  exists s,
    _load_state (with_history Samples.saved_state [])
      (Stored (PDict Samples.damaged_snapshot)) = Some s /\
    auth_token s = Some "tok" /\
    registered s = true /\
    stats s = Build_Stats 2 0 0 6 2 /\
    match_history s = [].
Proof.
  pose proof (load_state_history_all_or_nothing
                (with_history Samples.saved_state []) Samples.damaged_snapshot
                [PDict (asdict Samples.won_match);
                 PDict (delete "timestamp" (asdict Samples.won_match))]
                "tok" true
                (PDict (get_stats (with_stats Samples.saved_state
                                     (Build_Stats 2 0 0 6 2))))
                (Build_Stats 2 0 0 6 2)) as Hload.
  apply Hload; clear Hload;
    [vm_compute; reflexivity..
    |apply Exists_cons_tl, Exists_cons_hd; vm_compute; reflexivity].
Defined.

End StateExtras.

(** ** Further properties of the decision engine *)

Section EngineExtras.
Import Strategy.
Local Open Scope Z_scope.

(** X10: the keyword arguments of the two log calls decide whether the
    reasoning service is ever listened to. With a logger that lets [INFO]
    through, as [setup_logger(__name__)] configures it, the [TypeError] of
    the log call that follows a successful wait is handled like a failed
    call: in every known mode [choose_parity] returns what [random.choice]
    gives at the call that follows those of the wait (the wait makes at
    most one, in the final validation of [_llm_choice]), whatever the
    service answered, or lets through the [BaseException] that ended the
    wait. With a logger that does not let [INFO] through, that log call
    does nothing: an answer that arrives in time is returned as
    [_llm_choice] gave it, every [Exception] that ends the wait becomes
    the first draw, and a [BaseException] passes. *)
Theorem keyword_logging_discards_answer (self : StrategyEngine)
    (env : environment) (context : gmap string pyval) :
  let wait := wait_for (_llm_choice self env context) (llm_timeout self) in
  is_mode (mode self) ["random"; "llm"; "hybrid"] = true ->
  (logger_level env <= INFO ->
     (calls_of wait <= 1)%nat /\
     (choose_parity self env context =
        Return (PStr (drawn env (if String.eqb (mode self) "random"
                                 then 0%nat else calls_of wait))) \/
      exists e, is_Exception e = false /\ run wait = Raise e /\
        choose_parity self env context = Raise e)) /\
  (INFO < logger_level env ->
     choose_parity self env context =
       if String.eqb (mode self) "random"
       then Return (PStr (drawn env 0%nat))
       else match run wait with
            | Return choice => Return choice
            | Raise e =>
                if is_Exception e then Return (PStr (drawn env 0%nat))
                else Raise e
            end).
Proof.
  intros wait Hknown.
  pose proof (wait_for_llm_choice self env context 0%nat) as Hwait.
  fold wait in Hwait.
  destruct (String.eqb (mode self) "random") eqn:Hrandom.
  { unfold choose_parity, run, calls_of, try_except. rewrite Hrandom.
    split; [|done]. intros _. split; [|by left].
    destruct (wait 0%nat) as [[c|e] calls]; [|simpl; lia].
    destruct Hwait as [_ [->|[-> _]]]; simpl; lia. }
  rewrite choose_parity_consulting by auto using known_mode_consulting.
  fold wait. unfold run, calls_of.
  destruct (wait 0%nat) as [[c|e] calls]; cbn [fst snd].
  - split; intros Hlevel.
    + split; [destruct Hwait as [_ [->|[-> _]]]; lia|]. left.
      by destruct (Z.leb_spec (logger_level env) INFO); [|lia].
    + by destruct (Z.leb_spec (logger_level env) INFO); [lia|].
  - subst calls. split; intros Hlevel.
    + split; [lia|]. destruct (is_Exception e) eqn:Hexc; [by left|].
      right. by exists e.
    + done.
Qed.

Lemma keyword_logging_discards_answer_witness :
  choose_parity Samples.llm_engine Samples.agreeing Samples.choice_call
    = Return (PStr "even") /\
  choose_parity Samples.llm_engine Samples.shouting Samples.choice_call
    = Return (PStr "even") /\
  choose_parity Samples.llm_engine Samples.agreeing_unlogged
    Samples.choice_call = Return (PStr "odd").
Proof.
  pose proof (keyword_logging_discards_answer Samples.llm_engine
                Samples.agreeing Samples.choice_call eq_refl) as [Hinfo _].
  pose proof (keyword_logging_discards_answer Samples.llm_engine
                Samples.shouting Samples.choice_call eq_refl) as [Hsecond _].
  pose proof (keyword_logging_discards_answer Samples.llm_engine
                Samples.agreeing_unlogged Samples.choice_call eq_refl)
    as [_ Hquiet].
  split; [|split].
  - destruct Hinfo as [_ [Hret|(e & _ & Hwait & _)]];
      [vm_compute; discriminate|exact Hret|discriminate Hwait].
  - destruct Hsecond as [_ [Hret|(e & _ & Hwait & _)]];
      [vm_compute; discriminate|exact Hret|discriminate Hwait].
  - rewrite Hquiet by reflexivity. reflexivity.
Defined.

Lemma engine_init_agent (agno : bool) (key : option string) (m model : string)
    (temp : Q) (tokens timeout : Z) (prompt : option string)
    (self : StrategyEngine) :
  __init__ agno key m model temp tokens timeout prompt = Return self ->
  mode self = m /\ llm_timeout self = timeout /\
  (m = "random" \/
   m = "hybrid" /\
   (truthy_opt_str key = false \/
    key = Some "your_google_gemini_api_key_here") ->
   agent self = None) /\
  (m = "llm" ->
   agent self = Some (_create_agent model temp tokens prompt) /\
   agno = true /\ truthy_opt_str key = true /\
   key <> Some "your_google_gemini_api_key_here").
Proof.
  unfold __init__.
  destruct (is_mode m ["random"; "llm"; "hybrid"]); [|discriminate].
  destruct (Z.geb_spec timeout 30); [discriminate|]. cbn [negb].
  destruct (is_mode m ["llm"; "hybrid"]) eqn:Hllm.
  - destruct agno; [|discriminate]. cbn [negb].
    destruct (truthy_opt_str key) eqn:Hkey; cbn [negb orb].
    + destruct (bool_decide_reflect (key = Some "your_google_gemini_api_key_here"))
        as [Hplace|Hplace].
      * destruct (String.eqb_spec m "llm") as [->|Hm]; [discriminate|].
        intros [= <-]. simpl. repeat split; done.
      * intros [= <-]. simpl. split; [done|]. split; [done|]. split.
        -- intros [->|(-> & [?|?])]; [discriminate|discriminate|done].
        -- done.
    + destruct (String.eqb_spec m "llm") as [->|Hm]; [discriminate|].
      intros [= <-]. simpl. repeat split; done.
  - intros [= <-]. simpl. split; [done|]. split; [done|]. split; [done|].
    intros ->. discriminate.
Qed.

Lemma no_agent_draws (self : StrategyEngine) (env : environment)
    (context : gmap string pyval) :
  mode self = "random" \/ mode self = "hybrid" ->
  agent self = None ->
  choose_parity self env context = Return (PStr (drawn env 0%nat)).
Proof.
  intros [Hm|Hm] Ha.
  - unfold choose_parity, run, try_except. by rewrite Hm.
  - rewrite choose_parity_consulting by by rewrite Hm.
    unfold wait_for, _llm_choice. rewrite Ha.
    by destruct (llm_timeout self <=? 0).
Qed.

(** X11: an engine constructed in mode ["random"], or in mode ["hybrid"]
    without a usable API key (none, the empty string, or the placeholder
    of the template), holds no agent, and its [choose_parity] returns the
    first draw of [random.choice] on every context, whatever the
    reasoning service would do and whatever the logger lets through. An
    engine constructed in mode ["llm"] always holds an agent, built from
    the constructor's model settings. *)
Theorem engine_without_agent_draws (agno : bool) (key : option string)
    (m model : string) (temp : Q) (tokens timeout : Z)
    (prompt : option string) (self : StrategyEngine) :
  __init__ agno key m model temp tokens timeout prompt = Return self ->
  (m = "random" \/
   m = "hybrid" /\
   (truthy_opt_str key = false \/
    key = Some "your_google_gemini_api_key_here") ->
   agent self = None /\
   forall env context,
     choose_parity self env context = Return (PStr (drawn env 0%nat))) /\
  (m = "llm" -> agent self = Some (_create_agent model temp tokens prompt)).
Proof.
  intros (Hmode & _ & Hnone & Hllm)%engine_init_agent. split.
  - intros Hm. split; [by apply Hnone|].
    intros env context. apply no_agent_draws; [|by apply Hnone].
    rewrite Hmode. destruct Hm as [->|[-> _]]; auto.
  - intros Hm. by apply Hllm.
Qed.

Lemma engine_without_agent_draws_witness :
  choose_parity (Build_StrategyEngine "hybrid" 25 None) Samples.agreeing
    Samples.choice_call = Return (PStr "even") /\
  choose_parity (Build_StrategyEngine "hybrid" 25 None)
    Samples.agreeing_unlogged Samples.choice_call = Return (PStr "even").
Proof.
  pose proof (engine_without_agent_draws true None "hybrid"
                "gemini-2.0-flash-exp" (7 # 10) 100 25 None
                (Build_StrategyEngine "hybrid" 25 None) eq_refl) as [Hnone _].
  destruct Hnone as [_ Hdraw]; [right; split; [reflexivity|by left]|].
  split.
  - apply (Hdraw Samples.agreeing Samples.choice_call).
  - apply (Hdraw Samples.agreeing_unlogged Samples.choice_call).
Defined.

(** X12: the constructor checks only the upper bound of [llm_timeout].
    An engine constructed with a timeout of zero or less never uses an
    answer of the reasoning service: in every mode, and whatever the
    logger lets through, [choose_parity] returns the first draw of
    [random.choice]. *)
Theorem nonpositive_timeout_always_draws (agno : bool) (key : option string)
    (m model : string) (temp : Q) (tokens timeout : Z)
    (prompt : option string) (self : StrategyEngine)
    (env : environment) (context : gmap string pyval) :
  __init__ agno key m model temp tokens timeout prompt = Return self ->
  timeout <= 0 ->
  choose_parity self env context = Return (PStr (drawn env 0%nat)).
Proof.
  intros Hinit Hle.
  pose proof (engine_init_mode _ _ _ _ _ _ _ _ _ Hinit) as (_ & Hknown & _).
  apply engine_init_agent in Hinit as (Hmode & Htime & _).
  rewrite <- Hmode in Hknown.
  destruct (String.eqb (mode self) "random") eqn:Hrandom.
  { unfold choose_parity, run, try_except. by rewrite Hrandom. }
  rewrite choose_parity_consulting by auto using known_mode_consulting.
  unfold wait_for. rewrite Htime.
  by destruct (Z.leb_spec timeout 0); [|lia].
Qed.

Lemma nonpositive_timeout_always_draws_witness :
  choose_parity
    (Build_StrategyEngine "llm" 0
       (Some (_create_agent "gemini-2.0-flash-exp" (7 # 10) 100 None)))
    Samples.agreeing Samples.choice_call = Return (PStr "even") /\
  choose_parity
    (Build_StrategyEngine "llm" 0
       (Some (_create_agent "gemini-2.0-flash-exp" (7 # 10) 100 None)))
    Samples.agreeing_unlogged Samples.choice_call = Return (PStr "even").
Proof.
  split.
  - apply (nonpositive_timeout_always_draws true (Some "test-api-key") "llm"
             "gemini-2.0-flash-exp" (7 # 10) 100 0 None _
             Samples.agreeing Samples.choice_call eq_refl).
    lia.
  - apply (nonpositive_timeout_always_draws true (Some "test-api-key") "llm"
             "gemini-2.0-flash-exp" (7 # 10) 100 0 None _
             Samples.agreeing_unlogged Samples.choice_call eq_refl).
    lia.
Defined.

End EngineExtras.

(** ** Further properties of the tool handlers and of the endpoint *)

Section DispatchExtras.
Import Timestamp Handlers.
Local Open Scope Z_scope.

Lemma truthy_opt_str_inv (o : option string) :
  truthy_opt_str o = true -> exists t, o = Some t /\ t <> EmptyString.
Proof.
  destruct o as [t|]; [|discriminate]. simpl.
  intros Ht. exists t. split; [done|]. intros ->. discriminate.
Qed.

Lemma truthy_str (t : string) : t <> EmptyString -> truthy (PStr t) = true.
Proof. intros Hne. simpl. apply String.eqb_neq in Hne. by rewrite Hne. Qed.

(** X13: [handle_game_invitation] always accepts, and it is the one
    handler that brings the builder's token up to date. When the state
    holds a non-empty token and the console renders, the call returns a
    GAME_JOIN_ACK with [accept = true] that echoes the match and the
    conversation; the builder afterwards holds a non-empty token, which
    the message carries: its own when it had one, the state's otherwise.
    State and strategy are untouched. *)
Theorem invitation_adopts_state_token (self : ToolHandlers)
    (params : gmap string pyval) (console : Console) (now arrival : datetime)
    (t : string) :
  State.auth_token (state self) = Some t -> t <> EmptyString ->
  print_game_invitation console = None ->
  exists msg self' tok,
    handle_game_invitation self params console now arrival
      = (Return msg, self') /\
    msg !! "message_type" = Some (PStr "GAME_JOIN_ACK") /\
    msg !! "accept" = Some (PBool true) /\
    msg !! "match_id" = Some (get params "match_id" (PStr "unknown")) /\
    msg !! "conversation_id" =
      Some (get params "conversation_id" (PStr "unknown")) /\
    msg !! "auth_token" = Some (PStr tok) /\
    state self' = state self /\ strategy self' = strategy self /\
    Protocol.player_id (protocol self') = Protocol.player_id (protocol self) /\
    Protocol.auth_token (protocol self') = Some tok /\ tok <> EmptyString /\
    (truthy_opt_str (Protocol.auth_token (protocol self)) = false -> tok = t) /\
    (truthy_opt_str (Protocol.auth_token (protocol self)) = true ->
     Protocol.auth_token (protocol self) = Some tok).
Proof.
  intros Hstate Hne Hconsole. unfold handle_game_invitation.
  rewrite Hstate, (truthy_str _ Hne), Hconsole. cbn [andb].
  destruct (truthy_opt_str (Protocol.auth_token (protocol self))) eqn:Hold;
    cbn [negb].
  - apply truthy_opt_str_inv in Hold as (t' & Ht' & Hne').
    unfold Protocol.build_game_join_ack.
    rewrite (_build_envelope_token _ t') by done.
    eexists _, self, t'. split; [reflexivity|]. by repeat split.
  - unfold Protocol.build_game_join_ack.
    rewrite (_build_envelope_token _ t) by done.
    eexists _, _, t. split; [reflexivity|]. by repeat split.
Qed.

Lemma invitation_adopts_state_token_witness :
  exists msg self',
    handle_game_invitation
      (Build_ToolHandlers (State.set_auth_token (Samples.fresh_state 100) "tok")
         Samples.llm_engine Samples.fresh_builder)
      Samples.choice_call Samples.quiet Samples.reading Samples.reading
      = (Return msg, self') /\
    msg !! "auth_token" = Some (PStr "tok") /\
    Protocol.auth_token (protocol self') = Some "tok".
Proof.
  destruct (invitation_adopts_state_token
              (Build_ToolHandlers
                 (State.set_auth_token (Samples.fresh_state 100) "tok")
                 Samples.llm_engine Samples.fresh_builder)
              Samples.choice_call Samples.quiet Samples.reading
              Samples.reading "tok" eq_refl)
    as (msg & self' & tok & Hcall & _ & _ & _ & _ & Hmsg & _ & _ & _ & Htok
        & _ & Hnew & _); [discriminate|reflexivity|].
  rewrite (Hnew eq_refl) in Hmsg, Htok. by exists msg, self'.
Defined.

(** X14: [choose_parity] does not look at the state's token. With a
    token in the state but none in the builder, a call whose engine
    returns raises the configuration error of the missing token; once
    [handle_game_invitation] has run on the same handlers, whatever its
    arguments and however it ended, the same call returns a choice
    response that carries the state's token. *)
Theorem choose_parity_needs_invitation
    (engine : gmap string pyval -> outcome pyval) (self : ToolHandlers)
    (params : gmap string pyval) (console : Console) (now later : datetime)
    (t : string) (v : pyval) :
  State.auth_token (state self) = Some t -> t <> EmptyString ->
  truthy_opt_str (Protocol.auth_token (protocol self)) = false ->
  print_parity_thinking console = None ->
  print_parity_choice console = None ->
  engine (choice_context self params) = Return v ->
  choose_parity_with engine self params console now later =
    Raise (ValueError (Protocol.missing_token_message "CHOOSE_PARITY_RESPONSE")) /\
  forall invitation console' now' arrival',
    exists msg,
      choose_parity_with engine
        (handle_game_invitation self invitation console' now' arrival').2
        params console now later = Return msg /\
      msg !! "auth_token" = Some (PStr t) /\
      msg !! "parity_choice" = Some (PStr (validated_choice v)).
Proof.
  intros Hstate Hne Hold Hthink Hchoice Hengine. split.
  - unfold choose_parity_with. rewrite Hthink, Hengine.
    cbn [rendered mbind outcome_bind].
    unfold Protocol.build_choose_parity_response.
    rewrite validated_choice_canonical. cbn [negb].
    by rewrite _build_envelope_no_token.
  - intros invitation console' now' arrival'.
    unfold handle_game_invitation.
    rewrite Hstate, (truthy_str _ Hne), Hold. cbn [andb negb snd].
    unfold choose_parity_with. rewrite Hthink, Hchoice.
    change (choice_context (with_protocol self _) params)
      with (choice_context self params).
    rewrite Hengine. cbn [rendered mbind outcome_bind].
    unfold Protocol.build_choose_parity_response.
    rewrite validated_choice_canonical. cbn [negb].
    rewrite (_build_envelope_token _ t) by done.
    eexists. split; [reflexivity|]. split; reflexivity.
Qed.

Lemma choose_parity_needs_invitation_witness :
  choose_parity_with (fun _ => Return (PStr "odd"))
    (Build_ToolHandlers (State.set_auth_token (Samples.fresh_state 100) "tok")
       Samples.llm_engine Samples.fresh_builder)
    Samples.choice_call Samples.quiet Samples.reading Samples.reading =
  Raise (ValueError (Protocol.missing_token_message "CHOOSE_PARITY_RESPONSE")).
Proof.
  apply (choose_parity_needs_invitation (fun _ => Return (PStr "odd"))
           (Build_ToolHandlers
              (State.set_auth_token (Samples.fresh_state 100) "tok")
              Samples.llm_engine Samples.fresh_builder)
           Samples.choice_call Samples.quiet Samples.reading Samples.reading
           "tok" (PStr "odd")); try reflexivity.
  discriminate.
Defined.

(** The two dictionary reads of the console summary succeed whenever the
    same reads succeeded inside [update_from_result]. *)
Lemma well_formed_choices (s : State.PlayerState) (m : gmap string pyval) :
  State.well_formed m = true ->
  exists a b,
    get_method (get m "choices" (PDict ∅)) (PStr (State.player_id s))
      (PStr "unknown") = Return a /\
    get_method (get m "choices" (PDict ∅))
      (get m "opponent_id" (PStr "unknown")) (PStr "unknown") = Return b.
Proof.
  unfold State.well_formed, get_method.
  destruct (get m "choices" (PDict ∅)); try discriminate.
  destruct (get m "opponent_id" (PStr "unknown")); try discriminate; eauto.
Qed.

Lemma notify_match_result_unregistered (self : ToolHandlers)
    (params : gmap string pyval) (console : Console) (now later : datetime) :
  truthy_opt_str (Protocol.auth_token (protocol self)) = false ->
  State.well_formed params = true ->
  (notify_match_result self params console now later).1 =
    Raise (ValueError (Protocol.missing_token_message "RESULT_ACKNOWLEDGMENT")) /\
  exists s, State.update_from_result (state self) params now = Return s /\
    (notify_match_result self params console now later).2 = with_state self s.
Proof.
  intros Hold Hwf.
  destruct (update_from_result_well_formed (state self) params now Hwf)
    as [s Hs].
  unfold notify_match_result. rewrite Hs. cbn [fst snd]. split; [|by exists s].
  unfold Protocol.build_result_acknowledgment.
  by rewrite _build_envelope_no_token.
Qed.

(** X15: [notify_match_result] applies the result before it builds the
    acknowledgment, and nothing undoes it. For a result message that
    [update_from_result] accepts, the handlers afterwards hold the
    updated state in every case: with a token and a rendering console the
    call returns a RESULT_ACKNOWLEDGMENT with status ["acknowledged"]
    that echoes the match; without a token the call raises the
    configuration error, and the match is counted all the same. For a
    message that [update_from_result] rejects, the call raises that
    exception and the handlers are unchanged. *)
Theorem notify_match_result_applies_first (self : ToolHandlers)
    (params : gmap string pyval) (console : Console) (now later : datetime) :
  (State.well_formed params = true ->
   exists s,
     State.update_from_result (state self) params now = Return s /\
     State.total_matches (State.stats s) =
       State.total_matches (State.stats (state self)) + 1 /\
     (notify_match_result self params console now later).2 = with_state self s /\
     (truthy_opt_str (Protocol.auth_token (protocol self)) = false ->
      (notify_match_result self params console now later).1 =
        Raise (ValueError
                 (Protocol.missing_token_message "RESULT_ACKNOWLEDGMENT"))) /\
     (truthy_opt_str (Protocol.auth_token (protocol self)) = true ->
      print_match_result console = None ->
      print_stats_summary console = None ->
      exists msg,
        (notify_match_result self params console now later).1 = Return msg /\
        msg !! "message_type" = Some (PStr "RESULT_ACKNOWLEDGMENT") /\
        msg !! "status" = Some (PStr "acknowledged") /\
        msg !! "match_id" = Some (get params "match_id" (PStr "unknown")))) /\
  (State.well_formed params = false ->
   exists e,
     State.update_from_result (state self) params now = Raise e /\
     notify_match_result self params console now later = (Raise e, self)).
Proof.
  split; intros Hwf.
  - destruct (update_from_result_well_formed (state self) params now Hwf)
      as [s Hs].
    exists s. split; [done|].
    pose proof (update_from_result_stats _ _ _ _ Hs) as (Hcount & _ & _ & Hpid & _).
    split; [done|].
    unfold notify_match_result. rewrite Hs. cbn [fst snd].
    split; [done|]. split.
    + intros Hold. unfold Protocol.build_result_acknowledgment.
      by rewrite _build_envelope_no_token.
    + intros (t & Ht & Hne)%truthy_opt_str_inv Hresult Hsummary.
      destruct (well_formed_choices s params Hwf) as (a & b & -> & ->).
      rewrite Hresult, Hsummary.
      unfold Protocol.build_result_acknowledgment.
      change (protocol (with_state self s)) with (protocol self).
      rewrite (_build_envelope_token _ t) by done.
      eexists. split; [reflexivity|]. by repeat split.
  - pose proof (update_from_result_returns (state self) params now) as Hret.
    rewrite Hwf in Hret.
    destruct (State.update_from_result (state self) params now) as [s|e] eqn:Hs;
      [discriminate|].
    exists e. split; [done|]. unfold notify_match_result. by rewrite Hs.
Qed.

Lemma notify_match_result_applies_first_witness :
  State.total_matches (State.stats (state
    (notify_match_result
       (Build_ToolHandlers (Samples.fresh_state 100) Samples.llm_engine
          Samples.fresh_builder)
       (Samples.game_over "R1M1" (PStr "P01")) Samples.quiet
       Samples.reading Samples.reading).2)) = 1 /\
  (notify_match_result
     (Build_ToolHandlers (Samples.fresh_state 100) Samples.llm_engine
        Samples.fresh_builder)
     (Samples.game_over "R1M1" (PStr "P01")) Samples.quiet
     Samples.reading Samples.reading).1 =
  Raise (ValueError (Protocol.missing_token_message "RESULT_ACKNOWLEDGMENT")).
Proof.
  pose proof (notify_match_result_applies_first
                (Build_ToolHandlers (Samples.fresh_state 100)
                   Samples.llm_engine Samples.fresh_builder)
                (Samples.game_over "R1M1" (PStr "P01")) Samples.quiet
                Samples.reading Samples.reading) as [Hok _].
  destruct Hok as (s & _ & Hcount & Hstate & Hraise & _); [reflexivity|].
  rewrite Hstate. split; [exact Hcount|]. by apply Hraise.
Defined.

Lemma shape_well_formed (id : Z) (o : outcome (gmap string pyval)) :
  match Server.shape id o with
  | Return resp =>
      Server.response_id resp = id /\
      ((exists r, o = Return r /\ Server.result resp = Some r /\
                  Server.error resp = None) \/
       (exists e code,
          o = Raise e /\ Server.result resp = None /\
          Server.error resp =
            Some {[ "code" := PInt code;
                    "message" := PStr ((if is_ValueError e
                                        then "Invalid parameters: "
                                        else "Internal error: ") +:+ exn_str e) ]} /\
          code = (if is_ValueError e then Server.INVALID_PARAMS
                  else Server.INTERNAL_ERROR)))
  | Raise e => is_Exception e = false /\ o = Raise e
  end.
Proof.
  destruct o as [r|e]; simpl.
  - split; [done|]. left. by exists r.
  - destruct (is_ValueError e) eqn:Hv; simpl.
    + split; [done|]. right. exists e, Server.INVALID_PARAMS. by rewrite Hv.
    + destruct (is_Exception e) eqn:He.
      * split; [done|]. right. exists e, Server.INTERNAL_ERROR. by rewrite Hv.
      * done.
Qed.

Ltac known_method Hm Hshape :=
  let r := fresh "r" in
  let e := fresh "e" in
  let code := fresh "code" in
  let Hid := fresh "Hid" in
  let Hr := fresh "Hr" in
  let He := fresh "He" in
  let Hc := fresh "Hc" in
  let Hnot := fresh "Hnot" in
  destruct Hshape as (Hid & [(r & _ & Hr & He)|(e & code & _ & Hr & He & Hc)]);
  (split; [exact Hid|]);
  [left; exists r; rewrite Hm;
   split; [exact Hr|]; split; [exact He|]; set_solver
  |right; eexists code, _;
   split; [exact Hr|]; split; [exact He|]; split;
   [intros _; rewrite Hc; destruct (is_ValueError e); auto
   |intros Hnot; exfalso; apply Hnot; rewrite Hm; set_solver]].

(** X16: what [mcp_endpoint] can answer. Whatever the request, the
    handlers, the engine and the console do, the endpoint either lets a
    [BaseException] through or returns a response that repeats the
    request's [id] and has exactly one of [result] and [error]. A result
    is only given for one of the three tool names; an error is an object
    with an integer [code] and a string [message], where the code is
    [-32601] exactly when the method is none of the three names (and then
    the handlers are left as they were), and [-32602] or [-32603]
    otherwise. *)
Theorem endpoint_outcome_well_formed
    (engine : gmap string pyval -> outcome pyval) (handlers : ToolHandlers)
    (request : Server.MCPRequest) (console : Console) (now later : datetime) :
  match (Server.mcp_endpoint_with engine handlers request console now later).1 with
  | Return resp =>
      Server.response_id resp = Server.id request /\
      ((exists r, Server.result resp = Some r /\ Server.error resp = None /\
                  Server.method request ∈ Server.known_methods) \/
       (exists code message,
          Server.result resp = None /\
          Server.error resp =
            Some {[ "code" := PInt code; "message" := PStr message ]} /\
          (Server.method request ∈ Server.known_methods ->
           code = Server.INVALID_PARAMS \/ code = Server.INTERNAL_ERROR) /\
          (Server.method request ∉ Server.known_methods ->
           code = Server.METHOD_NOT_FOUND /\
           message = "Method not found: " +:+ Server.method request /\
           (Server.mcp_endpoint_with engine handlers request console now later).2
             = handlers)))
  | Raise e => is_Exception e = false
  end.
Proof.
  unfold Server.mcp_endpoint_with, Server.known_methods.
  destruct (String.eqb_spec (Server.method request) "handle_game_invitation")
    as [Hm|Hinv].
  { destruct (handle_game_invitation _ _ _ _ _) as [o h]. cbn [fst].
    pose proof (shape_well_formed (Server.id request) o) as Hshape.
    destruct (Server.shape _ o) as [resp|e]; [|tauto].
    known_method Hm Hshape. }
  destruct (String.eqb_spec (Server.method request) "choose_parity")
    as [Hm|Hchoose].
  { cbn [fst].
    pose proof (shape_well_formed (Server.id request)
                  (choose_parity_with engine handlers (Server.params request)
                     console now later)) as Hshape.
    destruct (Server.shape _ _) as [resp|e]; [|tauto].
    known_method Hm Hshape. }
  destruct (String.eqb_spec (Server.method request) "notify_match_result")
    as [Hm|Hnotify].
  { destruct (notify_match_result _ _ _ _ _) as [o h]. cbn [fst].
    pose proof (shape_well_formed (Server.id request) o) as Hshape.
    destruct (Server.shape _ o) as [resp|e]; [|tauto].
    known_method Hm Hshape. }
  cbn [fst snd]. split; [done|]. right.
  exists Server.METHOD_NOT_FOUND, ("Method not found: " +:+ Server.method request).
  split; [done|]. split; [done|]. split; [|done].
  intros Hin. unfold Server.known_methods in Hin.
  rewrite !elem_of_cons, elem_of_nil in Hin. tauto.
Qed.

Lemma endpoint_outcome_well_formed_witness :
  (Server.mcp_endpoint_with (fun _ => Return (PStr "odd")) Samples.handlers
     (Server.Build_MCPRequest "2.0" "ping" ∅ 7) Samples.quiet
     Samples.reading Samples.reading).1 =
  Return (Server.error_response (-32601) "Method not found: ping" 7) /\
  match (Server.mcp_endpoint_with (fun _ => Return (PStr "odd")) Samples.handlers
           (Server.Build_MCPRequest "2.0" "ping" ∅ 7) Samples.quiet
           Samples.reading Samples.reading).1 with
  | Return resp => Server.response_id resp = 7
  | Raise e => is_Exception e = false
  end.
Proof.
  split; [reflexivity|].
  pose proof (endpoint_outcome_well_formed (fun _ => Return (PStr "odd"))
                Samples.handlers (Server.Build_MCPRequest "2.0" "ping" ∅ 7)
                Samples.quiet Samples.reading Samples.reading) as Hshape.
  destruct (Server.mcp_endpoint_with _ _ _ _ _ _).1 as [resp|e];
    [exact (proj1 Hshape)|exact Hshape].
Defined.

Lemma handlers_init_unregistered (pid name : string) (max : Z)
    (s0 : State.PlayerState) (strat : Strategy.StrategyEngine)
    (h : ToolHandlers) :
  State.__init__ pid name max = Return s0 ->
  Handlers.__init__ s0 strat = Return h ->
  state h = s0 /\ State.auth_token s0 = None /\
  Protocol.auth_token (protocol h) = None.
Proof.
  unfold State.__init__, Handlers.__init__, Protocol.__init__.
  destruct (negb (truthy (PStr pid))) eqn:Hpid; [discriminate|].
  intros [= <-]. cbn [State.player_id State.auth_token]. rewrite Hpid.
  cbn [mbind outcome_bind mret outcome_ret]. by intros [= <-].
Qed.

(** X17: an agent that has not registered answers every tool call with
    the JSON-RPC error [-32602] ("Invalid parameters"), whatever the
    parameters are. For handlers built on a freshly constructed state,
    the invitation, the parity request (when the console renders and the
    engine returns or times out) and the result notification (for a
    message [update_from_result] accepts) all get that error, whose
    message is the builder's complaint about the missing token. *)
Theorem unregistered_agent_reports_invalid_params
    (engine : gmap string pyval -> outcome pyval) (pid name : string)
    (max : Z) (s0 : State.PlayerState) (strat : Strategy.StrategyEngine)
    (h : ToolHandlers) (request : Server.MCPRequest) (console : Console)
    (now later : datetime) :
  State.__init__ pid name max = Return s0 ->
  Handlers.__init__ s0 strat = Return h ->
  let answer :=
    (Server.mcp_endpoint_with engine h request console now later).1 in
  let refusal message_type :=
    Return (Server.error_response Server.INVALID_PARAMS
              ("Invalid parameters: " +:+
               Protocol.missing_token_message message_type)
              (Server.id request)) in
  (Server.method request = "handle_game_invitation" ->
   answer = refusal "GAME_JOIN_ACK") /\
  (Server.method request = "choose_parity" ->
   print_parity_thinking console = None ->
   returns (engine (choice_context h (Server.params request))) = true \/
   engine (choice_context h (Server.params request)) = Raise AsyncioTimeoutError ->
   answer = refusal "CHOOSE_PARITY_RESPONSE") /\
  (Server.method request = "notify_match_result" ->
   State.well_formed (Server.params request) = true ->
   answer = refusal "RESULT_ACKNOWLEDGMENT").
Proof.
  intros Hs0 Hh.
  destruct (handlers_init_unregistered _ _ _ _ _ _ Hs0 Hh) as (Hstate & Htok & Hnone).
  cbn zeta. unfold Server.mcp_endpoint_with. split; [|split].
  - intros ->. cbn [String.eqb Ascii.eqb Bool.eqb fst].
    unfold handle_game_invitation. rewrite Hstate, Htok. cbn [fst].
    unfold Protocol.build_game_join_ack.
    rewrite _build_envelope_no_token by by rewrite Hnone. reflexivity.
  - intros -> Hthink Hengine. cbn [String.eqb Ascii.eqb Bool.eqb fst].
    unfold choose_parity_with. rewrite Hthink.
    cbn [rendered mbind outcome_bind].
    destruct Hengine as [Hret| ->].
    + destruct (engine _) as [v|]; [|discriminate].
      cbn [mbind outcome_bind].
      unfold Protocol.build_choose_parity_response.
      rewrite validated_choice_canonical. cbn [negb].
      rewrite _build_envelope_no_token by by rewrite Hnone. reflexivity.
    + cbn [mbind outcome_bind is_TimeoutError].
      unfold Protocol.build_choose_parity_response. cbn [in_even_odd eq_str negb].
      change (negb (String.eqb "even" "even" || String.eqb "even" "odd"))
        with false. cbn iota.
      rewrite _build_envelope_no_token by by rewrite Hnone. reflexivity.
  - intros -> Hwf. cbn [String.eqb Ascii.eqb Bool.eqb fst].
    destruct (notify_match_result_unregistered h (Server.params request)
                console now later) as [Hraise _]; [by rewrite Hnone|done|].
    destruct (notify_match_result _ _ _ _ _) as [o h']. cbn [fst] in *.
    by rewrite Hraise.
Qed.

Lemma unregistered_agent_reports_invalid_params_witness :
  (Server.mcp_endpoint_with (fun _ => Return (PStr "odd"))
     (Build_ToolHandlers (Samples.fresh_state 100) Samples.llm_engine
        Samples.fresh_builder)
     (Server.Build_MCPRequest "2.0" "notify_match_result"
        (Samples.game_over "R1M1" (PStr "P01")) 1)
     Samples.quiet Samples.reading Samples.reading).1 =
  Return (Server.error_response (-32602)
            ("Invalid parameters: " +:+
             Protocol.missing_token_message "RESULT_ACKNOWLEDGMENT") 1).
Proof.
  pose proof (unregistered_agent_reports_invalid_params
                (fun _ => Return (PStr "odd")) "P01" "Player" 100
                (Samples.fresh_state 100) Samples.llm_engine
                (Build_ToolHandlers (Samples.fresh_state 100)
                   Samples.llm_engine Samples.fresh_builder)
                (Server.Build_MCPRequest "2.0" "notify_match_result"
                   (Samples.game_over "R1M1" (PStr "P01")) 1)
                Samples.quiet Samples.reading Samples.reading
                eq_refl eq_refl) as (_ & _ & Hnotify).
  apply Hnotify; reflexivity.
Defined.

Lemma format_matches_objects (env : Strategy.environment)
    (ms : list pyval) :
  Forall (fun m => exists d, m = PDict d) ms ->
  forall i, returns (Strategy.format_matches env i ms) = true.
Proof.
  induction 1 as [|m ms [d ->] _ IH]; intros i; [done|].
  cbn [Strategy.format_matches]. unfold Strategy.format_match.
  cbn [get_method mbind outcome_bind mret outcome_ret].
  specialize (IH (S i)).
  by destruct (Strategy.format_matches env (S i) ms).
Qed.

(** X18: the prompt built for the reasoning service from a parity
    request fails on one input only. For the context that
    [choose_parity] assembles from the request and the player's state,
    [_format_context_prompt] returns unless the request's [standings] is
    a non-empty value that is not an object (a non-empty list or string,
    a non-zero number, [true]); the history taken from the state never
    makes it fail. *)
Theorem context_prompt_fails_on_standings_only (env : Strategy.environment)
    (self : ToolHandlers) (params : gmap string pyval) :
  returns (Strategy._format_context_prompt env (choice_context self params)) =
  match get params "standings" (PDict ∅) with
  | PDict _ => true
  | standings => negb (truthy standings)
  end.
Proof.
  unfold Strategy._format_context_prompt.
  change (get (choice_context self params) "standings" (PDict ∅))
    with (get params "standings" (PDict ∅)).
  change (get (choice_context self params) "history" (PList []))
    with (PList (PDict <$> State.get_match_history (state self) (Some 10))).
  assert (returns (Strategy.format_history env
            (PList (PDict <$> State.get_match_history (state self) (Some 10))))
          = true) as Hhistory.
  { unfold Strategy.format_history. destruct (truthy _); [|done].
    pose proof (format_matches_objects env
                  (slice_from (-5)
                     (PDict <$> State.get_match_history (state self) (Some 10))))
      as Hlines.
    assert (Forall (fun m => exists d, m = PDict d)
              (slice_from (-5)
                 (PDict <$> State.get_match_history (state self) (Some 10))))
      as Hobjects.
    { unfold slice_from. apply Forall_drop, Forall_fmap, Forall_forall.
      intros d _. by exists d. }
    specialize (Hlines Hobjects 1%nat).
    by destruct (Strategy.format_matches env 1 _). }
  destruct (Strategy.format_history env _) as [lines|]; [|discriminate].
  unfold Strategy.format_standings.
  destruct (get params "standings" (PDict ∅)) as [|b|z|q|s|l|d];
    try done; cbn [truthy];
    match goal with |- context [if ?b then _ else _] => by destruct b end.
Qed.

End DispatchExtras.
(** ** Registration and configuration *)

Section RegistrationFacts.
Import Timestamp Registration.

(** What a successful [extract_auth_token] says about the answer. *)
Lemma extract_auth_token_returns (env : network) (data v : pyval) :
  extract_auth_token env data = Return v ->
  truthy v = true /\
  ((exists t, v = PStr t) \/ (exists l, v = PList l)) /\
  exists d r, data = PDict d /\ d !! "result" = Some (PDict r) /\
              r !! "auth_token" = Some v.
Proof.
  unfold extract_auth_token.
  destruct data as [| | | |s|l|d]; cbn [contains mbind outcome_bind];
    try discriminate.
  - destruct (has_substring "result" s);
      cbn [contains item mbind outcome_bind]; [discriminate|].
    destruct (has_substring "error" s); discriminate.
  - destruct (existsb _ l); cbn [contains item mbind outcome_bind];
      [discriminate|].
    destruct (existsb _ l); discriminate.
  - case_bool_decide as Hres.
    + destruct Hres as [x Hx]. cbn [item mbind outcome_bind].
      unfold get at 1. rewrite Hx. cbn [default from_option id].
      destruct x as [| | | | | |r]; cbn [get_method mbind outcome_bind];
        try discriminate.
      destruct (truthy (get r "auth_token" PNone)) eqn:Htruthy; cbn iota;
        [|discriminate].
      destruct (get r "auth_token" PNone) as [| | | |t|l|d'] eqn:Htok;
        try discriminate; cbn [token_preview mbind outcome_bind];
        intros [= <-]; (split; [done|]); (split; [eauto|]);
        exists d, r; (split; [done|]); (split; [done|]);
        unfold get in Htok;
        (destruct (r !! "auth_token") as [?|]; simpl in Htok; by subst).
    + cbn [contains mbind outcome_bind].
      case_bool_decide as Herr; cbn [item mbind outcome_bind]; [|discriminate].
      destruct (get_method _ _ _); discriminate.
Qed.

(** X19: when [register] returns, what it returns can serve as a token.
    The returned value is true in a condition; it is the [auth_token]
    entry of the [result] object of the League Manager's answer to a
    request whose registration message has itself no [auth_token]; and
    when it is a string, it is not empty, so that after
    [update_auth_token] with it the state is registered and each of the
    three authenticated builders, called with arguments it accepts,
    returns a message carrying it. *)
Theorem registered_token_is_usable (self : RegistrationClient)
    (env : network) (player_id display_name callback_url : string)
    (now : datetime) (v : pyval) :
  register self env player_id display_name callback_url now = Return v ->
  truthy v = true /\
  (exists message d r,
     post env (league_manager_url self) (timeout self)
       (json_rpc_request message) = Return (PDict d) /\
     message !! "message_type" = Some (PStr "LEAGUE_REGISTER_REQUEST") /\
     message !! "player_id" = Some (PStr player_id) /\
     message !! "auth_token" = None /\
     d !! "result" = Some (PDict r) /\
     r !! "auth_token" = Some v) /\
  forall t, v = PStr t ->
    t <> EmptyString /\
    forall (h : Handlers.ToolHandlers) (k : Protocol.auth_builder)
           (conversation_id match_id : pyval) (now' : datetime),
      (forall c, k = Protocol.ChooseParityResponse c -> c = "even" \/ c = "odd") ->
      State.registered (Handlers.state (Handlers.update_auth_token h t)) = true /\
      exists msg,
        Protocol.build (Handlers.protocol (Handlers.update_auth_token h t)) k
          conversation_id match_id now' = Return msg /\
        msg !! "auth_token" = Some (PStr t).
Proof.
  unfold register, Protocol.__init__.
  destruct (negb (truthy (PStr player_id))); [discriminate|].
  cbn [mbind outcome_bind].
  destruct (register_request_fields
              {| Protocol.player_id := player_id; Protocol.auth_token := None |}
              (PStr ("registration-" +:+ String.substring 0 8 (uuid4_hex env)))
              display_name callback_url now)
    as (message & -> & Hnone & _ & Htype & _ & _ & _ & Hpid & _).
  cbn [mbind outcome_bind].
  destruct (post env _ _ _) as [data|] eqn:Hpost; [|discriminate].
  cbn [mbind outcome_bind].
  intros (Htruthy & Hkind & d & r & -> & Hresult & Htoken)%extract_auth_token_returns.
  split; [done|]. split; [by exists message, d, r|].
  intros t ->.
  assert (t <> EmptyString) as Hne by (intros ->; discriminate).
  split; [done|].
  intros h k cid mid now' Hk. split; [done|].
  assert (forall c, k = Protocol.ChooseParityResponse c ->
                    in_even_odd (PStr c) = true) as Hk'
    by (intros c Hc; by apply in_even_odd_str, Hk).
  destruct k as [accept arrival|c|status]; simpl;
    [unfold Protocol.build_game_join_ack
    |unfold Protocol.build_choose_parity_response;
     rewrite (Hk' c eq_refl); cbn [negb]
    |unfold Protocol.build_result_acknowledgment];
    rewrite (_build_envelope_token _ t) by done;
    eexists; (split; [reflexivity|]); reflexivity.
Qed.

Lemma registered_token_is_usable_witness :
  register (Registration.__init__ "http://localhost:8000/mcp" 10)
    Samples.granting "P01" "Player" "http://localhost:8101/mcp"
    Samples.reading = Return (PStr "tok-123") /\
  "tok-123" <> EmptyString.
Proof.
  assert (register (Registration.__init__ "http://localhost:8000/mcp" 10)
            Samples.granting "P01" "Player" "http://localhost:8101/mcp"
            Samples.reading = Return (PStr "tok-123")) as Hreg
    by (vm_compute; reflexivity).
  split; [exact Hreg|].
  destruct (registered_token_is_usable _ _ _ _ _ _ _ Hreg) as (_ & _ & Huse).
  apply (Huse "tok-123" eq_refl).
Defined.

(** X20: how [register] reads an answer object that grants no token.
    The [result] member decides alone: when it is present, the [error]
    member is never looked at. A [result] object without a true
    [auth_token] raises the [ValueError] "No auth_token in registration
    response"; a [result] that is [null], as in a response object that
    always has both members, raises an [AttributeError] and not the
    League Manager's message. Only without a [result] member is the
    [error] object reported, as "Registration failed: " followed by its
    message ("Unknown error" when it has none); with neither member the
    answer is an "Invalid response format". *)
Theorem registration_answer_without_token (env : network)
    (d : gmap string pyval) :
  (forall x, d !! "result" = Some x ->
     extract_auth_token env (PDict d) =
     extract_auth_token env (PDict (delete "error" d))) /\
  (forall r, d !! "result" = Some (PDict r) ->
     truthy (get r "auth_token" PNone) = false ->
     extract_auth_token env (PDict d) =
     Raise (ValueError "No auth_token in registration response")) /\
  (d !! "result" = Some PNone ->
     extract_auth_token env (PDict d) =
     Raise (AttributeError "'NoneType' object has no attribute 'get'")) /\
  (d !! "result" = None ->
     forall err, d !! "error" = Some (PDict err) ->
     extract_auth_token env (PDict d) =
     Raise (ValueError ("Registration failed: " +:+
                        py_str env (get err "message" (PStr "Unknown error"))))) /\
  (d !! "result" = None -> d !! "error" = None ->
     extract_auth_token env (PDict d) =
     Raise (ValueError "Invalid response format")).
Proof.
  unfold extract_auth_token, contains, item, get.
  split; [|split; [|split; [|split]]].
  - intros x Hx. rewrite lookup_delete_ne by done. rewrite Hx.
    rewrite (bool_decide_eq_true_2 (is_Some (Some x))) by eauto. reflexivity.
  - intros r Hr Hfalse. rewrite Hr.
    rewrite (bool_decide_eq_true_2 (is_Some (Some (PDict r)))) by eauto.
    cbn [mbind outcome_bind default from_option id get_method].
    unfold get. by rewrite Hfalse.
  - intros Hr. rewrite Hr.
    rewrite (bool_decide_eq_true_2 (is_Some (Some PNone))) by eauto.
    reflexivity.
  - intros Hr err Herr. rewrite Hr, Herr.
    rewrite (bool_decide_eq_false_2 (is_Some None))
      by (intros [? ?]; discriminate).
    cbn [mbind outcome_bind].
    rewrite (bool_decide_eq_true_2 (is_Some (Some (PDict err)))) by eauto.
    reflexivity.
  - intros Hr Herr. rewrite Hr, Herr.
    rewrite (bool_decide_eq_false_2 (is_Some None))
      by (intros [? ?]; discriminate).
    reflexivity.
Qed.

Lemma registration_answer_without_token_witness :
  extract_auth_token Samples.granting (PDict Samples.refusal) =
  Raise (AttributeError "'NoneType' object has no attribute 'get'").
Proof.
  pose proof (registration_answer_without_token Samples.granting
                Samples.refusal) as (_ & _ & Hnull & _).
  apply Hnull. reflexivity.
Defined.

End RegistrationFacts.

Section SettingsFacts.
Import Settings.

Lemma getenv_set (environ : gmap string string) (name value : string)
    (default : pyval) :
  environ !! name = Some value -> getenv environ name default = PStr value.
Proof. unfold getenv. by intros ->. Qed.

Lemma get_method_outcome (obj : pyval) (key : string) (default : pyval) :
  (exists v, get_method obj (PStr key) default = Return v) \/
  (exists m, get_method obj (PStr key) default = Raise (AttributeError m)).
Proof. destruct obj; simpl; eauto. Qed.

(** X21: the environment takes precedence over the configuration file,
    but the file is read first. For each of the seven string settings,
    when its environment variable is set the getter either returns the
    variable's value or raises an [AttributeError]; it never returns a
    value from the file. The error is real: the default is computed
    before [os.getenv] is called, so a [player] section left empty in the
    file (a [null]) makes [player_id] and [display_name] raise even with
    their variables set. *)
Theorem environment_overrides_configuration :
  Forall (fun '(name, getter) =>
    forall (self : Settings) (environ : gmap string string) (value : string),
      environ !! name = Some value ->
      getter self environ = Return (PStr value) \/
      exists m, getter self environ = Raise (AttributeError m)) getters /\
  (forall (self : Settings) (d : gmap string pyval)
          (environ : gmap string string),
     config_data self = PDict d -> d !! "player" = Some PNone ->
     player_id self environ =
       Raise (AttributeError "'NoneType' object has no attribute 'get'") /\
     display_name self environ =
       Raise (AttributeError "'NoneType' object has no attribute 'get'")).
Proof.
  split.
  - unfold getters.
    repeat (apply Forall_cons_2; [intros self environ value Hset|]);
      [..|apply Forall_nil_2];
      unfold player_id, display_name, strategy_mode, gemini_model_id,
        league_manager_host, log_level, log_format;
      repeat match goal with
        | |- context [get_method ?o (PStr ?k) ?dflt] =>
            destruct (get_method_outcome o k dflt) as [[? ->]|[? ->]];
            cbn [mbind outcome_bind mret outcome_ret]; [|by eauto]
        end;
      left; by rewrite (getenv_set _ _ value).
  - intros self d environ Hconfig Hplayer.
    unfold player_id, display_name, get_method, get.
    by rewrite Hconfig, Hplayer.
Qed.

Lemma environment_overrides_configuration_witness :
  player_id (Build_Settings (PDict {[ "player" := PNone ]}))
    {[ "PLAYER_ID" := "P07" ]} =
  Raise (AttributeError "'NoneType' object has no attribute 'get'").
Proof.
  pose proof environment_overrides_configuration as [_ Hnull].
  destruct (Hnull (Build_Settings (PDict {[ "player" := PNone ]}))
                  {[ "player" := PNone ]} {[ "PLAYER_ID" := "P07" ]})
    as [Hid _]; [reflexivity|vm_compute; reflexivity|exact Hid].
Defined.

End SettingsFacts.
(** ** Further properties of timestamps *)

Section TimestampExtras.
Import Timestamp.

Lemma rstrip_cons_ne (c a : ascii) (s : string) :
  Ascii.eqb a c = false -> rstrip c (String a s) = String a (rstrip c s).
Proof. intros Ha. cbn [rstrip]. by rewrite Ha, andb_false_r. Qed.

Lemma rstrip_last_ne (c a : ascii) (x : string) :
  Ascii.eqb a c = false ->
  rstrip c (x +:+ String a EmptyString) = x +:+ String a EmptyString.
Proof.
  intros Ha. induction x as [|b x IH].
  - rewrite str_app_nil_l. by rewrite rstrip_cons_ne.
  - rewrite str_app_cons. cbn [rstrip]. rewrite IH.
    destruct x; by rewrite ?str_app_nil_l, ?str_app_cons.
Qed.

Lemma read_fraction_nondigit (f rest : string) (c : ascii) :
  is_digit c = false ->
  forall acc len, read_fraction acc len (f +:+ String c rest) = None.
Proof.
  intros Hc. induction f as [|a f IH]; intros acc len.
  - rewrite str_app_nil_l. cbn [read_fraction]. by rewrite Hc.
  - rewrite str_app_cons. cbn [read_fraction].
    destruct (is_digit a); [apply IH|done].
Qed.

Lemma many1_inv (p : ascii -> bool) (k : string -> bool) (s : string) :
  many1 p k s = true ->
  exists f rest, s = f +:+ rest /\ f <> EmptyString /\
                 str_forall p f = true /\ k rest = true.
Proof.
  induction s as [|c s IH]; [discriminate|]. cbn [many1].
  intros [Hc [Hmore|Hk]%orb_true_iff]%andb_true_iff.
  - destruct (IH Hmore) as (f & rest & -> & _ & Hf & Hk).
    exists (String c f), rest. rewrite str_app_cons. cbn [str_forall].
    by rewrite Hc, Hf.
  - exists (String c EmptyString), s.
    rewrite str_app_cons, str_app_nil_l. cbn [str_forall]. by rewrite Hc.
Qed.

Lemma at_end_inv (s : string) :
  at_end s = true -> s = EmptyString \/ s = nl.
Proof.
  unfold at_end. intros [H|H]%orb_true_iff; apply String.eqb_eq in H; auto.
Qed.

Lemma endswith_cons (suffix : string) (c : ascii) (s : string) :
  endswith suffix s = true -> endswith suffix (String c s) = true.
Proof. intros Hs. cbn [endswith]. rewrite Hs. apply orb_true_r. Qed.

Lemma is_digit_not_Z (c : ascii) : is_digit c = true -> Ascii.eqb c "Z" = false.
Proof. intros Hc. apply negb_true_iff. by apply is_digit_not. Qed.

Lemma is_digit_iso_char (c : ascii) : is_digit c = true -> iso_char c = true.
Proof. unfold iso_char. by intros ->. Qed.

Lemma take_digits_two (c1 c2 : ascii) (acc : N) (rest : string) :
  is_digit c1 = true -> is_digit c2 = true ->
  take_digits 2 acc (String c1 (String c2 rest)) =
  Some ((10 * (10 * acc + digit_val c1) + digit_val c2)%N, rest).
Proof. intros H1 H2. cbn [take_digits]. by rewrite H1, H2. Qed.

Lemma take_digits_four (c1 c2 c3 c4 : ascii) (acc : N) (rest : string) :
  is_digit c1 = true -> is_digit c2 = true ->
  is_digit c3 = true -> is_digit c4 = true ->
  exists n, take_digits 4 acc (String c1 (String c2 (String c3 (String c4 rest)))) =
  Some (n, rest).
Proof. intros H1 H2 H3 H4. cbn [take_digits]. rewrite H1, H2, H3, H4. eauto. Qed.

Lemma parse_iso_chain (a a0 a1 a2 a4 a5 a7 a8 a10 a11 a13 a14 a16 a17 sep : ascii) (s : string) :
  is_digit a = true -> is_digit a0 = true -> is_digit a1 = true -> is_digit a2 = true ->
  is_digit a4 = true -> is_digit a5 = true -> is_digit a7 = true -> is_digit a8 = true ->
  is_digit a10 = true -> is_digit a11 = true -> is_digit a13 = true -> is_digit a14 = true ->
  is_digit a16 = true -> is_digit a17 = true ->
  exists y mo d h mi sec,
  parse_iso
      (String a (String a0 (String a1 (String a2 (String "-" (String a4 (String a5 (String "-"
       (String a7 (String a8 (String sep (String a10 (String a11 (String ":" (String a13
       (String a14 (String ":" (String a16 (String a17 s))))))))))))))))))) =
  parse_fraction y mo d h mi sec s.
Proof.
  intros. unfold parse_iso.
  destruct (take_digits_four a a0 a1 a2 0
              (String "-" (String a4 (String a5 (String "-"
       (String a7 (String a8 (String sep (String a10 (String a11 (String ":" (String a13
       (String a14 (String ":" (String a16 (String a17 s)))))))))))))))) as [y ->]; [done..|].
  repeat (cbn [mbind option_bind expect skip_char Ascii.eqb Bool.eqb];
          rewrite take_digits_two by done).
  cbn [mbind option_bind]. eauto 10.
Qed.
Lemma parse_timestamp_returns (v : py_version) (s : string) (d : datetime) :
  _parse_timestamp v s = Return d ->
  valid_datetime d = true /\
  exists frac, parse_iso (rstrip "Z" s) = Some (d, frac) /\
               from_option (fraction_ok v) true frac = true.
Proof.
  unfold _parse_timestamp, fromisoformat.
  destruct (parse_iso _) as [[d' frac]|]; [|discriminate].
  destruct (valid_datetime d') eqn:Hd'; [|discriminate].
  destruct (from_option _ _ _) eqn:Hfrac; [|discriminate].
  intros [= <-]. split; [done|]. by exists frac.
Qed.

(** X22: [validate_timestamp] accepts only the one shape. A string it
    answers [True] for ends in ["Z"], consists of digits and the
    characters [-], [:], [.], [T] and [Z] only (so it has no ["+"], no
    offset and no blank), and parses to a valid date and time. The
    pattern alone would let a trailing newline through, since [$] also
    matches before one; the parser rejects such a string. Digits are
    the ASCII digits, as everywhere in [Timestamp]. *)
Theorem validate_timestamp_sound (v : py_version) (s : string) :
  validate_timestamp v s = Return true ->
  endswith "Z" s = true /\
  str_forall iso_char s = true /\
  exists d, _parse_timestamp v s = Return d /\ valid_datetime d = true.
Proof.
  unfold validate_timestamp.
  destruct (String.eqb s EmptyString); [discriminate|].
  destruct (pattern_match ISO8601_PATTERN s) eqn:Hpat; [|discriminate].
  cbn [negb].
  destruct (_parse_timestamp v s) as [d|e] eqn:Hparse;
    [intros _|destruct e; discriminate].
  apply parse_timestamp_returns in Hparse as (Hvalid & frac & Hparsed & Hfrac).
  cut (endswith "Z" s = true /\ str_forall iso_char s = true).
  { intros [Hz Hchars]. split; [done|]. split; [done|]. by exists d. }
  clear Hvalid Hfrac.
  unfold pattern_match, ISO8601_PATTERN in Hpat.
  cbn [re_match times in_class] in Hpat.
  do 19 (destruct s as [|? s]; [discriminate|];
         apply andb_true_iff in Hpat; destruct Hpat as [? Hpat]).
  repeat match goal with
         | Hc : Ascii.eqb _ _ = true |- _ => apply Ascii.eqb_eq in Hc; subst
         end.
  assert (exists y mo d' h mi sec r,
            parse_fraction y mo d' h mi sec (rstrip "Z" s) = Some r) as Htail.
  { clear Hpat.
    rewrite !rstrip_cons_ne in Hparsed
      by (reflexivity || by apply is_digit_not_Z).
    match type of Hparsed with
    | parse_iso (String ?c1 (String ?c2 (String ?c3 (String ?c4
        (String _ (String ?c5 (String ?c6 (String _ (String ?c7 (String ?c8
        (String ?sep (String ?c9 (String ?c10 (String _ (String ?c11
        (String ?c12 (String _ (String ?c13 (String ?c14 ?t)))))))))))))))))))
      = _ =>
        destruct (parse_iso_chain c1 c2 c3 c4 c5 c6 c7 c8 c9 c10 c11 c12 c13
                    c14 sep t) as (y & mo & d' & h & mi & sec & Hiso);
        [done..|rewrite Hiso in Hparsed]
    end.
    by exists y, mo, d', h, mi, sec, (d, frac). }
  destruct Htail as (y & mo & d' & h & mi & sec & r & Htail).
  assert (endswith "Z" s = true /\ str_forall iso_char s = true) as [Hz Hiso].
  { apply orb_true_iff in Hpat as [Hpat|Hpat];
      (destruct s as [|c s]; [discriminate|]);
      apply andb_true_iff in Hpat as [Hc Hpat];
      apply Ascii.eqb_eq in Hc as ->.
    - apply many1_inv in Hpat as (f & rest & -> & _ & Hf & Hrest).
      destruct rest as [|z e]; [discriminate|].
      apply andb_true_iff in Hrest as [Hzed He].
      apply Ascii.eqb_eq in Hzed as ->.
      rewrite andb_true_r in He. apply at_end_inv in He as [-> | ->].
      + split.
        * by apply endswith_cons, endswith_app.
        * cbn [str_forall]. rewrite str_forall_app.
          rewrite (str_forall_impl _ _ _ is_digit_iso_char Hf). reflexivity.
      + exfalso. revert Htail.
        replace (String "." (f +:+ String "Z" nl))
          with (String "." (f +:+ "Z") +:+ nl)
          by (by rewrite str_app_cons, str_app_assoc).
        unfold nl at 1. rewrite rstrip_last_ne by reflexivity.
        rewrite str_app_cons, str_app_assoc.
        cbn [parse_fraction Ascii.eqb Bool.eqb].
        rewrite str_app_cons, str_app_nil_l.
        by rewrite read_fraction_nondigit.
    - rewrite andb_true_r in Hpat. apply at_end_inv in Hpat as [-> | ->].
      + done.
      + discriminate Htail. }
  split.
  - by do 19 apply endswith_cons.
  - cbn [str_forall].
    repeat match goal with
           | Hc : is_digit ?c = true |- _ =>
               rewrite (is_digit_iso_char c Hc); clear Hc
           end.
    exact Hiso.
Qed.
Lemma validate_timestamp_sound_witness :
  endswith "Z" "2025-01-15T10:30:00.5Z" = true /\
  str_forall iso_char "2025-01-15T10:30:00.5Z" = true /\
  exists d, _parse_timestamp From311 "2025-01-15T10:30:00.5Z" = Return d /\
            valid_datetime d = true.
Proof.
  apply (validate_timestamp_sound From311 "2025-01-15T10:30:00.5Z").
  vm_compute. reflexivity.
Defined.

(** The string that the pattern lets through and the parser stops. *)
Example validate_timestamp_trailing_newline :
  pattern_match ISO8601_PATTERN ("2025-01-15T10:30:00Z" +:+ nl) = true /\
  validate_timestamp From311 ("2025-01-15T10:30:00Z" +:+ nl) = Return false.
Proof. split; vm_compute; reflexivity. Qed.

Example toordinal_sample :
  toordinal Samples.reading = 739266%Z /\
  timedelta Samples.reading Samples.whole_second = 123456%Z.
Proof. split; vm_compute; reflexivity. Qed.

Lemma current_time_own (v : py_version) (what : string) (stop now : datetime) :
  valid_datetime stop = true ->
  current_time v what (Some (get_utc_now stop)) now = Return stop.
Proof.
  intros Hstop. unfold current_time.
  rewrite get_utc_now_nonempty, validate_timestamp_get_utc_now by done.
  cbn [negb mbind outcome_bind]. by apply parse_get_utc_now.
Qed.

(** X23: the two deadline functions accept the timestamps the module
    produces. For timestamps made by [get_utc_now] from valid clock
    readings, [is_expired] with a bound that is not negative and
    [get_seconds_until_deadline] with any bound return, and what they
    compare is the exact difference of the two readings (of the start and
    the current time when no reference is given). [is_expired] checks the
    bound before anything else: a negative bound is a [ValueError] that
    names it, whatever the timestamps are. *)
Theorem deadlines_accept_own_timestamps {F : Type} (v : py_version)
    (exceeds : Z -> Z -> bool) (remaining : Z -> Z -> F)
    (start stop now : datetime) (timeout : Z) :
  valid_datetime start = true -> valid_datetime stop = true ->
  ((0 <= timeout)%Z ->
     is_expired v exceeds (get_utc_now start) timeout
       (Some (get_utc_now stop)) now =
       Return (exceeds (timedelta stop start) timeout) /\
     is_expired v exceeds (get_utc_now start) timeout None now =
       Return (exceeds (timedelta now start) timeout)) /\
  ((timeout < 0)%Z ->
     forall timestamp_str reference_time,
       is_expired v exceeds timestamp_str timeout reference_time now =
       Raise (ValueError ("timeout_seconds must be non-negative, got " +:+
                          int_str timeout))) /\
  get_seconds_until_deadline v remaining (get_utc_now start) timeout
    (Some (get_utc_now stop)) now =
    Return (remaining timeout (timedelta stop start)) /\
  get_seconds_until_deadline v remaining (get_utc_now start) timeout None now =
    Return (remaining timeout (timedelta now start)).
Proof.
  intros Hstart Hstop. split; [|split].
  - intros Hpos. unfold is_expired.
    destruct (Z.ltb_spec timeout 0); [lia|].
    rewrite validate_timestamp_get_utc_now by done.
    cbn [negb mbind outcome_bind].
    rewrite parse_get_utc_now by done. cbn [mbind outcome_bind].
    by rewrite current_time_own.
  - intros Hneg timestamp_str reference_time. unfold is_expired.
    by destruct (Z.ltb_spec timeout 0); [|lia].
  - unfold get_seconds_until_deadline.
    rewrite validate_timestamp_get_utc_now by done.
    cbn [negb mbind outcome_bind].
    rewrite parse_get_utc_now by done. cbn [mbind outcome_bind].
    split; [by rewrite current_time_own|done].
Qed.

Lemma deadlines_accept_own_timestamps_witness :
  is_expired Before311 (fun elapsed bound => (bound * 1000000 <? elapsed)%Z)
    (get_utc_now Samples.whole_second) 30 (Some (get_utc_now Samples.reading))
    Samples.reading = Return false.
Proof.
  pose proof (deadlines_accept_own_timestamps (F := Z) Before311
                (fun elapsed bound => (bound * 1000000 <? elapsed)%Z)
                (fun bound elapsed => (bound * 1000000 - elapsed)%Z)
                Samples.whole_second Samples.reading Samples.reading 30
                eq_refl eq_refl) as [Hexpired _].
  destruct Hexpired as [Hgiven _]; [lia|]. exact Hgiven.
Defined.

End TimestampExtras.
